(** * Link-report cleaner

    A shallow embedding of [process_data] and [extract_main_domain] of
    [interlinking_streamlit.py], and the properties of the pipeline that the
    specification states about it.

    A [DataFrame] is an ordered sequence of column labels and a sequence of
    records; a record maps the labels to cells.  Text is a byte string, so
    the development speaks about ASCII text.  The Streamlit notices
    ([st.warning], [st.success]) do not change control flow and are left out;
    [st.error] followed by [return None, None] is the [Failed] outcome, and a
    Python exception that leaves [process_data] is the [Raised] outcome. *)

From Stdlib Require Import List String Ascii ZArith NArith Bool Arith Lia.
From Stdlib Require Import Permutation Sorted.
Import ListNotations.
Local Open Scope string_scope.
Local Open Scope list_scope.

(** ** Cells, records and frames *)

(** A cell of an object column: the missing value [NaN] (the float that
    [read_csv] puts in an empty cell), a [str] or an [int].  [None], [bool]
    and the other floats are not among the cells. *)
Inductive cell : Type :=
| NaN
| Str (s : string)
| Int (z : Z).

(** Identity of cells as hashing sees it ([value_counts], [drop_duplicates],
    [isin]): two missing values are the same key. *)
Definition cell_eqb (a b : cell) : bool :=
  match a, b with
  | NaN, NaN => true
  | Str s, Str t => String.eqb s t
  | Int x, Int y => Z.eqb x y
  | _, _ => false
  end.

(** Element-wise [==] of two Series: a missing value equals nothing. *)
Definition py_eq (a b : cell) : bool :=
  match a, b with
  | Str s, Str t => String.eqb s t
  | Int x, Int y => Z.eqb x y
  | _, _ => false
  end.

Definition notna (c : cell) : bool :=
  match c with NaN => false | _ => true end.

Definition is_str (c : cell) : bool :=
  match c with Str _ => true | _ => false end.

Definition is_int (c : cell) : bool :=
  match c with Int _ => true | _ => false end.

Definition row : Type := list (string * cell).

Fixpoint get (c : string) (r : row) : cell :=
  match r with
  | [] => NaN
  | (k, v) :: r' => if String.eqb k c then v else get c r'
  end.

Record DataFrame : Type := mkDF { columns : list string; rows : list row }.

Definition mem (c : string) (l : list string) : bool :=
  existsb (String.eqb c) l.

(** [c in df.columns] *)
Definition has_column (c : string) (df : DataFrame) : bool :=
  mem c (columns df).

(** [df[c]] as the list of its values, in row order. *)
Definition column (c : string) (df : DataFrame) : list cell :=
  map (get c) (rows df).

(** [df.drop(columns=names)] for labels that exist. *)
Definition drop_row (names : list string) (r : row) : row :=
  filter (fun kv => negb (mem (fst kv) names)) r.

Definition drop (names : list string) (df : DataFrame) : DataFrame :=
  {| columns := filter (fun c => negb (mem c names)) (columns df);
     rows := map (drop_row names) (rows df) |}.

(** [df[mask]] where the mask is computed record by record. *)
Definition select (p : row -> bool) (df : DataFrame) : DataFrame :=
  {| columns := columns df; rows := filter p (rows df) |}.

(** [df[c] = values] computed record by record: the value replaces the one
    the record has under [c], or is appended as a new last column. *)
Fixpoint set_cell (c : string) (v : cell) (r : row) : row :=
  match r with
  | [] => [(c, v)]
  | (k, w) :: r' => if String.eqb k c then (k, v) :: r' else (k, w) :: set_cell c v r'
  end.

Definition assign (c : string) (f : row -> cell) (df : DataFrame) : DataFrame :=
  {| columns := if mem c (columns df) then columns df else columns df ++ [c];
     rows := map (fun r => set_cell c (f r) r) (rows df) |}.

(** Position of a label in the column index. *)
Fixpoint get_loc (c : string) (l : list string) : option nat :=
  match l with
  | [] => None
  | k :: l' => if String.eqb k c then Some 0
               else match get_loc c l' with Some i => Some (S i) | None => None end
  end.

(** [df.loc[:, start:stop].columns]: the labels from the position of [start]
    to the position of [stop], both included; the slice is empty when [stop]
    lies before [start]. *)
Definition loc_slice (start stop : string) (l : list string) : list string :=
  match get_loc start l, get_loc stop l with
  | Some i, Some j => firstn (S j - i) (skipn i l)
  | _, _ => []
  end.

(** ** Outcomes *)

Inductive error : Type :=
| MissingColumn (c : string)
| EmptyDomainSet.

Inductive exn : Type :=
| AttributeError
| ValueError
| KeyError
| TypeError
| IndexError
| ReError.

Inductive outcome (A : Type) : Type :=
| Ok (a : A)
| Failed (e : error)
| Raised (x : exn).

Arguments Ok {A} a.
Arguments Failed {A} e.
Arguments Raised {A} x.

Definition bind {A B : Type} (m : outcome A) (k : A -> outcome B) : outcome B :=
  match m with
  | Ok a => k a
  | Failed e => Failed e
  | Raised x => Raised x
  end.

Notation "x <- m ;; k" := (bind m (fun x => k))
  (at level 61, m at next level, right associativity).

Fixpoint mapM {A B : Type} (f : A -> outcome B) (l : list A) : outcome (list B) :=
  match l with
  | [] => Ok []
  | a :: l' => b <- f a ;; bs <- mapM f l' ;; Ok (b :: bs)
  end.

(** ** The library services the pipeline calls

    [re_compile pat] is [re.compile(pat)]: [None] when it raises [re.error],
    otherwise the predicate [s |-> pattern.search(s) is not None].
    [argsort lt keys] is numpy's [argsort] with the default
    [kind='quicksort'] on keys compared by [lt].  [netloc_check] is the
    validation [urlsplit] hands to [ipaddress] and [unicodedata] for a
    network location that has both brackets or a non-ASCII character. *)
Record PyLib : Type := mkLib {
  re_compile : string -> option (string -> bool);
  argsort : forall A : Type, (A -> A -> bool) -> list A -> list nat;
  netloc_check : string -> bool
}.

(** [l[indexer]] *)
Definition take {A : Type} (l : list A) (indexer : list nat) : list A :=
  flat_map (fun i => match nth_error l i with Some a => [a] | None => [] end) indexer.

(** What the documentation of the libraries promises: [argsort] returns a
    permutation of the positions, which lists the keys in ascending order;
    the empty pattern is found in every string. *)
Record LibOk (L : PyLib) : Prop := mkLibOk {
  argsort_perm : forall (A : Type) (lt : A -> A -> bool) (l : list A),
      Permutation (argsort L A lt l) (seq 0 (List.length l));
  argsort_sorted : forall l : list string,
      StronglySorted (fun a b => String.leb a b = true) (take l (argsort L string String.ltb l));
  re_empty : exists m, re_compile L "" = Some m /\ forall s, m s = true
}.

(** ** [urlparse(url).netloc] *)

Fixpoint string_forallb (p : ascii -> bool) (s : string) : bool :=
  match s with
  | EmptyString => true
  | String c s' => p c && string_forallb p s'
  end.

Fixpoint string_existsb (p : ascii -> bool) (s : string) : bool :=
  match s with
  | EmptyString => false
  | String c s' => p c || string_existsb p s'
  end.

Fixpoint lstrip (p : ascii -> bool) (s : string) : string :=
  match s with
  | EmptyString => EmptyString
  | String c s' => if p c then lstrip p s' else s
  end.

Fixpoint remove (p : ascii -> bool) (s : string) : string :=
  match s with
  | EmptyString => EmptyString
  | String c s' => if p c then remove p s' else String c (remove p s')
  end.

Definition between (lo hi : nat) (c : ascii) : bool :=
  (lo <=? nat_of_ascii c)%nat && (nat_of_ascii c <=? hi)%nat.

(** [_WHATWG_C0_CONTROL_OR_SPACE] *)
Definition c0_control_or_space (c : ascii) : bool := between 0 32 c.

(** [_UNSAFE_URL_BYTES_TO_REMOVE]: tab, carriage return, line feed *)
Definition unsafe_url_byte (c : ascii) : bool :=
  let n := nat_of_ascii c in (n =? 9)%nat || (n =? 13)%nat || (n =? 10)%nat.

Definition isascii (c : ascii) : bool := between 0 127 c.

Definition isalpha (c : ascii) : bool := between 65 90 c || between 97 122 c.

Definition scheme_char (c : ascii) : bool :=
  isalpha c || between 48 57 c
  || Ascii.eqb c "+" || Ascii.eqb c "-" || Ascii.eqb c ".".

Definition slice_from (i : nat) (s : string) : string :=
  substring i (String.length s - i) s.

Definition first_is (p : ascii -> bool) (s : string) : bool :=
  match s with String c _ => p c | EmptyString => false end.

(** The scheme test of [urlsplit]; the result is the url after the scheme. *)
Definition split_scheme (url : string) : string :=
  match index 0 ":" url with
  | Some i =>
      if (0 <? i)%nat && first_is isascii url && first_is isalpha url
         && string_forallb scheme_char (substring 0 i url)
      then slice_from (S i) url
      else url
  | None => url
  end.

(** [_splitnetloc(url, start)[0]] *)
Definition splitnetloc (url : string) (start : nat) : string :=
  let delim :=
    fold_left (fun d c => match index start c url with
                          | Some w => Nat.min d w
                          | None => d
                          end) ["/"; "?"; "#"] (String.length url) in
  substring start (delim - start) url.

Definition has_char (c : ascii) (s : string) : bool :=
  string_existsb (Ascii.eqb c) s.

Definition urlsplit_netloc (L : PyLib) (url : string) : outcome string :=
  let url := lstrip c0_control_or_space url in
  let url := remove unsafe_url_byte url in
  let url := split_scheme url in
  if String.eqb (substring 0 2 url) "//" then
    let netloc := splitnetloc url 2 in
    if xorb (has_char "[" netloc) (has_char "]" netloc) then Raised ValueError
    else if ((has_char "[" netloc && has_char "]" netloc)
             || negb (string_forallb isascii netloc))
            && negb (netloc_check L netloc)
    then Raised ValueError
    else Ok netloc
  else Ok "".

(** [extract_main_domain(url)].  For a cell that is not a [str], [urlparse]
    decodes its argument: [NaN] and a number other than 0 have no [decode],
    which raises [AttributeError].  The number 0 is the one cell that
    [urlparse] reads as empty bytes instead; bytes are not among the
    domains here, and that cell is given the exception of the other
    numbers, so nothing below is to be read as a statement about a [Source]
    cell that is the number 0. *)
Definition extract_main_domain (L : PyLib) (url : cell) : outcome string :=
  match url with
  | Str s => urlsplit_netloc L s
  | _ => Raised AttributeError
  end.

(** ** [Counter] and [most_common(1)] *)

Section Counting.
Context {K : Type} (eqb : K -> K -> bool).

(** [counter[k] += 1]; a new key goes last (insertion order). *)
Fixpoint incr (k : K) (c : list (K * nat)) : list (K * nat) :=
  match c with
  | [] => [(k, 1)]
  | (k', n) :: c' => if eqb k' k then (k', S n) :: c' else (k', n) :: incr k c'
  end.

Definition Counter (l : list K) : list (K * nat) :=
  fold_left (fun c k => incr k c) l [].

(** [max(items, key=itemgetter(1))]: a later item wins only when its count
    is strictly larger. *)
Fixpoint max_by_count (best : K * nat) (l : list (K * nat)) : K * nat :=
  match l with
  | [] => best
  | x :: l' => max_by_count (if (snd best <? snd x)%nat then x else best) l'
  end.

(** [heapq.nlargest(1, items, key=itemgetter(1))] *)
Definition most_common1 (c : list (K * nat)) : list (K * nat) :=
  match c with
  | [] => []
  | x :: c' => [max_by_count x c']
  end.

Definition count_of (k : K) (l : list K) : nat :=
  List.length (filter (eqb k) l).

(** The keys in the order in which they are first seen. *)
Fixpoint distinct (l : list K) : list K :=
  match l with
  | [] => []
  | x :: l' => x :: filter (fun y => negb (eqb x y)) (distinct l')
  end.
End Counting.

(** ** The pandas operations of the pipeline *)

(** The [.str] accessor on a column of dtype object: it refuses a Series
    whose values, the missing ones apart, are all numbers, and accepts one
    that holds text or no value at all.  A frame here has no dtypes: a
    column of a numeric dtype, as [read_csv] makes of a column whose cells
    are all empty, is refused by pandas whatever it holds, and is not
    covered. *)
Definition str_accessor (vals : list cell) : outcome unit :=
  match filter notna vals with
  | [] => Ok tt
  | present => if forallb is_int present then Raised AttributeError else Ok tt
  end.

(** [Series.value_counts()]: missing values are not counted; the keys come
    in first-seen order and are then sorted by descending count, which the
    library does by reversing, sorting ascending and reversing back. *)
Definition value_counts (L : PyLib) (vals : list cell) : list (cell * nat) :=
  let kc := Counter cell_eqb (filter notna vals) in
  let n := List.length kc in
  let order := argsort L nat Nat.ltb (rev (map snd kc)) in
  take kc (rev (map (fun i => n - 1 - i) order)).

Definition strs (l : list cell) : list string :=
  flat_map (fun c => match c with Str s => [s] | _ => [] end) l.

Definition ints (l : list cell) : list Z :=
  flat_map (fun c => match c with Int z => [z] | _ => [] end) l.

(** [nargsort(keys, kind='quicksort', ascending=True, na_position='last')];
    keys of different types cannot be compared. *)
Definition nargsort (L : PyLib) (keys : list cell) : outcome (list nat) :=
  let idx := seq 0 (List.length keys) in
  let non_nan_idx := filter (fun i => notna (nth i keys NaN)) idx in
  let nan_idx := filter (fun i => negb (notna (nth i keys NaN))) idx in
  let non_nans := filter notna keys in
  order <- (if forallb is_str non_nans
            then Ok (argsort L string String.ltb (strs non_nans))
            else if forallb is_int non_nans
                 then Ok (argsort L Z Z.ltb (ints non_nans))
                 else Raised TypeError) ;;
  Ok (take non_nan_idx order ++ nan_idx).

(** [df.sort_values(by=c)] *)
Definition sort_values (L : PyLib) (c : string) (df : DataFrame) : outcome DataFrame :=
  if has_column c df then
    indexer <- nargsort L (column c df) ;;
    Ok {| columns := columns df; rows := take (rows df) indexer |}
  else Raised KeyError.

(** [df.drop_duplicates(subset=[a, b])]: the first record of each pair stays. *)
Fixpoint first_of_each (key : row -> cell * cell) (seen : list (cell * cell))
         (l : list row) : list row :=
  match l with
  | [] => []
  | r :: l' =>
      if existsb (fun k => cell_eqb (fst k) (fst (key r)) && cell_eqb (snd k) (snd (key r))) seen
      then first_of_each key seen l'
      else r :: first_of_each key (key r :: seen) l'
  end.

Definition drop_duplicates (a b : string) (df : DataFrame) : outcome DataFrame :=
  if has_column a df && has_column b df then
    Ok {| columns := columns df;
          rows := first_of_each (fun r => (get a r, get b r)) [] (rows df) |}
  else Raised KeyError.

Definition lower_ascii (c : ascii) : ascii :=
  if between 65 90 c then ascii_of_nat (nat_of_ascii c + 32) else c.

Fixpoint lower (s : string) : string :=
  match s with
  | EmptyString => EmptyString
  | String c s' => String (lower_ascii c) (lower s')
  end.

Definition endswith (s suffix : string) : bool :=
  let n := String.length s in
  let m := String.length suffix in
  (m <=? n)%nat && String.eqb (substring (n - m) m s) suffix.

(** ** [process_data], step by step *)

Definition columns_to_drop_initial : list string :=
  ["Size (Bytes)"; "Alt Text"; "Status"; "Type"].

Definition columns_to_drop_final : list string :=
  ["Link Origin"; "Link Position"].

Definition unwanted_extensions : list string :=
  [".jpg"; ".jpeg"; ".png"; ".gif"; ".bmp"; ".svg";
   ".mp4"; ".avi"; ".mov"; ".wmv"; ".flv";
   ".mp3"; ".wav"; ".ogg";
   ".js"; ".css"; ".pdf"; ".doc"; ".docx"].

Definition existing (names : list string) (df : DataFrame) : list string :=
  filter (fun c => has_column c df) names.

(** Lines 14 to 26: the most common network location of the [Source] column. *)
Definition detect_main_domain (L : PyLib) (df : DataFrame) : outcome string :=
  if has_column "Source" df then
    domains <- mapM (extract_main_domain L) (column "Source" df) ;;
    match Counter String.eqb domains with
    | [] => Failed EmptyDomainSet
    | domain_counts =>
        match most_common1 domain_counts with
        | (main_domain, _) :: _ => Ok main_domain
        | [] => Raised IndexError
        end
    end
  else Failed (MissingColumn "Source").

(** Lines 30 to 32. *)
Definition drop_initial (df : DataFrame) : DataFrame :=
  drop (existing columns_to_drop_initial df) df.

(** Lines 35 to 37. *)
Definition drop_range (df : DataFrame) : DataFrame :=
  if has_column "Follow" df && has_column "Link Path" df
  then drop (loc_slice "Follow" "Link Path" (columns df)) df
  else df.

(** Lines 40 to 43. *)
Definition keep_content (df : DataFrame) : DataFrame :=
  if has_column "Link Position" df
  then select (fun r => py_eq (get "Link Position" r) (Str "Content")) df
  else df.

(** Lines 46 to 48. *)
Definition drop_final (df : DataFrame) : DataFrame :=
  drop (existing columns_to_drop_final df) df.

(** Lines 51 to 55: [str.contains(main_domain, na=False)], with the default
    [regex=True]. *)
Definition keep_main_domain (L : PyLib) (main_domain : string) (df : DataFrame)
  : outcome DataFrame :=
  if has_column "Destination" df then
    _ <- str_accessor (column "Destination" df) ;;
    match re_compile L main_domain with
    | Some found =>
        Ok (select (fun r => match get "Destination" r with
                             | Str s => found s
                             | _ => false
                             end) df)
    | None => Raised ReError
    end
  else Failed (MissingColumn "Destination").

(** Lines 58 to 68; [df_other_status] is not used afterwards. *)
Definition keep_status_200 (df : DataFrame) : DataFrame :=
  let df_status_200 :=
    if has_column "Status Code" df
    then select (fun r => py_eq (get "Status Code" r) (Int 200)) df
    else df in
  if has_column "Status Code" df_status_200
  then drop ["Status Code"] df_status_200
  else df_status_200.

(** Lines 82 to 86; [~] has no meaning on the missing value that [.str]
    gives for a cell that is not a [str]. *)
Definition drop_unwanted_extensions (df : DataFrame) : outcome DataFrame :=
  if has_column "Destination" df then
    _ <- str_accessor (column "Destination" df) ;;
    if forallb is_str (column "Destination" df) then
      Ok (select (fun r => match get "Destination" r with
                           | Str s => negb (existsb (endswith (lower s)) unwanted_extensions)
                           | _ => false
                           end) df)
    else Raised TypeError
  else Failed (MissingColumn "Destination").

(** Lines 89 to 92. *)
Definition drop_empty_anchor (df : DataFrame) : DataFrame :=
  if has_column "Anchor" df
  then select (fun r => notna (get "Anchor" r) && negb (py_eq (get "Anchor" r) (Str ""))) df
  else df.

(** Lines 95 to 99. *)
Definition drop_overused_anchor (L : PyLib) (df : DataFrame) : DataFrame :=
  if has_column "Anchor" df then
    let anchor_counts := value_counts L (column "Anchor" df) in
    let overused := map fst (filter (fun kn => (5 <? snd kn)%nat) anchor_counts) in
    select (fun r => negb (existsb (cell_eqb (get "Anchor" r)) overused)) df
  else df.

(** Line 102. *)
Definition drop_self_links (df : DataFrame) : DataFrame :=
  select (fun r => negb (py_eq (get "Source" r) (get "Destination" r))) df.

(** Lines 108 and 109. *)
Definition counts_frame (counts : list (cell * nat)) : DataFrame :=
  {| columns := ["unique_urls"; "count"];
     rows := map (fun kn => [("unique_urls", fst kn); ("count", Int (Z.of_nat (snd kn)))])
                 counts |}.

(** Lines 14 to 68: the frame [df_status_200] after the status split. *)
Definition links_after_status (L : PyLib) (df : DataFrame) : outcome DataFrame :=
  main_domain <- detect_main_domain L df ;;
  let df := drop_initial df in
  let df := drop_range df in
  let df := keep_content df in
  let df := drop_final df in
  df <- keep_main_domain L main_domain df ;;
  Ok (keep_status_200 df).

(** Lines 14 to 102: the frame [df_status_200] as it is when the counts are
    taken and before it is sorted. *)
Definition links_before_sort (L : PyLib) (df : DataFrame) : outcome DataFrame :=
  df_status_200 <- links_after_status L df ;;
  df_status_200 <- drop_duplicates "Source" "Destination" df_status_200 ;;
  df_status_200 <- drop_unwanted_extensions df_status_200 ;;
  let df_status_200 := drop_empty_anchor df_status_200 in
  let df_status_200 := drop_overused_anchor L df_status_200 in
  Ok (drop_self_links df_status_200).

(** The whole of [process_data]: [(df_status_200, unique_urls_counts)]. *)
Definition process_data (L : PyLib) (df : DataFrame) : outcome (DataFrame * DataFrame) :=
  df_status_200 <- links_before_sort L df ;;
  let df_status_200 := assign "unique_urls" (get "Destination") df_status_200 in
  let unique_urls_counts := counts_frame (value_counts L (column "Destination" df_status_200)) in
  let df_status_200 := drop ["unique_urls"] df_status_200 in
  df_status_200 <- sort_values L "Source" df_status_200 ;;
  Ok (df_status_200, unique_urls_counts).

(** ** Two instances of the library services *)

(** A plain pattern is made of letters, digits, [-], [_], [:], [@] and
    [.]; [re] compiles it, the dot stands for any character but the line
    feed, every other character for itself.  [re_compile_plain] below
    describes [re.compile] on plain patterns only: its answer [None] on
    another pattern says nothing about [re], which compiles many of
    them. *)
Definition plain_pattern_char (c : ascii) : bool :=
  isalpha c || between 48 57 c
  || Ascii.eqb c "-" || Ascii.eqb c "_" || Ascii.eqb c ":" || Ascii.eqb c "@"
  || Ascii.eqb c ".".

Fixpoint match_here (pat s : string) : bool :=
  match pat, s with
  | EmptyString, _ => true
  | String _ _, EmptyString => false
  | String p pat', String c s' =>
      (if Ascii.eqb p "." then negb (nat_of_ascii c =? 10)%nat else Ascii.eqb p c)
      && match_here pat' s'
  end.

Fixpoint search (pat s : string) : bool :=
  match_here pat s
  || match s with
     | EmptyString => false
     | String _ s' => search pat s'
     end.

Definition re_compile_plain (pat : string) : option (string -> bool) :=
  if string_forallb plain_pattern_char pat then Some (search pat) else None.

(** A stable insertion sort on the positions. *)
Section InsertionArgsort.
Context {A : Type} (lt : A -> A -> bool).

Fixpoint insert (x : nat * A) (l : list (nat * A)) : list (nat * A) :=
  match l with
  | [] => [x]
  | y :: l' => if lt (snd x) (snd y) then x :: l else y :: insert x l'
  end.

Definition insertion_sort (l : list (nat * A)) : list (nat * A) :=
  fold_left (fun acc x => insert x acc) l [].

Definition insertion_argsort (keys : list A) : list nat :=
  map fst (insertion_sort (combine (seq 0 (List.length keys)) keys)).
End InsertionArgsort.

(** numpy's [npy_aquicksort] (npysort/quicksort): median-of-three
    partitioning, insertion sort for ranges of at most 17 positions, heap
    sort when the depth limit is used up. *)
Section NumpyQuicksort.
Context {A : Type} (lt : A -> A -> bool) (v : list A).

(** [cmp(v[x], v[y]) < 0] *)
Definition less (x y : nat) : bool :=
  match nth_error v x, nth_error v y with
  | Some a, Some b => lt a b
  | _, _ => false
  end.

Definition at_ (a : list nat) (i : nat) : nat := nth i a 0.

Fixpoint store (i x : nat) (a : list nat) : list nat :=
  match a, i with
  | [], _ => []
  | _ :: a', 0 => x :: a'
  | y :: a', S i' => y :: store i' x a'
  end.

(** [INTP_SWAP(a[i], a[j])] *)
Definition swap (i j : nat) (a : list nat) : list nat :=
  store i (at_ a j) (store j (at_ a i) a).

Definition median3 (pl pm pr : nat) (a : list nat) : list nat :=
  let a := if less (at_ a pm) (at_ a pl) then swap pm pl a else a in
  let a := if less (at_ a pr) (at_ a pm) then swap pr pm a else a in
  if less (at_ a pm) (at_ a pl) then swap pm pl a else a.

(** [do ++pi; while (less(v[a[pi]], vp))] *)
Fixpoint scan_up (fuel vp : nat) (a : list nat) (pi : nat) : nat :=
  match fuel with
  | 0 => pi
  | S f => if less (at_ a (S pi)) vp then scan_up f vp a (S pi) else S pi
  end.

(** [do --pj; while (less(vp, v[a[pj]]))] *)
Fixpoint scan_down (fuel vp : nat) (a : list nat) (pj : nat) : nat :=
  match fuel with
  | 0 => pj
  | S f => if less vp (at_ a (pj - 1)) then scan_down f vp a (pj - 1) else pj - 1
  end.

Fixpoint exchange (fuel vp : nat) (a : list nat) (pi pj : nat) : list nat * nat :=
  match fuel with
  | 0 => (a, pi)
  | S f =>
      let pi := scan_up (List.length a) vp a pi in
      let pj := scan_down (List.length a) vp a pj in
      if (pj <=? pi)%nat then (a, pi) else exchange f vp (swap pi pj a) pi pj
  end.

(** One partition of [pl..pr]: the array and the final place of the pivot. *)
Definition partition (pl pr : nat) (a : list nat) : list nat * nat :=
  let pm := pl + Nat.div2 (pr - pl) in
  let a := median3 pl pm pr a in
  let vp := at_ a pm in
  let a := swap pm (pr - 1) a in
  let '(a, pi) := exchange (List.length a) vp a pl (pr - 1) in
  (swap pi (pr - 1) a, pi).

(** The insertion sort of [pl..pr]. *)
Fixpoint shift_down (fuel vp pl : nat) (a : list nat) (pj : nat) : list nat * nat :=
  match fuel with
  | 0 => (a, pj)
  | S f => if (pl <? pj)%nat && less vp (at_ a (pj - 1))
           then shift_down f vp pl (store pj (at_ a (pj - 1)) a) (pj - 1)
           else (a, pj)
  end.

Definition insertion_range (pl pr : nat) (a : list nat) : list nat :=
  fold_left (fun a pi =>
               let vi := at_ a pi in
               let '(a, pj) := shift_down (List.length a) vi pl a pi in
               store pj vi a)
            (seq (S pl) (pr - pl)) a.

(** [npy_aheapsort] on [n] positions, numbered from 1. *)
Fixpoint sift (fuel n tmp : nat) (a : list nat) (i j : nat) : list nat :=
  match fuel with
  | 0 => store (i - 1) tmp a
  | S f =>
      if (j <=? n)%nat then
        let j := if (j <? n)%nat && less (at_ a (j - 1)) (at_ a j) then S j else j in
        if less tmp (at_ a (j - 1))
        then sift f n tmp (store (i - 1) (at_ a (j - 1)) a) j (j + j)
        else store (i - 1) tmp a
      else store (i - 1) tmp a
  end.

Definition heapify (n : nat) (a : list nat) : list nat :=
  fold_left (fun a l => sift n n (at_ a (l - 1)) a l (l + l))
            (rev (seq 1 (Nat.div2 n))) a.

Definition heap_extract (n0 : nat) (a : list nat) : list nat :=
  fold_left (fun a n =>
               let tmp := at_ a (n - 1) in
               let a := store (n - 1) (at_ a 0) a in
               sift n0 (n - 1) tmp a 1 2)
            (rev (seq 2 (n0 - 1))) a.

Definition aheapsort (pl n : nat) (a : list nat) : list nat :=
  firstn pl a ++ heap_extract n (heapify n (firstn n (skipn pl a))) ++ skipn (pl + n) a.

(** The loop with its stack of pending ranges; [popped] tells that the
    range was just taken from the stack (or is the whole array), which is
    where the depth limit is tested. *)
Fixpoint aquicksort_loop (fuel : nat) (a : list nat) (pl pr : nat) (cdepth : Z)
         (popped : bool) (stack : list (nat * nat * Z)) : list nat :=
  let pop a :=
    match fuel, stack with
    | S f, (pl', pr', d) :: stack' => aquicksort_loop f a pl' pr' d true stack'
    | _, _ => a
    end in
  match fuel with
  | 0 => a
  | S f =>
      if popped && (cdepth <? 0)%Z then pop (aheapsort pl (pr - pl + 1) a)
      else if (16 <? pr - pl)%nat then
        let '(a, pi) := partition pl pr a in
        if (pi - pl <? pr - pi)%nat
        then aquicksort_loop f a pl (pi - 1) (cdepth - 1) false
                             ((S pi, pr, (cdepth - 1)%Z) :: stack)
        else aquicksort_loop f a (S pi) pr (cdepth - 1) false
                             ((pl, pi - 1, (cdepth - 1)%Z) :: stack)
      else pop (insertion_range pl pr a)
  end.

Definition npy_aquicksort : list nat :=
  let num := List.length v in
  aquicksort_loop (2 * num + 2) (seq 0 num) 0 (num - 1)
                  (2 * Z.log2 (Z.of_nat num)) true [].
End NumpyQuicksort.

Definition numpy_argsort (A : Type) (lt : A -> A -> bool) (keys : list A) : list nat :=
  npy_aquicksort lt keys.

(** A validation that accepts nothing.  It is asked only about a network
    location with both brackets or a character outside ASCII; the two
    instances below are meant for hosts without them. *)
Definition reject_netloc (netloc : string) : bool := false.

(** The services with the stable sort, and with numpy's quicksort. *)
Definition stable_lib : PyLib :=
  mkLib re_compile_plain (fun A lt keys => insertion_argsort lt keys) reject_netloc.

Definition numpy_lib : PyLib :=
  mkLib re_compile_plain numpy_argsort reject_netloc.

(** ** The wording of the specification, for comparison *)

(** "The network-location of the most frequently occurring Source URL":
    the most common value of the [Source] column, and then its location. *)
Definition spec_main_domain (L : PyLib) (df : DataFrame) : outcome string :=
  match most_common1 (Counter cell_eqb (column "Source" df)) with
  | (url, _) :: _ => extract_main_domain L url
  | [] => Failed EmptyDomainSet
  end.

(** "Positioned between them inclusive, regardless of which of the two
    comes first". *)
Definition spec_between (a b c : string) (l : list string) : bool :=
  match get_loc a l, get_loc b l, get_loc c l with
  | Some i, Some j, Some k => (Nat.min i j <=? k)%nat && (k <=? Nat.max i j)%nat
  | _, _, _ => false
  end.

(** "Contains as a literal, case-sensitive substring": Python's [sub in s]. *)
Fixpoint contains (sub s : string) : bool :=
  prefix sub s
  || match s with
     | EmptyString => false
     | String _ s' => contains sub s'
     end.

(** The label does not sit at one of the positions [i] to [j]. *)
Definition outside (i j : nat) (l : list string) (c : string) : bool :=
  match get_loc c l with
  | Some k => negb ((i <=? k)%nat && (k <=? j)%nat)
  | None => true
  end.

(** The number of records whose cell under [c] is [v]. *)
Definition occurrences (c : string) (v : cell) (df : DataFrame) : nat :=
  count_of cell_eqb v (column c df).

(** A record of the table of counts. *)
Definition count_row (d : cell) (n : nat) : row :=
  [("unique_urls", d); ("count", Int (Z.of_nat n))].

(** The sum of the [count] column. *)
Definition total_count (counts : DataFrame) : Z :=
  fold_right Z.add 0%Z (ints (column "count" counts)).

(** [counts] has a record [(d, n)] exactly for the values [d] of the
    [Destination] column of [table], with [n] the number of its records
    that have [d]. *)
Definition counts_of (table counts : DataFrame) : Prop :=
  forall d n,
    In (count_row d n) (rows counts)
    <-> In d (column "Destination" table) /\ n = occurrences "Destination" d table.

(** "Stable, ties keep relative order": the records of each [Source] come
    in [after] in the order they have in [before]. *)
Definition keeps_order_of_ties (before after : list row) : Prop :=
  forall s,
    filter (fun r => cell_eqb (get "Source" r) s) after
    = filter (fun r => cell_eqb (get "Source" r) s) before.

(** The labels that the steps remove wherever they stand. *)
Definition removed_labels : list string :=
  columns_to_drop_initial ++ columns_to_drop_final ++ ["Status Code"; "unique_urls"].

(** The pair that the deduplication compares. *)
Definition source_destination (r : row) : cell * cell :=
  (get "Source" r, get "Destination" r).

(** [df'] has the columns of [df] but those of [names], and each of its
    records is a record of [df] that satisfies [P], without the cells of
    [names]. *)
Definition restriction (names : list string) (P : row -> Prop) (df df' : DataFrame) : Prop :=
  columns df' = filter (fun c => negb (mem c names)) (columns df)
  /\ forall r', In r' (rows df') ->
                exists r, In r (rows df) /\ P r /\ r' = drop_row names r.

(** A printable ASCII character that neither ends a network location nor
    is a bracket. *)
Definition netloc_char (c : ascii) : bool :=
  between 33 126 c
  && negb (Ascii.eqb c "/" || Ascii.eqb c "?" || Ascii.eqb c "#"
           || Ascii.eqb c "[" || Ascii.eqb c "]").

(** What follows the network location in a URL: nothing, a path, a query
    or a fragment. *)
Definition after_netloc (rest : string) : bool :=
  match rest with
  | EmptyString => true
  | String c _ => Ascii.eqb c "/" || Ascii.eqb c "?" || Ascii.eqb c "#"
  end.

(** ** Frames used in the examples *)

Definition link (s d a : string) : row :=
  [("Source", Str s); ("Destination", Str d); ("Anchor", Str a)].

Definition links (rs : list row) : DataFrame :=
  mkDF ["Source"; "Destination"; "Anchor"] rs.

(** Scenario A of the specification. *)
Definition scenario_A : DataFrame :=
  mkDF ["Source"; "Destination"; "Status Code"; "Link Position"; "Anchor"]
       [[("Source", Str "http://a.com/p1"); ("Destination", Str "http://a.com/x");
         ("Status Code", Int 200); ("Link Position", Str "Content"); ("Anchor", Str "click")];
        [("Source", Str "http://a.com/p2"); ("Destination", Str "http://a.com/x");
         ("Status Code", Int 200); ("Link Position", Str "Content"); ("Anchor", Str "click2")]].

Definition scenario_A_cleaned : DataFrame :=
  links [link "http://a.com/p1" "http://a.com/x" "click";
         link "http://a.com/p2" "http://a.com/x" "click2"].

Definition scenario_A_counts : DataFrame :=
  mkDF ["unique_urls"; "count"] [count_row (Str "http://a.com/x") 2].

(** A destination on another host that the pattern [a.com] matches. *)
Definition other_host : DataFrame :=
  links [link "http://a.com/p" "http://abcom.net/x" "x"].

(** The same link twice. *)
Definition same_link_twice : DataFrame :=
  links [link "http://a.com/p" "http://a.com/x" "x";
         link "http://a.com/p" "http://a.com/x" "y"].

(** Three pages of one host, and one page of another host twice. *)
Definition two_hosts : DataFrame :=
  links [link "http://a.com/1" "http://a.com/x" "a";
         link "http://a.com/2" "http://a.com/x" "b";
         link "http://a.com/3" "http://a.com/x" "c";
         link "http://b.com/x" "http://a.com/x" "d";
         link "http://b.com/x" "http://a.com/y" "e"].

(** A relative page twice, and three pages of one host. *)
Definition relative_sources : DataFrame :=
  links [link "/x" "http://a.com/x" "a";
         link "/x" "http://a.com/y" "b";
         link "http://a.com/1" "http://a.com/x" "c";
         link "http://a.com/2" "http://a.com/x" "d";
         link "http://a.com/3" "http://a.com/x" "e"].

(** Relative pages only; one link has no destination. *)
Definition relative_only : DataFrame :=
  links [link "/a" "http://a.com/x" "a";
         link "/b" "/y" "b";
         [("Source", Str "/c"); ("Destination", NaN); ("Anchor", Str "c")]].

(** A record without a source. *)
Definition source_cell_missing : DataFrame :=
  links [link "http://a.com/p" "http://a.com/x" "x";
         [("Source", NaN); ("Destination", Str "http://a.com/y"); ("Anchor", Str "y")]].

(** Pages of a host without a dot, and a link that leaves it. *)
Definition local_pages : DataFrame :=
  links [link "http://localhost:8000/a" "http://localhost:8000/b" "b";
         link "http://localhost:8000/a" "http://example.org/" "out"].

(** [Source] between [Follow] and [Link Path]. *)
Definition source_in_range : DataFrame :=
  mkDF ["Follow"; "Source"; "Link Path"; "Destination"; "Anchor"]
       [[("Follow", Str "true"); ("Source", Str "http://a.com/p");
         ("Link Path", Str "//a"); ("Destination", Str "http://a.com/x"); ("Anchor", Str "x")]].

(** [Link Path] to the left of [Follow]. *)
Definition reversed_range : DataFrame :=
  mkDF ["Source"; "Link Path"; "Target"; "Follow"; "Destination"; "Anchor"]
       [[("Source", Str "http://a.com/p"); ("Link Path", Str "//a"); ("Target", Str "_self");
         ("Follow", Str "true"); ("Destination", Str "http://a.com/x"); ("Anchor", Str "x")]].

(** [Destination] between [Follow] and [Link Path]. *)
Definition destination_in_range : DataFrame :=
  mkDF ["Source"; "Follow"; "Destination"; "Link Path"; "Anchor"]
       [[("Source", Str "http://a.com/p"); ("Follow", Str "true");
         ("Destination", Str "http://a.com/x"); ("Link Path", Str "//a"); ("Anchor", Str "x")]].

(** No [Destination] column and no row. *)
Definition source_only_no_rows : DataFrame := mkDF ["Source"] [].

(** No [Destination] column, one row. *)
Definition source_only : DataFrame :=
  mkDF ["Source"; "Anchor"] [[("Source", Str "http://a.com/p"); ("Anchor", Str "x")]].

(** No [Source] column. *)
Definition destination_only : DataFrame :=
  mkDF ["Destination"; "Anchor"] [[("Destination", Str "http://a.com/x"); ("Anchor", Str "x")]].

(** One anchor six times and another five times. *)
Definition anchors : DataFrame :=
  links [link "http://a.com/1" "http://a.com/x" "more";
         link "http://a.com/2" "http://a.com/x" "more";
         link "http://a.com/3" "http://a.com/x" "more";
         link "http://a.com/4" "http://a.com/x" "more";
         link "http://a.com/5" "http://a.com/x" "more";
         link "http://a.com/6" "http://a.com/x" "more";
         link "http://a.com/1" "http://a.com/y" "five";
         link "http://a.com/2" "http://a.com/y" "five";
         link "http://a.com/3" "http://a.com/y" "five";
         link "http://a.com/4" "http://a.com/y" "five";
         link "http://a.com/5" "http://a.com/y" "five"].

(** Eighteen links of one page. *)
Definition one_page : DataFrame :=
  links
    [link "http://a.com/p" "http://a.com/d01" "a01";
     link "http://a.com/p" "http://a.com/d02" "a02";
     link "http://a.com/p" "http://a.com/d03" "a03";
     link "http://a.com/p" "http://a.com/d04" "a04";
     link "http://a.com/p" "http://a.com/d05" "a05";
     link "http://a.com/p" "http://a.com/d06" "a06";
     link "http://a.com/p" "http://a.com/d07" "a07";
     link "http://a.com/p" "http://a.com/d08" "a08";
     link "http://a.com/p" "http://a.com/d09" "a09";
     link "http://a.com/p" "http://a.com/d10" "a10";
     link "http://a.com/p" "http://a.com/d11" "a11";
     link "http://a.com/p" "http://a.com/d12" "a12";
     link "http://a.com/p" "http://a.com/d13" "a13";
     link "http://a.com/p" "http://a.com/d14" "a14";
     link "http://a.com/p" "http://a.com/d15" "a15";
     link "http://a.com/p" "http://a.com/d16" "a16";
     link "http://a.com/p" "http://a.com/d17" "a17";
     link "http://a.com/p" "http://a.com/d18" "a18"].

(** * Properties *)

(** ** Cells, labels and records *)

Lemma cell_eqb_eq (a b : cell) : cell_eqb a b = true <-> a = b.
Proof.
  destruct a, b; simpl; split; intro H; try discriminate; try reflexivity.
  - apply String.eqb_eq in H. now subst.
  - inversion H. apply String.eqb_refl.
  - apply Z.eqb_eq in H. now subst.
  - inversion H. apply Z.eqb_refl.
Qed.

Lemma cell_eqb_refl (a : cell) : cell_eqb a a = true.
Proof. now apply cell_eqb_eq. Qed.

Lemma mem_In (c : string) (l : list string) : mem c l = true <-> In c l.
Proof.
  unfold mem. rewrite existsb_exists. split.
  - intros (x & Hx & E). apply String.eqb_eq in E. now subst.
  - intro H. exists c. split; [assumption | apply String.eqb_refl].
Qed.

Lemma mem_false (c : string) (l : list string) : mem c l = false <-> ~ In c l.
Proof.
  rewrite <- mem_In. destruct (mem c l); split; intro H; congruence.
Qed.

Lemma mem_filter (c : string) (p : string -> bool) (l : list string) :
  mem c (filter p l) = mem c l && p c.
Proof.
  apply Bool.eq_iff_eq_true.
  rewrite andb_true_iff, !mem_In, filter_In. reflexivity.
Qed.

Lemma get_drop_row (c : string) (names : list string) (r : row) :
  mem c names = false -> get c (drop_row names r) = get c r.
Proof.
  intro H. induction r as [|[k v] r IH]; simpl; [reflexivity|].
  destruct (String.eqb k c) eqn:E.
  - apply String.eqb_eq in E. subst k. rewrite H. simpl. now rewrite String.eqb_refl.
  - destruct (mem k names); simpl; [|rewrite E]; exact IH.
Qed.

Lemma get_drop_row_dropped (c : string) (names : list string) (r : row) :
  mem c names = true -> get c (drop_row names r) = NaN.
Proof.
  intro H. induction r as [|[k v] r IH]; simpl; [reflexivity|].
  destruct (mem k names) eqn:M; simpl; [exact IH|].
  destruct (String.eqb k c) eqn:E; [|exact IH].
  apply String.eqb_eq in E. congruence.
Qed.

Lemma has_column_drop (c : string) (names : list string) (df : DataFrame) :
  has_column c (drop names df) = has_column c df && negb (mem c names).
Proof. unfold has_column, drop. simpl. apply mem_filter. Qed.

Lemma get_set_cell_other (c k : string) (v : cell) (r : row) :
  k <> c -> get c (set_cell k v r) = get c r.
Proof.
  intro N. induction r as [|[k' w] r IH]; simpl.
  - destruct (String.eqb k c) eqn:E; [apply String.eqb_eq in E; contradiction | reflexivity].
  - destruct (String.eqb k' k) eqn:E; simpl.
    + apply String.eqb_eq in E. subst k'.
      destruct (String.eqb k c) eqn:E'; [apply String.eqb_eq in E'; contradiction | reflexivity].
    + destruct (String.eqb k' c); [reflexivity | exact IH].
Qed.

Lemma drop_row_set_cell (c : string) (v : cell) (r : row) :
  drop_row [c] (set_cell c v r) = drop_row [c] r.
Proof.
  unfold drop_row. induction r as [|[k w] r IH]; simpl.
  - now rewrite String.eqb_refl.
  - destruct (String.eqb k c) eqn:E; simpl; rewrite E; simpl.
    + reflexivity.
    + f_equal. exact IH.
Qed.

(** ** [Counter] and [value_counts] *)

Section CounterFacts.
Context {K : Type} (eqb : K -> K -> bool).
Hypothesis eqb_eq : forall a b, eqb a b = true <-> a = b.

Lemma eqb_same (a : K) : eqb a a = true.
Proof. now apply eqb_eq. Qed.

Lemma eqb_sym (a b : K) : eqb a b = eqb b a.
Proof.
  destruct (eqb a b) eqn:E, (eqb b a) eqn:F; try reflexivity.
  - apply eqb_eq in E. subst. now rewrite eqb_same in F.
  - apply eqb_eq in F. subst. now rewrite eqb_same in E.
Qed.

Lemma existsb_eqb (x : K) (l : list K) : existsb (eqb x) l = true <-> In x l.
Proof.
  rewrite existsb_exists. split.
  - intros (y & Hy & E). apply eqb_eq in E. now subst.
  - intro H. exists x. split; [assumption | apply eqb_same].
Qed.

Lemma count_of_app (k : K) (l1 l2 : list K) :
  count_of eqb k (l1 ++ l2) = count_of eqb k l1 + count_of eqb k l2.
Proof. unfold count_of. now rewrite filter_app, length_app. Qed.

Lemma count_of_pos (k : K) (l : list K) : 0 < count_of eqb k l <-> In k l.
Proof.
  unfold count_of. induction l as [|a l IH]; simpl.
  - split; [lia | tauto].
  - destruct (eqb k a) eqn:E; simpl.
    + apply eqb_eq in E. subst. split; [auto | lia].
    + rewrite IH. split; [auto|]. intros [->|H]; [|assumption].
      now rewrite eqb_same in E.
Qed.

Lemma In_distinct (x : K) (l : list K) : In x (distinct eqb l) <-> In x l.
Proof.
  induction l as [|a l IH]; simpl; [tauto|].
  rewrite filter_In, IH. split.
  - intros [H | [H _]]; auto.
  - intros [H | H]; [now left|].
    destruct (eqb a x) eqn:E.
    + apply eqb_eq in E. now left.
    + right. auto.
Qed.

Lemma NoDup_distinct (l : list K) : NoDup (distinct eqb l).
Proof.
  induction l as [|a l IH]; simpl; constructor.
  - rewrite filter_In. intros [_ H]. now rewrite eqb_same in H.
  - now apply NoDup_filter.
Qed.

Lemma distinct_snoc (l : list K) (x : K) :
  distinct eqb (l ++ [x]) = distinct eqb l ++ (if existsb (eqb x) l then [] else [x]).
Proof.
  induction l as [|a l IH]; simpl; [reflexivity|].
  rewrite IH, filter_app. f_equal. f_equal.
  rewrite (eqb_sym x a).
  destruct (eqb a x) eqn:E; simpl.
  - destruct (existsb (eqb x) l); simpl; [reflexivity | now rewrite E].
  - destruct (existsb (eqb x) l); simpl; [reflexivity | now rewrite E].
Qed.

Lemma incr_map (x : K) (g : K -> nat) (ks : list K) :
  NoDup ks ->
  incr eqb x (map (fun k => (k, g k)) ks)
  = map (fun k => (k, if eqb k x then S (g k) else g k)) ks
    ++ (if existsb (eqb x) ks then [] else [(x, 1)]).
Proof.
  induction ks as [|a ks IH]; intro ND; simpl; [reflexivity|].
  inversion ND as [|? ? Hnot ND']; subst.
  rewrite (eqb_sym x a).
  destruct (eqb a x) eqn:E; simpl.
  - apply eqb_eq in E. subst a. rewrite app_nil_r. f_equal.
    apply map_ext_in. intros k Hk.
    destruct (eqb k x) eqn:F; [|reflexivity].
    apply eqb_eq in F. subst. contradiction.
  - f_equal. now apply IH.
Qed.

Lemma Counter_snoc (l : list K) (x : K) :
  Counter eqb (l ++ [x]) = incr eqb x (Counter eqb l).
Proof. unfold Counter. now rewrite fold_left_app. Qed.

(** A [Counter] lists the distinct keys in first-seen order, each with the
    number of its occurrences. *)
Lemma Counter_spec (l : list K) :
  Counter eqb l = map (fun k => (k, count_of eqb k l)) (distinct eqb l).
Proof.
  induction l as [|x l IH] using rev_ind; [reflexivity|].
  rewrite Counter_snoc, IH, incr_map by apply NoDup_distinct.
  rewrite distinct_snoc, map_app. f_equal.
  - apply map_ext. intro k. rewrite count_of_app. f_equal.
    unfold count_of. simpl. destruct (eqb k x); simpl; lia.
  - assert (Hx : existsb (eqb x) (distinct eqb l) = existsb (eqb x) l).
    { apply Bool.eq_iff_eq_true. rewrite !existsb_eqb. apply In_distinct. }
    rewrite Hx. destruct (existsb (eqb x) l) eqn:E; simpl; [reflexivity|].
    rewrite count_of_app.
    assert (C1 : count_of eqb x [x] = 1) by (unfold count_of; simpl; now rewrite eqb_same).
    rewrite C1.
    assert (count_of eqb x l = 0) as ->; [|reflexivity].
    destruct (count_of eqb x l) eqn:C; [reflexivity|].
    assert (Hin : In x l) by (apply count_of_pos; lia).
    apply existsb_eqb in Hin. congruence.
Qed.

Lemma max_by_count_ge (best : K * nat) (c : list (K * nat)) :
  snd best <= snd (max_by_count best c).
Proof.
  revert best. induction c as [|x c IH]; intro best; simpl; [lia|].
  destruct (snd best <? snd x)%nat eqn:E.
  - apply Nat.ltb_lt in E. specialize (IH x). lia.
  - apply IH.
Qed.

(** [max] keeps the first of the items with the largest count. *)
Lemma max_by_count_split (best : K * nat) (c : list (K * nat)) :
  exists pre post,
    best :: c = pre ++ max_by_count best c :: post
    /\ (forall x, In x pre -> snd x < snd (max_by_count best c))
    /\ (forall x, In x post -> snd x <= snd (max_by_count best c)).
Proof.
  revert best. induction c as [|x c IH]; intro best; simpl.
  - exists [], []. repeat split; simpl; tauto.
  - destruct (snd best <? snd x)%nat eqn:E.
    + apply Nat.ltb_lt in E.
      destruct (IH x) as (pre & post & Heq & Hpre & Hpost).
      exists (best :: pre), post. split; [simpl; now rewrite Heq|]. split; [|assumption].
      intros y [<-|Hy]; [|now apply Hpre].
      pose proof (max_by_count_ge x c). lia.
    + apply Nat.ltb_ge in E.
      destruct (IH best) as (pre & post & Heq & Hpre & Hpost).
      destruct pre as [|p pre]; simpl in Heq.
      * injection Heq as Hb Hc. exists [], (x :: post).
        split; [simpl; now rewrite <- Hb, Hc|]. split; [simpl; tauto|].
        intros y [<-|Hy]; [rewrite <- Hb; exact E | now apply Hpost].
      * injection Heq as Hb Hc. subst p.
        exists (best :: x :: pre), post.
        split; [simpl; do 2 f_equal; exact Hc|]. split; [|assumption].
        assert (Hbest : snd best < snd (max_by_count best c)) by (apply Hpre; now left).
        intros y [<-|[<-|Hy]]; [exact Hbest | lia | apply Hpre; now right].
Qed.
End CounterFacts.

(** ** Positions of labels *)

Lemma get_loc_In (c : string) (l : list string) :
  In c l <-> exists i, get_loc c l = Some i.
Proof.
  induction l as [|k l IH]; simpl.
  - split; [tauto | intros [i H]; discriminate].
  - destruct (String.eqb k c) eqn:E.
    + apply String.eqb_eq in E. split; [eauto | auto].
    + apply String.eqb_neq in E. rewrite IH. split.
      * intros [H|[i H]]; [contradiction|]. rewrite H. eauto.
      * intros [i H]. right. destruct (get_loc c l); [eauto | discriminate].
Qed.

Lemma get_loc_nth_error (c : string) (l : list string) (i : nat) :
  get_loc c l = Some i -> nth_error l i = Some c.
Proof.
  revert i. induction l as [|k l IH]; intros i H; simpl in H; [discriminate|].
  destruct (String.eqb k c) eqn:E.
  - apply String.eqb_eq in E. inversion H. now subst.
  - destruct (get_loc c l) eqn:G; [|discriminate]. inversion H. subst. simpl. now apply IH.
Qed.

Lemma filter_middle {A : Type} (p : A -> bool) (l pre post : list A) (x : A) :
  filter p l = pre ++ x :: post ->
  exists pre' post', l = pre' ++ x :: post' /\ filter p pre' = pre /\ filter p post' = post.
Proof.
  revert pre. induction l as [|a l IH]; intros pre H; simpl in H.
  - destruct pre; discriminate.
  - destruct (p a) eqn:P.
    + destruct pre as [|b pre]; simpl in H.
      * injection H as -> H. exists [], l. simpl. auto.
      * injection H as -> H. destruct (IH _ H) as (pre' & post' & -> & F1 & F2).
        exists (b :: pre'), post'. simpl. rewrite P, F1. auto.
    + destruct (IH _ H) as (pre' & post' & -> & F1 & F2).
      exists (a :: pre'), post'. simpl. rewrite P. auto.
Qed.

(** A key that comes earlier among the distinct keys is first seen earlier. *)
Lemma distinct_order (l pre post : list string) (x y : string) :
  distinct String.eqb l = pre ++ x :: post -> In y post ->
  exists i j, get_loc x l = Some i /\ get_loc y l = Some j /\ i < j.
Proof.
  revert pre post. induction l as [|a l IH]; intros pre post H Hy; simpl in H.
  - destruct pre; discriminate.
  - destruct pre as [|b pre]; simpl in H.
    + injection H as -> H. subst post. apply filter_In in Hy. destruct Hy as [Hy Na].
      apply -> (In_distinct String.eqb String.eqb_eq) in Hy.
      apply -> get_loc_In in Hy. destruct Hy as [j Hj].
      exists 0, (S j). simpl. rewrite String.eqb_refl.
      apply negb_true_iff in Na. rewrite Na, Hj. repeat split; lia.
    + injection H as -> H.
      destruct (filter_middle _ _ _ _ _ H) as (pre' & post' & D & F1 & F2).
      assert (Hy' : In y post') by (rewrite <- F2 in Hy; now apply filter_In in Hy).
      destruct (IH _ _ D Hy') as (i & j & Hi & Hj & Lt).
      assert (Nx : String.eqb b x = false).
      { assert (In x (filter (fun y0 => negb (String.eqb b y0)) (distinct String.eqb l))).
        { rewrite H. apply in_or_app. right. now left. }
        apply filter_In in H0. now apply negb_true_iff. }
      assert (Ny : String.eqb b y = false).
      { rewrite <- F2 in Hy. apply filter_In in Hy. now apply negb_true_iff. }
      exists (S i), (S j). simpl. rewrite Nx, Ny, Hi, Hj. repeat split; lia.
Qed.

(** ** Main-domain detection *)

Lemma mapM_length {A B : Type} (f : A -> outcome B) (l : list A) (bs : list B) :
  mapM f l = Ok bs -> List.length bs = List.length l.
Proof.
  revert bs. induction l as [|a l IH]; intros bs H; simpl in H.
  - inversion H. reflexivity.
  - destruct (f a); try discriminate. simpl in H.
    destruct (mapM f l); try discriminate. simpl in H. inversion H. simpl.
    f_equal. now apply IH.
Qed.

Lemma detect_main_domain_spec (L : PyLib) (df : DataFrame) (domains : list string) :
  has_column "Source" df = true ->
  mapM (extract_main_domain L) (column "Source" df) = Ok domains ->
  rows df <> [] ->
  exists d,
    detect_main_domain L df = Ok d
    /\ In d domains
    /\ (forall d', count_of String.eqb d' domains <= count_of String.eqb d domains)
    /\ (forall d' i i',
           count_of String.eqb d' domains = count_of String.eqb d domains ->
           get_loc d domains = Some i -> get_loc d' domains = Some i' -> i <= i').
Proof.
  intros HS HM HR. unfold detect_main_domain. rewrite HS, HM. simpl.
  rewrite (Counter_spec String.eqb String.eqb_eq).
  assert (Hne : domains <> []).
  { apply mapM_length in HM. unfold column in HM. rewrite length_map in HM.
    destruct domains; [|discriminate]. destruct (rows df); [contradiction | discriminate]. }
  destruct (distinct String.eqb domains) as [|k ks] eqn:D.
  { destruct domains; [contradiction | discriminate]. }
  simpl.
  set (f := fun k0 => (k0, count_of String.eqb k0 domains)).
  destruct (max_by_count_split (f k) (map f ks)) as (pre & post & Heq & Hpre & Hpost).
  destruct (max_by_count (f k) (map f ks)) as [d n] eqn:M.
  change (f k :: map f ks) with (map f (k :: ks)) in Heq. rewrite <- D in Heq.
  apply map_eq_app in Heq. destruct Heq as (pk & rest & Dk & Epre & Erest).
  apply map_eq_cons in Erest.
  destruct Erest as (d0 & qk & -> & Ed & Epost).
  unfold f in Ed. inversion Ed. subst d0 n. clear Ed.
  assert (Hin : forall x, In x domains -> In x pk \/ x = d \/ In x qk).
  { intros x Hx. apply <- (In_distinct String.eqb String.eqb_eq) in Hx.
    rewrite Dk in Hx. apply in_app_or in Hx. simpl in Hx. intuition. }
  assert (Hle : forall x, In x domains -> In x pk ->
                          count_of String.eqb x domains < count_of String.eqb d domains).
  { intros x _ Hx. apply (Hpre (f x)). rewrite <- Epre. now apply in_map. }
  assert (Hge : forall x, In x qk ->
                          count_of String.eqb x domains <= count_of String.eqb d domains).
  { intros x Hx. apply (Hpost (f x)). rewrite <- Epost. now apply in_map. }
  exists d. split; [change (k, count_of String.eqb k domains) with (f k); now rewrite M|]. split.
  { apply (In_distinct String.eqb String.eqb_eq). rewrite Dk.
    apply in_or_app. right. now left. }
  split.
  - intro d'. destruct (count_of String.eqb d' domains) eqn:C; [lia|].
    assert (Hd' : In d' domains) by (apply (count_of_pos String.eqb String.eqb_eq); lia).
    rewrite <- C. destruct (Hin _ Hd') as [H|[->|H]].
    + specialize (Hle _ Hd' H). lia.
    + lia.
    + now apply Hge.
  - intros d' i i' C Hi Hi'.
    assert (Hd' : In d' domains) by (apply get_loc_In; eauto).
    destruct (Hin _ Hd') as [H|[->|H]].
    + specialize (Hle _ Hd' H). lia.
    + rewrite Hi in Hi'. inversion Hi'. lia.
    + destruct (distinct_order _ _ _ _ _ Dk H) as (a & b & Ha & Hb & Lt).
      rewrite Hi in Ha. rewrite Hi' in Hb. inversion Ha. inversion Hb. lia.
Qed.

(** C4, as amended: for a table that has the [Source] column and at least
    one row, and whose [Source] cells are all parsed, the detected main
    domain is the most frequent network location among those of the
    [Source] cells (the locations are counted, not the URLs); among equally
    frequent locations it is the one that is seen first in row order. *)
Theorem main_domain_is_most_common_netloc (L : PyLib) (df : DataFrame) (domains : list string) :
  has_column "Source" df = true ->
  mapM (extract_main_domain L) (column "Source" df) = Ok domains ->
  rows df <> [] ->
  exists d,
    detect_main_domain L df = Ok d
    /\ In d domains
    /\ (forall d', count_of String.eqb d' domains <= count_of String.eqb d domains)
    /\ (forall d' i i',
           count_of String.eqb d' domains = count_of String.eqb d domains ->
           get_loc d domains = Some i -> get_loc d' domains = Some i' -> i <= i').
Proof. exact (detect_main_domain_spec L df domains). Qed.

Lemma main_domain_is_most_common_netloc_witness :
  exists d,
    detect_main_domain stable_lib two_hosts = Ok d
    /\ In d ["a.com"; "a.com"; "a.com"; "b.com"; "b.com"]
    /\ (forall d', count_of String.eqb d' ["a.com"; "a.com"; "a.com"; "b.com"; "b.com"]
                   <= count_of String.eqb d ["a.com"; "a.com"; "a.com"; "b.com"; "b.com"])
    /\ (forall d' i i',
           count_of String.eqb d' ["a.com"; "a.com"; "a.com"; "b.com"; "b.com"]
           = count_of String.eqb d ["a.com"; "a.com"; "a.com"; "b.com"; "b.com"] ->
           get_loc d ["a.com"; "a.com"; "a.com"; "b.com"; "b.com"] = Some i ->
           get_loc d' ["a.com"; "a.com"; "a.com"; "b.com"; "b.com"] = Some i' -> i <= i').
Proof.
  apply (main_domain_is_most_common_netloc stable_lib two_hosts).
  - reflexivity.
  - reflexivity.
  - discriminate.
Defined.

(** C4, as stated, fails: the most frequent [Source] URL of [two_hosts] is
    [http://b.com/x], whose location is [b.com], and the detected main
    domain is [a.com]. *)
Lemma main_domain_not_of_most_frequent_url :
  most_common1 (Counter cell_eqb (column "Source" two_hosts)) = [(Str "http://b.com/x", 2)]
  /\ spec_main_domain stable_lib two_hosts = Ok "b.com"
  /\ detect_main_domain stable_lib two_hosts = Ok "a.com"
  /\ detect_main_domain stable_lib two_hosts <> spec_main_domain stable_lib two_hosts.
Proof. repeat split; try reflexivity. discriminate. Qed.

(** ** The range of columns from [Follow] to [Link Path] *)

Lemma mem_slice (c : string) (l : list string) (i n k : nat) :
  NoDup l -> get_loc c l = Some k ->
  mem c (firstn n (skipn i l)) = (i <=? k)%nat && (k <? i + n)%nat.
Proof.
  intros ND Hk. apply get_loc_nth_error in Hk.
  apply Bool.eq_iff_eq_true. rewrite mem_In, andb_true_iff, Nat.leb_le, Nat.ltb_lt.
  split.
  - intro H. apply In_nth_error in H. destruct H as [m Hm].
    rewrite nth_error_firstn in Hm. destruct (m <? n)%nat eqn:E; [|discriminate].
    apply Nat.ltb_lt in E. rewrite nth_error_skipn in Hm.
    assert (i + m = k).
    { rewrite NoDup_nth_error in ND. apply ND; [|congruence].
      apply nth_error_Some. congruence. }
    lia.
  - intros [H1 H2]. apply nth_error_In with (n := k - i).
    rewrite nth_error_firstn.
    assert (E : (k - i <? n)%nat = true) by (apply Nat.ltb_lt; lia).
    rewrite E, nth_error_skipn. replace (i + (k - i)) with k by lia. exact Hk.
Qed.

Lemma In_slice {A : Type} (x : A) (l : list A) (i n : nat) :
  In x (firstn n (skipn i l)) -> In x l.
Proof.
  intro H. rewrite <- (firstn_skipn i l). apply in_or_app. right.
  rewrite <- (firstn_skipn n (skipn i l)). apply in_or_app. now left.
Qed.

Lemma mem_loc_slice (c : string) (l : list string) (i j : nat) :
  NoDup l -> get_loc "Follow" l = Some i -> get_loc "Link Path" l = Some j ->
  negb (mem c (loc_slice "Follow" "Link Path" l)) = outside i j l c.
Proof.
  intros ND Hi Hj. unfold loc_slice, outside. rewrite Hi, Hj.
  destruct (get_loc c l) as [k|] eqn:Hk.
  - rewrite (mem_slice c l i (S j - i) k ND Hk).
    destruct (Nat.leb_spec i k), (Nat.ltb_spec k (i + (S j - i))), (Nat.leb_spec k j);
      simpl; try reflexivity; lia.
  - destruct (mem c (firstn (S j - i) (skipn i l))) eqn:M; [|reflexivity].
    apply mem_In in M. apply In_slice in M. apply get_loc_In in M.
    destruct M as [k M]. congruence.
Qed.

(** C5, as amended: when [Follow] stands at position [i] and [Link Path] at
    position [j] of a table with distinct labels, step 4 removes the columns
    at the positions from [i] to [j], both included, and keeps the others in
    their order, in the labels and in every record; this removes nothing
    when [Link Path] stands to the left of [Follow].  When one of the two
    labels is missing the table is unchanged. *)
Theorem drop_range_removes_from_Follow_to_Link_Path (df : DataFrame) :
  NoDup (columns df) ->
  (forall i j,
      get_loc "Follow" (columns df) = Some i ->
      get_loc "Link Path" (columns df) = Some j ->
      columns (drop_range df) = filter (outside i j (columns df)) (columns df)
      /\ rows (drop_range df)
         = map (filter (fun kv => outside i j (columns df) (fst kv))) (rows df)
      /\ (j < i -> columns (drop_range df) = columns df))
  /\ (has_column "Follow" df = false \/ has_column "Link Path" df = false ->
      drop_range df = df).
Proof.
  intro ND. split.
  - intros i j Hi Hj. unfold drop_range.
    assert (HF : has_column "Follow" df = true) by (apply mem_In, get_loc_In; eauto).
    assert (HL : has_column "Link Path" df = true) by (apply mem_In, get_loc_In; eauto).
    rewrite HF, HL. simpl.
    assert (E : forall c, negb (mem c (loc_slice "Follow" "Link Path" (columns df)))
                          = outside i j (columns df) c).
    { intro c. now apply mem_loc_slice. }
    split; [|split].
    + apply filter_ext. exact E.
    + apply map_ext. intro r. unfold drop_row. apply filter_ext. intro kv. apply E.
    + intro Lt. rewrite (filter_ext _ _ E).
      rewrite forallb_filter_id; [reflexivity|].
      apply forallb_forall. intros c Hc. unfold outside.
      destruct (get_loc c (columns df)) as [k|]; [|reflexivity].
      destruct (Nat.leb_spec i k), (Nat.leb_spec k j); simpl; try reflexivity; lia.
  - intros [H|H]; unfold drop_range; rewrite H; [reflexivity | now rewrite andb_false_r].
Qed.

Lemma drop_range_removes_from_Follow_to_Link_Path_witness :
  (forall i j,
      get_loc "Follow" (columns destination_in_range) = Some i ->
      get_loc "Link Path" (columns destination_in_range) = Some j ->
      columns (drop_range destination_in_range)
      = filter (outside i j (columns destination_in_range)) (columns destination_in_range)
      /\ rows (drop_range destination_in_range)
         = map (filter (fun kv => outside i j (columns destination_in_range) (fst kv)))
               (rows destination_in_range)
      /\ (j < i -> columns (drop_range destination_in_range) = columns destination_in_range))
  /\ (has_column "Follow" destination_in_range = false
      \/ has_column "Link Path" destination_in_range = false ->
      drop_range destination_in_range = destination_in_range).
Proof.
  apply (drop_range_removes_from_Follow_to_Link_Path destination_in_range).
  repeat constructor; simpl; intuition discriminate.
Defined.

(** C5, as stated, fails: in [reversed_range] both labels exist and
    [Link Path], [Target] and [Follow] sit between them, and step 4 leaves
    the table as it is. *)
Lemma drop_range_keeps_reversed_range :
  has_column "Follow" reversed_range = true
  /\ has_column "Link Path" reversed_range = true
  /\ spec_between "Follow" "Link Path" "Target" (columns reversed_range) = true
  /\ has_column "Target" (drop_range reversed_range) = true
  /\ drop_range reversed_range = reversed_range.
Proof. repeat split. Qed.

(** ** Labels through the column steps *)

Lemma has_column_drop_initial (c : string) (df : DataFrame) :
  has_column c (drop_initial df) = true -> has_column c df = true.
Proof.
  unfold drop_initial. rewrite has_column_drop. intro H.
  apply andb_true_iff in H. tauto.
Qed.

Lemma has_column_drop_range (c : string) (df : DataFrame) :
  has_column c (drop_range df) = true -> has_column c df = true.
Proof.
  unfold drop_range. destruct (has_column "Follow" df && has_column "Link Path" df); [|auto].
  rewrite has_column_drop. intro H. apply andb_true_iff in H. tauto.
Qed.

Lemma columns_keep_content (df : DataFrame) : columns (keep_content df) = columns df.
Proof. unfold keep_content. now destruct (has_column "Link Position" df). Qed.

Lemma has_column_keep_content (c : string) (df : DataFrame) :
  has_column c (keep_content df) = has_column c df.
Proof. unfold has_column. now rewrite columns_keep_content. Qed.

Lemma has_column_drop_final (c : string) (df : DataFrame) :
  has_column c (drop_final df) = true -> has_column c df = true.
Proof.
  unfold drop_final. rewrite has_column_drop. intro H.
  apply andb_true_iff in H. tauto.
Qed.

(** A label that the table does not have before step 3 is not there at
    step 7. *)
Lemma has_column_prepared (c : string) (df : DataFrame) :
  has_column c (drop_final (keep_content (drop_range (drop_initial df)))) = true ->
  has_column c df = true.
Proof.
  intro H. apply has_column_drop_final in H. rewrite has_column_keep_content in H.
  now apply has_column_drop_initial, has_column_drop_range.
Qed.

Lemma get_loc_filter (p : string -> bool) (c : string) (l : list string) (k : nat) :
  p c = true -> get_loc c l = Some k ->
  get_loc c (filter p l) = Some (List.length (filter p (firstn k l))).
Proof.
  intro P. revert k. induction l as [|a l IH]; intros k H; simpl in H; [discriminate|].
  destruct (String.eqb a c) eqn:E.
  - apply String.eqb_eq in E. subst a. inversion H. subst k. simpl.
    rewrite P. simpl. now rewrite String.eqb_refl.
  - destruct (get_loc c l) as [k'|] eqn:G; [|discriminate]. inversion H. subst k.
    simpl. destruct (p a); simpl.
    + rewrite E, (IH k' eq_refl). reflexivity.
    + now apply IH.
Qed.

Lemma filter_firstn_le {A : Type} (p : A -> bool) (l : list A) (i k : nat) :
  i <= k -> List.length (filter p (firstn i l)) <= List.length (filter p (firstn k l)).
Proof.
  revert i k. induction l as [|a l IH]; intros i k H.
  - now rewrite !firstn_nil.
  - destruct i as [|i]; [simpl; lia|]. destruct k as [|k]; [lia|].
    simpl. specialize (IH i k ltac:(lia)). destruct (p a); simpl; lia.
Qed.

Lemma mem_loc_slice_between (a b c : string) (l : list string) (i k j : nat) :
  get_loc a l = Some i -> get_loc c l = Some k -> get_loc b l = Some j ->
  i <= k <= j -> mem c (loc_slice a b l) = true.
Proof.
  intros Hi Hk Hj Le. unfold loc_slice. rewrite Hi, Hj. apply mem_In.
  apply nth_error_In with (n := k - i). rewrite nth_error_firstn.
  assert (E : (k - i <? S j - i)%nat = true) by (apply Nat.ltb_lt; lia).
  rewrite E, nth_error_skipn. replace (i + (k - i)) with k by lia.
  now apply get_loc_nth_error.
Qed.

Lemma detect_then_destination_missing (L : PyLib) (df : DataFrame) (d : string) :
  detect_main_domain L df = Ok d ->
  has_column "Destination" (drop_final (keep_content (drop_range (drop_initial df)))) = false ->
  process_data L df = Failed (MissingColumn "Destination").
Proof.
  intros HD HN. unfold process_data, links_before_sort, links_after_status.
  rewrite HD. simpl. unfold keep_main_domain. rewrite HN. reflexivity.
Qed.

Lemma detect_succeeds (L : PyLib) (df : DataFrame) (domains : list string) :
  has_column "Source" df = true ->
  mapM (extract_main_domain L) (column "Source" df) = Ok domains ->
  rows df <> [] ->
  exists d, detect_main_domain L df = Ok d.
Proof.
  intros H1 H2 H3.
  destruct (detect_main_domain_spec L df domains H1 H2 H3) as (d & Hd & _).
  eauto.
Qed.

(** ** The fatal errors *)

Lemma missing_source (L : PyLib) (df : DataFrame) :
  has_column "Source" df = false -> process_data L df = Failed (MissingColumn "Source").
Proof.
  intro H. unfold process_data, links_before_sort, links_after_status, detect_main_domain.
  now rewrite H.
Qed.

Lemma no_rows (L : PyLib) (df : DataFrame) :
  has_column "Source" df = true -> rows df = [] -> process_data L df = Failed EmptyDomainSet.
Proof.
  intros H E. unfold process_data, links_before_sort, links_after_status, detect_main_domain.
  rewrite H. unfold column. rewrite E. reflexivity.
Qed.

Lemma missing_destination (L : PyLib) (df : DataFrame) (domains : list string) :
  has_column "Source" df = true ->
  mapM (extract_main_domain L) (column "Source" df) = Ok domains ->
  rows df <> [] ->
  has_column "Destination" df = false ->
  process_data L df = Failed (MissingColumn "Destination").
Proof.
  intros H1 H2 H3 H4. destruct (detect_succeeds L df domains H1 H2 H3) as [d Hd].
  apply (detect_then_destination_missing L df d Hd).
  destruct (has_column "Destination"
              (drop_final (keep_content (drop_range (drop_initial df))))) eqn:E;
    [|reflexivity].
  apply has_column_prepared in E. congruence.
Qed.

Lemma range_drops_destination (df : DataFrame) (i k j : nat) :
  get_loc "Follow" (columns df) = Some i ->
  get_loc "Destination" (columns df) = Some k ->
  get_loc "Link Path" (columns df) = Some j ->
  i <= k <= j ->
  has_column "Destination" (drop_range (drop_initial df)) = false.
Proof.
  intros Hi Hk Hj Le.
  set (p := fun c => negb (mem c (existing columns_to_drop_initial df))).
  assert (P : forall c, mem c columns_to_drop_initial = false -> p c = true).
  { intros c Hc. unfold p, existing. rewrite mem_filter, Hc. reflexivity. }
  assert (Hi' := get_loc_filter p _ _ _ (P "Follow" eq_refl) Hi).
  assert (Hk' := get_loc_filter p _ _ _ (P "Destination" eq_refl) Hk).
  assert (Hj' := get_loc_filter p _ _ _ (P "Link Path" eq_refl) Hj).
  change (filter p (columns df)) with (columns (drop_initial df)) in Hi', Hk', Hj'.
  unfold drop_range.
  assert (HF : has_column "Follow" (drop_initial df) = true) by (apply mem_In, get_loc_In; eauto).
  assert (HL : has_column "Link Path" (drop_initial df) = true) by (apply mem_In, get_loc_In; eauto).
  rewrite HF, HL. cbn [andb]. rewrite has_column_drop.
  rewrite (mem_loc_slice_between _ _ _ _ _ _ _ Hi' Hk' Hj').
  - apply andb_false_r.
  - split; apply filter_firstn_le; lia.
Qed.

Lemma destination_dropped_by_range (L : PyLib) (df : DataFrame) (d : string) :
  detect_main_domain L df = Ok d ->
  has_column "Destination" (drop_range (drop_initial df)) = false ->
  process_data L df = Failed (MissingColumn "Destination").
Proof.
  intros HD HN. apply (detect_then_destination_missing L df d HD).
  destruct (has_column "Destination"
              (drop_final (keep_content (drop_range (drop_initial df))))) eqn:E;
    [|reflexivity].
  apply has_column_drop_final in E. rewrite has_column_keep_content in E. congruence.
Qed.

(** C7, as amended: a table without the [Source] column fails with
    [MissingColumn "Source"]; a table with the [Source] column and no row
    fails with [EmptyDomainSet]; a table with the [Source] column, at least
    one row, [Source] cells that are all parsed, and no [Destination] column
    fails with [MissingColumn "Destination"].  No output is produced in any
    of them.  (Nothing is said here about these being the only failures.) *)
Theorem required_columns_are_checked (L : PyLib) (df : DataFrame) :
  (has_column "Source" df = false ->
   process_data L df = Failed (MissingColumn "Source"))
  /\ (has_column "Source" df = true -> rows df = [] ->
      process_data L df = Failed EmptyDomainSet)
  /\ (forall domains,
         has_column "Source" df = true ->
         mapM (extract_main_domain L) (column "Source" df) = Ok domains ->
         rows df <> [] ->
         has_column "Destination" df = false ->
         process_data L df = Failed (MissingColumn "Destination")).
Proof.
  split; [apply missing_source|]. split; [apply no_rows|].
  intro domains. apply missing_destination.
Qed.

Lemma required_columns_are_checked_witness :
  process_data stable_lib destination_only = Failed (MissingColumn "Source")
  /\ process_data stable_lib source_only_no_rows = Failed EmptyDomainSet
  /\ process_data stable_lib source_only = Failed (MissingColumn "Destination").
Proof.
  split; [|split].
  - apply (required_columns_are_checked stable_lib destination_only). reflexivity.
  - apply (required_columns_are_checked stable_lib source_only_no_rows); reflexivity.
  - apply (required_columns_are_checked stable_lib source_only) with (domains := ["a.com"]).
    + reflexivity.
    + reflexivity.
    + discriminate.
    + reflexivity.
Defined.

(** C7, as stated, fails twice: [source_only_no_rows] lacks the
    [Destination] column and fails with [EmptyDomainSet], not with
    [MissingColumn "Destination"]; and [destination_in_range] has both
    required columns and a row, and yet produces no result. *)
Lemma missing_column_is_not_the_whole_story :
  (has_column "Destination" source_only_no_rows = false
   /\ process_data stable_lib source_only_no_rows = Failed EmptyDomainSet
   /\ process_data stable_lib source_only_no_rows <> Failed (MissingColumn "Destination"))
  /\ (has_column "Source" destination_in_range = true
      /\ has_column "Destination" destination_in_range = true
      /\ rows destination_in_range <> []
      /\ process_data stable_lib destination_in_range = Failed (MissingColumn "Destination")).
Proof. repeat split; discriminate. Qed.

(** C9: a table can have the [Destination] column and still fail with
    [MissingColumn "Destination"]: whenever the main domain is detected,
    [Follow] and [Link Path] are present and [Destination] stands between
    them (from the position of [Follow] to that of [Link Path]), step 4
    removes it and the check of step 7 reports it missing. *)
Theorem destination_in_dropped_range_is_reported_missing
        (L : PyLib) (df : DataFrame) (d : string) (i k j : nat) :
  detect_main_domain L df = Ok d ->
  get_loc "Follow" (columns df) = Some i ->
  get_loc "Destination" (columns df) = Some k ->
  get_loc "Link Path" (columns df) = Some j ->
  i <= k <= j ->
  has_column "Destination" df = true
  /\ has_column "Destination" (drop_range (drop_initial df)) = false
  /\ process_data L df = Failed (MissingColumn "Destination").
Proof.
  intros HD Hi Hk Hj Le.
  pose proof (range_drops_destination df i k j Hi Hk Hj Le) as HN.
  split; [apply mem_In, get_loc_In; eauto|]. split; [exact HN|].
  exact (destination_dropped_by_range L df d HD HN).
Qed.

Lemma destination_in_dropped_range_is_reported_missing_witness :
  has_column "Destination" destination_in_range = true
  /\ has_column "Destination" (drop_range (drop_initial destination_in_range)) = false
  /\ process_data stable_lib destination_in_range = Failed (MissingColumn "Destination").
Proof.
  apply (destination_in_dropped_range_is_reported_missing
           stable_lib destination_in_range "a.com" 1 2 3); try reflexivity.
  lia.
Defined.

(** ** Indexing by a permutation of the positions *)

Lemma take_seq_app {A : Type} (pre l : list A) :
  take (pre ++ l) (seq (List.length pre) (List.length l)) = l.
Proof.
  revert pre. induction l as [|a l IH]; intro pre; [reflexivity|].
  simpl. rewrite nth_error_app2, Nat.sub_diag by lia. simpl. f_equal.
  specialize (IH (pre ++ [a])). rewrite <- app_assoc, length_app in IH. simpl in IH.
  rewrite Nat.add_1_r in IH. exact IH.
Qed.

Lemma take_seq {A : Type} (l : list A) : take l (seq 0 (List.length l)) = l.
Proof. exact (take_seq_app [] l). Qed.

Lemma take_Permutation {A : Type} (l : list A) (indexer : list nat) :
  Permutation indexer (seq 0 (List.length l)) -> Permutation (take l indexer) l.
Proof.
  intro H. rewrite <- (take_seq l) at 2. unfold take.
  now apply Permutation_flat_map.
Qed.

Lemma take_map {A B : Type} (f : A -> B) (l : list A) (indexer : list nat) :
  take (map f l) indexer = map f (take l indexer).
Proof.
  unfold take. induction indexer as [|i ix IH]; simpl; [reflexivity|].
  rewrite map_app, IH, nth_error_map. now destruct (nth_error l i).
Qed.

Lemma descending_positions (n : nat) :
  map (fun i => n - 1 - i) (seq 0 n) = rev (seq 0 n).
Proof.
  induction n as [|n IH]; [reflexivity|].
  rewrite seq_S at 2. rewrite rev_app_distr. simpl.
  rewrite <- seq_shift, map_map, Nat.sub_0_r. f_equal.
  - lia.
  - rewrite <- IH. apply map_ext. intro i. lia.
Qed.

(** ** The contract holds for the services with the stable sort *)

Section InsertionSortFacts.
Context {A : Type} (lt : A -> A -> bool).

Lemma insert_Permutation (x : nat * A) (l : list (nat * A)) :
  Permutation (insert lt x l) (x :: l).
Proof.
  induction l as [|y l IH]; simpl; [reflexivity|].
  destruct (lt (snd x) (snd y)); [reflexivity|].
  rewrite IH. apply perm_swap.
Qed.

Lemma fold_insert_Permutation (l acc : list (nat * A)) :
  Permutation (fold_left (fun acc x => insert lt x acc) l acc) (acc ++ l).
Proof.
  revert acc. induction l as [|x l IH]; intro acc; simpl.
  - now rewrite app_nil_r.
  - rewrite IH, insert_Permutation. apply Permutation_middle.
Qed.

Lemma insertion_sort_Permutation (l : list (nat * A)) :
  Permutation (insertion_sort lt l) l.
Proof. unfold insertion_sort. apply (fold_insert_Permutation l []). Qed.

Lemma map_fst_combine_seq (keys : list A) (start : nat) :
  map fst (combine (seq start (List.length keys)) keys) = seq start (List.length keys).
Proof.
  revert start. induction keys as [|k keys IH]; intro start; simpl; [reflexivity|].
  now rewrite IH.
Qed.

Lemma insertion_argsort_Permutation (keys : list A) :
  Permutation (insertion_argsort lt keys) (seq 0 (List.length keys)).
Proof.
  unfold insertion_argsort. rewrite <- (map_fst_combine_seq keys 0) at 2.
  apply Permutation_map, insertion_sort_Permutation.
Qed.
End InsertionSortFacts.

Lemma compare_not_Gt_trans (a b c : string) :
  String.compare a b <> Gt -> String.compare b c <> Gt -> String.compare a c <> Gt.
Proof.
  revert b c. induction a as [|x a IH]; intros [|y b] [|z c]; simpl; try congruence.
  unfold Ascii.compare.
  destruct (N.compare_spec (N_of_ascii x) (N_of_ascii y)),
           (N.compare_spec (N_of_ascii y) (N_of_ascii z)),
           (N.compare_spec (N_of_ascii x) (N_of_ascii z));
    try congruence; try lia; eauto.
Qed.

Lemma leb_not_Gt (a b : string) : String.leb a b = true <-> String.compare a b <> Gt.
Proof. unfold String.leb. destruct (String.compare a b); split; congruence. Qed.

Lemma leb_trans (a b c : string) :
  String.leb a b = true -> String.leb b c = true -> String.leb a c = true.
Proof. rewrite !leb_not_Gt. apply compare_not_Gt_trans. Qed.

Lemma ltb_leb (a b : string) : String.ltb a b = true -> String.leb a b = true.
Proof. unfold String.ltb, String.leb. now destruct (String.compare a b). Qed.

Lemma not_ltb_leb (a b : string) : String.ltb a b = false -> String.leb b a = true.
Proof.
  unfold String.ltb, String.leb. rewrite (String.compare_antisym a b).
  now destruct (String.compare b a).
Qed.

Section StringInsertionSort.
Let le (a b : string) : Prop := String.leb a b = true.
Let keys_of (l : list (nat * string)) : list string := map snd l.

Lemma insert_HdRel (y x : nat * string) (l : list (nat * string)) :
  HdRel le (snd y) (keys_of l) -> le (snd y) (snd x) ->
  HdRel le (snd y) (keys_of (insert String.ltb x l)).
Proof.
  intros H Hx. destruct l as [|z l]; simpl.
  - now constructor.
  - destruct (String.ltb (snd x) (snd z)); simpl; constructor; [assumption|].
    now inversion H.
Qed.

Lemma insert_Sorted (x : nat * string) (l : list (nat * string)) :
  Sorted le (keys_of l) -> Sorted le (keys_of (insert String.ltb x l)).
Proof.
  induction l as [|y l IH]; intro H; simpl.
  - repeat constructor.
  - inversion H as [|? ? Hs Hh]; subst.
    destruct (String.ltb (snd x) (snd y)) eqn:E; simpl.
    + constructor; [exact H|]. constructor. now apply ltb_leb.
    + constructor; [now apply IH|]. apply insert_HdRel; [assumption|].
      now apply not_ltb_leb.
Qed.

Lemma fold_insert_Sorted (l acc : list (nat * string)) :
  Sorted le (keys_of acc) ->
  Sorted le (keys_of (fold_left (fun acc x => insert String.ltb x acc) l acc)).
Proof.
  revert acc. induction l as [|x l IH]; intros acc H; simpl; [assumption|].
  apply IH. now apply insert_Sorted.
Qed.

Lemma combine_seq_lookup (pre keys : list string) :
  Forall (fun p => nth_error (pre ++ keys) (fst p) = Some (snd p))
         (combine (seq (List.length pre) (List.length keys)) keys).
Proof.
  revert pre. induction keys as [|k keys IH]; intro pre; simpl; constructor.
  - simpl. rewrite nth_error_app2, Nat.sub_diag by lia. reflexivity.
  - specialize (IH (pre ++ [k])). rewrite <- app_assoc, length_app in IH. simpl in IH.
    now rewrite Nat.add_1_r in IH.
Qed.

Lemma take_lookup (keys : list string) (l : list (nat * string)) :
  Forall (fun p => nth_error keys (fst p) = Some (snd p)) l ->
  take keys (map fst l) = keys_of l.
Proof.
  induction 1 as [|p l Hp _ IH]; simpl; [reflexivity|].
  rewrite Hp. simpl. now f_equal.
Qed.

Lemma insertion_argsort_sorted (keys : list string) :
  StronglySorted le (take keys (insertion_argsort String.ltb keys)).
Proof.
  unfold insertion_argsort. rewrite take_lookup.
  - apply Sorted_StronglySorted.
    + intros a b c. apply leb_trans.
    + apply fold_insert_Sorted. constructor.
  - eapply Permutation_Forall.
    + symmetry. apply insertion_sort_Permutation.
    + exact (combine_seq_lookup [] keys).
Qed.
End StringInsertionSort.

Lemma search_empty (s : string) : search "" s = true.
Proof. now destruct s. Qed.

Lemma stable_lib_ok : LibOk stable_lib.
Proof.
  constructor.
  - intros A lt l. apply insertion_argsort_Permutation.
  - intro l. apply insertion_argsort_sorted.
  - exists (search ""). split; [reflexivity | exact search_empty].
Qed.

(** ** [value_counts] *)

Lemma count_of_filter (p : cell -> bool) (k : cell) (l : list cell) :
  p k = true -> count_of cell_eqb k (filter p l) = count_of cell_eqb k l.
Proof.
  intro P. unfold count_of. f_equal. induction l as [|a l IH]; simpl; [reflexivity|].
  destruct (cell_eqb k a) eqn:E.
  - apply cell_eqb_eq in E. subst a. rewrite P. simpl. rewrite cell_eqb_refl. now f_equal.
  - destruct (p a); simpl; [rewrite E|]; exact IH.
Qed.

Lemma value_counts_Permutation (L : PyLib) (vals : list cell) :
  LibOk L ->
  Permutation (value_counts L vals) (Counter cell_eqb (filter notna vals)).
Proof.
  intro OK. unfold value_counts. apply take_Permutation.
  set (kc := Counter cell_eqb (filter notna vals)).
  rewrite <- Permutation_rev.
  rewrite (Permutation_map _ (argsort_perm L OK nat Nat.ltb (rev (map snd kc)))).
  rewrite length_rev, length_map, descending_positions.
  symmetry. apply Permutation_rev.
Qed.

Lemma value_counts_In (L : PyLib) (vals : list cell) (k : cell) (n : nat) :
  LibOk L ->
  In (k, n) (value_counts L vals)
  <-> notna k = true /\ In k vals /\ n = count_of cell_eqb k vals.
Proof.
  intro OK. pose proof (value_counts_Permutation L vals OK) as P.
  rewrite (Counter_spec cell_eqb cell_eqb_eq) in P.
  split.
  - intro H. apply (Permutation_in _ P) in H. apply in_map_iff in H.
    destruct H as (k' & E & Hk). inversion E. subst k'.
    apply -> (In_distinct cell_eqb cell_eqb_eq) in Hk. apply filter_In in Hk.
    destruct Hk as [Hk Hn]. repeat split; try assumption.
    now apply count_of_filter.
  - intros (Hn & Hk & ->). apply (Permutation_in _ (Permutation_sym P)).
    apply in_map_iff. exists k. split.
    + f_equal. now apply count_of_filter.
    + apply (In_distinct cell_eqb cell_eqb_eq). apply filter_In. auto.
Qed.

Lemma value_counts_NoDup (L : PyLib) (vals : list cell) :
  LibOk L -> NoDup (map fst (value_counts L vals)).
Proof.
  intro OK. apply (Permutation_NoDup (l := distinct cell_eqb (filter notna vals))).
  - pose proof (value_counts_Permutation L vals OK) as P.
    rewrite (Counter_spec cell_eqb cell_eqb_eq) in P.
    apply (Permutation_map fst) in P. rewrite map_map in P. simpl in P.
    rewrite map_id in P. now symmetry.
  - apply (NoDup_distinct cell_eqb cell_eqb_eq).
Qed.

(** ** The anchor filters *)

Lemma overused_anchor (L : PyLib) (vals : list cell) (a : cell) :
  LibOk L ->
  existsb (cell_eqb a) (map fst (filter (fun kn => (5 <? snd kn)%nat) (value_counts L vals)))
  = notna a && (5 <? count_of cell_eqb a vals)%nat.
Proof.
  intro OK. apply Bool.eq_iff_eq_true.
  rewrite (existsb_eqb cell_eqb cell_eqb_eq), in_map_iff, andb_true_iff, Nat.ltb_lt.
  split.
  - intros ([k n] & E & H). simpl in E. subst k. apply filter_In in H.
    destruct H as [H Hn]. simpl in Hn. apply Nat.ltb_lt in Hn.
    apply (value_counts_In L vals a n OK) in H. destruct H as (Na & _ & ->). auto.
  - intros [Na Hn]. exists (a, count_of cell_eqb a vals). split; [reflexivity|].
    apply filter_In. split; [|now apply Nat.ltb_lt].
    apply (value_counts_In L vals _ _ OK). repeat split; try assumption.
    apply (count_of_pos cell_eqb cell_eqb_eq). lia.
Qed.

Lemma drop_empty_anchor_notna (df : DataFrame) (r : row) :
  has_column "Anchor" df = true -> In r (rows (drop_empty_anchor df)) ->
  notna (get "Anchor" r) = true.
Proof.
  intros H Hr. unfold drop_empty_anchor in Hr. rewrite H in Hr. simpl in Hr.
  apply filter_In in Hr. destruct Hr as [_ Hr]. apply andb_true_iff in Hr. tauto.
Qed.

Lemma drop_overused_anchor_rows (L : PyLib) (df : DataFrame) :
  LibOk L -> has_column "Anchor" df = true ->
  rows (drop_overused_anchor L df)
  = filter (fun r => negb (notna (get "Anchor" r)
                           && (5 <? occurrences "Anchor" (get "Anchor" r) df)%nat))
           (rows df).
Proof.
  intros OK H. unfold drop_overused_anchor. rewrite H. simpl.
  apply filter_ext. intro r. now rewrite overused_anchor.
Qed.

(** C8: when the [Anchor] column is present, of the records that reach
    step 13 (those that step 12 leaves) step 13 drops every one whose anchor
    occurs more than 5 times among them, and keeps every one whose anchor
    occurs at most 5 times, so exactly 5 times too. *)
Theorem anchor_overuse_threshold (L : PyLib) (df : DataFrame) (r : row) :
  LibOk L ->
  has_column "Anchor" df = true ->
  In r (rows (drop_empty_anchor df)) ->
  (5 < occurrences "Anchor" (get "Anchor" r) (drop_empty_anchor df) ->
   ~ In r (rows (drop_overused_anchor L (drop_empty_anchor df))))
  /\ (occurrences "Anchor" (get "Anchor" r) (drop_empty_anchor df) <= 5 ->
      In r (rows (drop_overused_anchor L (drop_empty_anchor df)))).
Proof.
  intros OK H Hr.
  assert (H' : has_column "Anchor" (drop_empty_anchor df) = true).
  { unfold drop_empty_anchor. now rewrite H. }
  rewrite (drop_overused_anchor_rows L _ OK H').
  pose proof (drop_empty_anchor_notna df r H Hr) as Na.
  split.
  - intros Hn Hin. apply filter_In in Hin. destruct Hin as [_ Hin].
    rewrite Na in Hin. simpl in Hin. apply negb_true_iff, Nat.ltb_ge in Hin. lia.
  - intro Hn. apply filter_In. split; [assumption|].
    rewrite Na. simpl. apply negb_true_iff, Nat.ltb_ge. exact Hn.
Qed.

Lemma anchor_overuse_threshold_witness :
  (5 < occurrences "Anchor" (Str "five") (drop_empty_anchor anchors) ->
   ~ In (link "http://a.com/1" "http://a.com/y" "five")
        (rows (drop_overused_anchor stable_lib (drop_empty_anchor anchors))))
  /\ (occurrences "Anchor" (Str "five") (drop_empty_anchor anchors) <= 5 ->
      In (link "http://a.com/1" "http://a.com/y" "five")
         (rows (drop_overused_anchor stable_lib (drop_empty_anchor anchors)))).
Proof.
  apply (anchor_overuse_threshold stable_lib anchors
           (link "http://a.com/1" "http://a.com/y" "five") stable_lib_ok).
  - reflexivity.
  - simpl. tauto.
Defined.

(** ** The table of counts *)

Lemma incr_total {K : Type} (eqb : K -> K -> bool) (k : K) (c : list (K * nat)) :
  list_sum (map snd (incr eqb k c)) = S (list_sum (map snd c)).
Proof.
  induction c as [|[k' n] c IH]; simpl; [reflexivity|].
  destruct (eqb k' k); simpl; [reflexivity|]. rewrite IH. lia.
Qed.

Lemma Counter_total {K : Type} (eqb : K -> K -> bool) (l : list K) :
  list_sum (map snd (Counter eqb l)) = List.length l.
Proof.
  unfold Counter.
  assert (G : forall c, list_sum (map snd (fold_left (fun c k => incr eqb k c) l c))
                        = list_sum (map snd c) + List.length l).
  { induction l as [|a l IH]; intro c; simpl; [lia|].
    rewrite IH, incr_total. lia. }
  apply G.
Qed.

Lemma list_sum_Permutation (l l' : list nat) :
  Permutation l l' -> list_sum l = list_sum l'.
Proof. induction 1; simpl; lia. Qed.

Lemma count_of_Permutation (k : cell) (l l' : list cell) :
  Permutation l l' -> count_of cell_eqb k l = count_of cell_eqb k l'.
Proof.
  unfold count_of. induction 1; simpl.
  - reflexivity.
  - destruct (cell_eqb k x); simpl; lia.
  - destruct (cell_eqb k x), (cell_eqb k y); reflexivity.
  - lia.
Qed.

Lemma filter_all {A : Type} (p : A -> bool) (l : list A) :
  (forall a, In a l -> p a = true) -> filter p l = l.
Proof.
  intro H. induction l as [|a l IH]; simpl; [reflexivity|].
  rewrite (H a (or_introl eq_refl)). f_equal. apply IH. intros b Hb. apply H. now right.
Qed.

Lemma filter_none {A : Type} (p : A -> bool) (l : list A) :
  (forall a, In a l -> p a = false) -> filter p l = [].
Proof.
  intro H. induction l as [|a l IH]; simpl; [reflexivity|].
  rewrite (H a (or_introl eq_refl)). apply IH. intros b Hb. apply H. now right.
Qed.

Lemma counts_frame_rows (counts : list (cell * nat)) :
  rows (counts_frame counts) = map (fun kn => count_row (fst kn) (snd kn)) counts.
Proof. reflexivity. Qed.

Lemma total_count_counts_frame (counts : list (cell * nat)) :
  total_count (counts_frame counts) = Z.of_nat (list_sum (map snd counts)).
Proof.
  unfold total_count, column. simpl.
  induction counts as [|[k n] counts IH]; simpl; [reflexivity|].
  rewrite IH. lia.
Qed.

Lemma In_count_row (counts : list (cell * nat)) (d : cell) (n : nat) :
  In (count_row d n) (rows (counts_frame counts)) <-> In (d, n) counts.
Proof.
  rewrite counts_frame_rows, in_map_iff. split.
  - intros ([k m] & E & H). unfold count_row in E. simpl in E.
    inversion E as [[Ek Em]]. apply Nat2Z.inj in Em. now subst.
  - intro H. now exists (d, n).
Qed.

Lemma column_unique_urls (counts : list (cell * nat)) :
  column "unique_urls" (counts_frame counts) = map fst counts.
Proof. unfold column. simpl. rewrite map_map. reflexivity. Qed.

Lemma count_of_NoDup (k : cell) (l : list cell) :
  NoDup l -> In k l -> count_of cell_eqb k l = 1.
Proof.
  unfold count_of. induction 1 as [|a l Ha ND IH]; simpl; [contradiction|].
  intros [->|Hk].
  - rewrite cell_eqb_refl. simpl. f_equal. rewrite filter_none; [reflexivity|].
    intros b Hb. destruct (cell_eqb k b) eqn:E; [|reflexivity].
    apply cell_eqb_eq in E. now subst.
  - destruct (cell_eqb k a) eqn:E; [apply cell_eqb_eq in E; now subst|]. now apply IH.
Qed.

(** The counts of a column without missing values. *)
Lemma value_counts_total (L : PyLib) (vals : list cell) :
  LibOk L -> (forall v, In v vals -> notna v = true) ->
  list_sum (map snd (value_counts L vals)) = List.length vals.
Proof.
  intros OK H.
  rewrite (list_sum_Permutation _ _ (Permutation_map snd (value_counts_Permutation L vals OK))).
  rewrite Counter_total. now rewrite filter_all.
Qed.

(** ** [sort_values] *)

Lemma filter_partition_Permutation {A : Type} (p : A -> bool) (l : list A) :
  Permutation (filter p l ++ filter (fun a => negb (p a)) l) l.
Proof.
  induction l as [|a l IH]; simpl; [constructor|].
  destruct (p a); simpl.
  - now constructor.
  - symmetry. apply Permutation_cons_app. now symmetry.
Qed.

Lemma positions_filter (p : cell -> bool) (keys : list cell) :
  map (fun i => nth i keys NaN)
      (filter (fun i => p (nth i keys NaN)) (seq 0 (List.length keys)))
  = filter p keys.
Proof.
  induction keys as [|a l IH] using rev_ind; [reflexivity|].
  rewrite length_app, seq_app, !filter_app, map_app. simpl. f_equal.
  - rewrite <- IH.
    rewrite (filter_ext_in (fun i => p (nth i (l ++ [a]) NaN)) (fun i => p (nth i l NaN))).
    + apply map_ext_in. intros i Hi. apply filter_In in Hi. destruct Hi as [Hi _].
      apply in_seq in Hi. apply app_nth1. lia.
    + intros i Hi. apply in_seq in Hi. f_equal. apply app_nth1. lia.
  - rewrite nth_middle. destruct (p a); simpl; rewrite ?nth_middle; reflexivity.
Qed.

Lemma length_strs (l : list cell) :
  forallb is_str l = true -> List.length (strs l) = List.length l.
Proof.
  induction l as [|[| s | z] l IH]; simpl; try discriminate; [reflexivity|].
  intro H. f_equal. now apply IH.
Qed.

Lemma length_ints (l : list cell) :
  forallb is_int l = true -> List.length (ints l) = List.length l.
Proof.
  induction l as [|[| s | z] l IH]; simpl; try discriminate; [reflexivity|].
  intro H. f_equal. now apply IH.
Qed.

Lemma map_Str_strs (l : list cell) :
  forallb is_str l = true -> map Str (strs l) = l.
Proof.
  induction l as [|[| s | z] l IH]; simpl; try discriminate; [reflexivity|].
  intro H. f_equal. now apply IH.
Qed.

Lemma strs_map_Str (l : list string) : strs (map Str l) = l.
Proof. induction l as [|s l IH]; simpl; [reflexivity | now f_equal]. Qed.

Lemma nargsort_Permutation (L : PyLib) (keys : list cell) (indexer : list nat) :
  LibOk L -> nargsort L keys = Ok indexer ->
  Permutation indexer (seq 0 (List.length keys)).
Proof.
  intros OK H. unfold nargsort in H.
  set (non_nan_idx := filter (fun i => notna (nth i keys NaN)) (seq 0 (List.length keys))) in *.
  set (nan_idx := filter (fun i => negb (notna (nth i keys NaN))) (seq 0 (List.length keys))) in *.
  assert (Len : List.length non_nan_idx = List.length (filter notna keys)).
  { rewrite <- (positions_filter notna keys). now rewrite length_map. }
  assert (P : forall order, Permutation order (seq 0 (List.length (filter notna keys))) ->
                            Permutation (take non_nan_idx order ++ nan_idx)
                                        (seq 0 (List.length keys))).
  { intros order Ho. rewrite <- Len in Ho.
    apply Permutation_trans with (non_nan_idx ++ nan_idx).
    - apply Permutation_app_tail. now apply take_Permutation.
    - apply filter_partition_Permutation. }
  destruct (forallb is_str (filter notna keys)) eqn:S; simpl in H.
  - inversion H. apply P. rewrite <- (length_strs _ S). apply (argsort_perm L OK).
  - destruct (forallb is_int (filter notna keys)) eqn:I; simpl in H; [|discriminate].
    inversion H. apply P. rewrite <- (length_ints _ I). apply (argsort_perm L OK).
Qed.

Lemma sort_values_Permutation (L : PyLib) (c : string) (df sorted : DataFrame) :
  LibOk L -> sort_values L c df = Ok sorted ->
  has_column c df = true
  /\ columns sorted = columns df
  /\ Permutation (rows sorted) (rows df).
Proof.
  intros OK H. unfold sort_values in H.
  destruct (has_column c df); [|discriminate].
  destruct (nargsort L (column c df)) as [indexer| |] eqn:N; simpl in H; try discriminate.
  inversion H. simpl. repeat split.
  apply take_Permutation. apply (nargsort_Permutation L _ _ OK) in N.
  unfold column in N. now rewrite length_map in N.
Qed.

Lemma take_positions (n : nat) (indexer : list nat) :
  Forall (fun i => i < n) indexer -> take (seq 0 n) indexer = indexer.
Proof.
  induction 1 as [|i ix Hi _ IH]; [reflexivity|].
  unfold take in *. simpl. rewrite IH.
  rewrite (nth_error_nth' _ 0) by (now rewrite length_seq).
  rewrite seq_nth by assumption. reflexivity.
Qed.

(** A column of text is put in ascending order. *)
Lemma sort_values_sorted (L : PyLib) (c : string) (df sorted : DataFrame) :
  LibOk L -> sort_values L c df = Ok sorted ->
  forallb is_str (column c df) = true ->
  exists keys,
    column c sorted = map Str keys
    /\ StronglySorted (fun a b => String.leb a b = true) keys.
Proof.
  intros OK H S. unfold sort_values in H.
  destruct (has_column c df); [|discriminate].
  unfold nargsort in H.
  assert (N : filter notna (column c df) = column c df).
  { apply filter_all. intros a Ha. rewrite forallb_forall in S.
    specialize (S a Ha). now destruct a. }
  rewrite N, S in H. simpl in H. inversion H as [E]. clear H.
  set (keys := column c df) in *.
  set (order := argsort L string String.ltb (strs keys)).
  assert (Ho : Permutation order (seq 0 (List.length keys))).
  { rewrite <- (length_strs _ S). apply (argsort_perm L OK). }
  exists (take (strs keys) order). split; [|apply (argsort_sorted L OK)].
  unfold column. simpl.
  rewrite filter_all, filter_none; cycle 1.
  - intros i Hi. apply in_seq in Hi. apply negb_false_iff.
    rewrite forallb_forall in S. specialize (S (nth i keys NaN)).
    destruct (nth i keys NaN) eqn:Ei; try reflexivity.
    assert (In NaN keys) by (rewrite <- Ei; apply nth_In; lia). now apply S in H.
  - intros i Hi. apply in_seq in Hi.
    rewrite forallb_forall in S. specialize (S (nth i keys NaN)).
    destruct (nth i keys NaN) eqn:Ei; try reflexivity.
    assert (In NaN keys) by (rewrite <- Ei; apply nth_In; lia). now apply S in H.
  - rewrite app_nil_r, take_positions.
    + rewrite <- take_map. fold (column c df). fold keys.
      rewrite <- take_map. now rewrite map_Str_strs.
    + apply (Permutation_Forall (Permutation_sym Ho)).
      apply Forall_forall. intros i Hi. apply in_seq in Hi. lia.
Qed.

(** ** The records that reach the counts and the sort *)

Lemma mapM_extract_text (L : PyLib) (urls : list cell) (domains : list string) :
  mapM (extract_main_domain L) urls = Ok domains ->
  forall c, In c urls -> is_str c = true.
Proof.
  revert domains. induction urls as [|u urls IH]; intros domains H c Hc; [contradiction|].
  simpl in H. destruct (extract_main_domain L u) eqn:E; try discriminate. simpl in H.
  destruct (mapM (extract_main_domain L) urls) eqn:M; try discriminate.
  destruct Hc as [<-|Hc].
  - destruct u; try discriminate. reflexivity.
  - exact (IH _ eq_refl c Hc).
Qed.

Lemma detect_main_domain_text (L : PyLib) (df : DataFrame) (d : string) :
  detect_main_domain L df = Ok d ->
  forall r, In r (rows df) -> is_str (get "Source" r) = true.
Proof.
  unfold detect_main_domain. intros H r Hr.
  destruct (has_column "Source" df); [|discriminate].
  destruct (mapM (extract_main_domain L) (column "Source" df)) eqn:M; try discriminate.
  apply (mapM_extract_text L _ _ M). unfold column. now apply in_map.
Qed.

Lemma first_of_each_In (key : row -> cell * cell) (seen : list (cell * cell))
      (l : list row) (r : row) :
  In r (first_of_each key seen l) -> In r l.
Proof.
  revert seen. induction l as [|a l IH]; intro seen; simpl; [auto|].
  destruct (existsb _ seen).
  - intro H. right. exact (IH _ H).
  - intros [H|H]; [now left | right; exact (IH _ H)].
Qed.

(** Text under a label that is still there stays text when columns are
    dropped. *)
Lemma text_drop (c : string) (names : list string) (df : DataFrame) :
  (forall r, In r (rows df) -> is_str (get c r) = true) ->
  has_column c (drop names df) = true ->
  forall r, In r (rows (drop names df)) -> is_str (get c r) = true.
Proof.
  intros T H r Hr. rewrite has_column_drop in H. apply andb_true_iff in H.
  destruct H as [_ H]. apply negb_true_iff in H.
  simpl in Hr. apply in_map_iff in Hr. destruct Hr as (r0 & <- & Hr0).
  rewrite (get_drop_row _ _ _ H). now apply T.
Qed.

Lemma rows_keep_content (df : DataFrame) (r : row) :
  In r (rows (keep_content df)) -> In r (rows df).
Proof.
  unfold keep_content. destruct (has_column "Link Position" df); [|auto].
  simpl. intro H. apply filter_In in H. tauto.
Qed.

Lemma rows_drop_empty_anchor (df : DataFrame) (r : row) :
  In r (rows (drop_empty_anchor df)) -> In r (rows df).
Proof.
  unfold drop_empty_anchor. destruct (has_column "Anchor" df); [|auto].
  simpl. intro H. apply filter_In in H. tauto.
Qed.

Lemma rows_drop_overused_anchor (L : PyLib) (df : DataFrame) (r : row) :
  In r (rows (drop_overused_anchor L df)) -> In r (rows df).
Proof.
  unfold drop_overused_anchor. destruct (has_column "Anchor" df); [|auto].
  simpl. intro H. apply filter_In in H. tauto.
Qed.

Lemma columns_drop_empty_anchor (df : DataFrame) :
  columns (drop_empty_anchor df) = columns df.
Proof. unfold drop_empty_anchor. now destruct (has_column "Anchor" df). Qed.

Lemma columns_drop_overused_anchor (L : PyLib) (df : DataFrame) :
  columns (drop_overused_anchor L df) = columns df.
Proof. unfold drop_overused_anchor. now destruct (has_column "Anchor" df). Qed.

Lemma text_prepared (df : DataFrame) :
  (forall r, In r (rows df) -> is_str (get "Source" r) = true) ->
  has_column "Source" (drop_final (keep_content (drop_range (drop_initial df)))) = true ->
  forall r, In r (rows (drop_final (keep_content (drop_range (drop_initial df))))) ->
            is_str (get "Source" r) = true.
Proof.
  intros T H.
  pose proof (has_column_drop_final _ _ H) as H3. rewrite has_column_keep_content in H3.
  pose proof (has_column_drop_range _ _ H3) as H1.
  assert (T1 : forall r, In r (rows (drop_initial df)) -> is_str (get "Source" r) = true).
  { now apply text_drop. }
  assert (T2 : forall r, In r (rows (drop_range (drop_initial df))) ->
                         is_str (get "Source" r) = true).
  { revert H3. unfold drop_range.
    destruct (has_column "Follow" (drop_initial df) && has_column "Link Path" (drop_initial df));
      [|auto].
    intro H3. now apply text_drop. }
  apply text_drop; [|exact H].
  intros r Hr. apply T2. now apply rows_keep_content.
Qed.

Lemma text_keep_status_200 (df : DataFrame) :
  (forall r, In r (rows df) -> is_str (get "Source" r) = true) ->
  has_column "Source" (keep_status_200 df) = true ->
  has_column "Source" df = true
  /\ forall r, In r (rows (keep_status_200 df)) -> is_str (get "Source" r) = true.
Proof.
  intro T. unfold keep_status_200. destruct (has_column "Status Code" df) eqn:S.
  - change (has_column "Status Code" (select _ df)) with (has_column "Status Code" df).
    rewrite S. intro H. split.
    + rewrite has_column_drop in H. apply andb_true_iff in H. tauto.
    + apply text_drop; [|exact H]. simpl. intros r Hr. apply filter_In in Hr.
      apply T. tauto.
  - rewrite S. auto.
Qed.

Lemma keep_main_domain_Ok (L : PyLib) (main_domain : string) (df kept : DataFrame) :
  keep_main_domain L main_domain df = Ok kept ->
  columns kept = columns df /\ forall r, In r (rows kept) -> In r (rows df).
Proof.
  unfold keep_main_domain. destruct (has_column "Destination" df); [|discriminate].
  destruct (str_accessor (column "Destination" df)); try discriminate. simpl.
  destruct (re_compile L main_domain); [|discriminate].
  intro H. inversion H. simpl. split; [reflexivity|].
  intros r Hr. apply filter_In in Hr. tauto.
Qed.

Lemma drop_duplicates_Ok (a b : string) (df kept : DataFrame) :
  drop_duplicates a b df = Ok kept ->
  has_column a df = true
  /\ columns kept = columns df
  /\ forall r, In r (rows kept) -> In r (rows df).
Proof.
  unfold drop_duplicates. destruct (has_column a df); [|discriminate].
  destruct (has_column b df); [|discriminate].
  intro H. inversion H. simpl. repeat split. apply first_of_each_In.
Qed.

Lemma drop_unwanted_extensions_Ok (df kept : DataFrame) :
  drop_unwanted_extensions df = Ok kept ->
  columns kept = columns df
  /\ forall r, In r (rows kept) -> In r (rows df) /\ is_str (get "Destination" r) = true.
Proof.
  unfold drop_unwanted_extensions. destruct (has_column "Destination" df); [|discriminate].
  destruct (str_accessor (column "Destination" df)); try discriminate. simpl.
  destruct (forallb is_str (column "Destination" df)); [|discriminate].
  intro H. inversion H. simpl. split; [reflexivity|].
  intros r Hr. apply filter_In in Hr. destruct Hr as [Hr Hd]. split; [exact Hr|].
  now destruct (get "Destination" r).
Qed.

(** In the frame of step 14 the [Source] column is there, and [Source] and
    [Destination] hold text in every record. *)
Lemma links_before_sort_text (L : PyLib) (df d14 : DataFrame) :
  links_before_sort L df = Ok d14 ->
  has_column "Source" d14 = true
  /\ forall r, In r (rows d14) ->
       is_str (get "Source" r) = true /\ is_str (get "Destination" r) = true.
Proof.
  unfold links_before_sort, links_after_status. intro H.
  destruct (detect_main_domain L df) as [main_domain| |] eqn:D; try discriminate.
  simpl in H.
  set (d6 := drop_final (keep_content (drop_range (drop_initial df)))) in *.
  destruct (keep_main_domain L main_domain d6) as [d7| |] eqn:K; try discriminate.
  simpl in H.
  destruct (drop_duplicates "Source" "Destination" (keep_status_200 d7))
    as [d10| |] eqn:U; try discriminate.
  simpl in H.
  destruct (drop_unwanted_extensions d10) as [d11| |] eqn:X; try discriminate.
  simpl in H. inversion H as [E]. clear H.
  destruct (keep_main_domain_Ok _ _ _ _ K) as [C7 R7].
  destruct (drop_duplicates_Ok _ _ _ _ U) as (H9 & C10 & R10).
  destruct (drop_unwanted_extensions_Ok _ _ X) as [C11 R11].
  assert (T7 : forall r, In r (rows d7) -> is_str (get "Source" r) = true).
  { intros r Hr. apply R7 in Hr. revert r Hr. apply text_prepared.
    - exact (detect_main_domain_text L df main_domain D).
    - assert (H7 : has_column "Source" d7 = true).
      { revert H9. unfold keep_status_200. destruct (has_column "Status Code" d7) eqn:S.
        - change (has_column "Status Code" (select _ d7)) with (has_column "Status Code" d7).
          rewrite S, has_column_drop. intro H. apply andb_true_iff in H. tauto.
        - rewrite S. auto. }
      fold d6. unfold has_column. rewrite <- C7. exact H7. }
  destruct (text_keep_status_200 d7 T7 H9) as [_ T9].
  split.
  - unfold drop_self_links, has_column. simpl.
    rewrite columns_drop_overused_anchor, columns_drop_empty_anchor, C11, C10. exact H9.
  - intros r Hr. unfold drop_self_links in Hr. simpl in Hr. apply filter_In in Hr.
    destruct Hr as [Hr _].
    apply rows_drop_overused_anchor, rows_drop_empty_anchor, R11 in Hr.
    destruct Hr as [Hr Hd]. split; [|exact Hd]. apply T9, R10, Hr.
Qed.

Lemma process_data_Ok (L : PyLib) (df cleaned counts : DataFrame) :
  process_data L df = Ok (cleaned, counts) ->
  exists d14,
    links_before_sort L df = Ok d14
    /\ counts = counts_frame (value_counts L (column "Destination" d14))
    /\ sort_values L "Source" (mkDF (filter (fun c => negb (mem c ["unique_urls"]))
                                            (columns (assign "unique_urls" (get "Destination") d14)))
                                    (map (drop_row ["unique_urls"]) (rows d14)))
       = Ok cleaned.
Proof.
  unfold process_data. intro H.
  destruct (links_before_sort L df) as [d14| |]; try discriminate. simpl in H.
  destruct (sort_values L "Source" _) as [sorted| |] eqn:S; try discriminate.
  simpl in H. inversion H. subst sorted counts. clear H.
  exists d14. split; [reflexivity|]. split.
  - do 2 f_equal. unfold column, assign. simpl. rewrite map_map.
    apply map_ext. intro r. apply get_set_cell_other. discriminate.
  - rewrite <- S. f_equal. unfold drop. f_equal. simpl. rewrite map_map.
    apply map_ext. intro r. symmetry. apply drop_row_set_cell.
Qed.

(** The two tables of a successful run, in terms of the frame of step 14. *)
Lemma process_data_tables (L : PyLib) (df cleaned counts : DataFrame) :
  LibOk L -> process_data L df = Ok (cleaned, counts) ->
  exists d14,
    links_before_sort L df = Ok d14
    /\ counts = counts_frame (value_counts L (column "Destination" d14))
    /\ Permutation (rows cleaned) (map (drop_row ["unique_urls"]) (rows d14))
    /\ Permutation (column "Destination" cleaned) (column "Destination" d14)
    /\ (forall v, In v (column "Destination" d14) -> notna v = true)
    /\ exists keys,
         column "Source" cleaned = map Str keys
         /\ StronglySorted (fun a b => String.leb a b = true) keys.
Proof.
  intros OK H. destruct (process_data_Ok L df cleaned counts H) as (d14 & H14 & Hc & S).
  destruct (links_before_sort_text L df d14 H14) as [_ T].
  destruct (sort_values_Permutation L _ _ _ OK S) as (_ & _ & P). simpl in P.
  exists d14. split; [exact H14|]. split; [exact Hc|]. split; [exact P|]. split; [|split].
  - unfold column. rewrite (Permutation_map (get "Destination") P), map_map.
    erewrite map_ext; [reflexivity|]. intro r. now apply get_drop_row.
  - intros v Hv. unfold column in Hv. apply in_map_iff in Hv.
    destruct Hv as (r & <- & Hr). destruct (T r Hr) as [_ Hd].
    now destruct (get "Destination" r).
  - apply (sort_values_sorted L _ _ _ OK S).
    unfold column. simpl. rewrite map_map. apply forallb_forall.
    intros c Hc'. apply in_map_iff in Hc'. destruct Hc' as (r & <- & Hr).
    rewrite get_drop_row by reflexivity. now apply T.
Qed.

(** C3: in a successful run the counts of the table of counts add up to the
    number of records of the cleaned table, and the [Destination] of every
    record of the cleaned table stands exactly once in the table of counts,
    with the number of records of the cleaned table that have it. *)
Theorem counts_agree_with_cleaned_table (L : PyLib) (df cleaned counts : DataFrame) :
  LibOk L ->
  process_data L df = Ok (cleaned, counts) ->
  total_count counts = Z.of_nat (List.length (rows cleaned))
  /\ forall r, In r (rows cleaned) ->
       count_of cell_eqb (get "Destination" r) (column "unique_urls" counts) = 1
       /\ In (count_row (get "Destination" r)
                        (occurrences "Destination" (get "Destination" r) cleaned))
             (rows counts).
Proof.
  intros OK H.
  destruct (process_data_tables L df cleaned counts OK H) as (d14 & _ & -> & P & PD & N & _).
  split.
  - rewrite total_count_counts_frame, (value_counts_total L _ OK N). f_equal.
    rewrite (Permutation_length P). unfold column. now rewrite !length_map.
  - intros r Hr.
    assert (Hd : In (get "Destination" r) (column "Destination" d14)).
    { apply (Permutation_in _ PD). unfold column. now apply in_map. }
    assert (Hv : In (get "Destination" r,
                     occurrences "Destination" (get "Destination" r) cleaned)
                    (value_counts L (column "Destination" d14))).
    { apply (value_counts_In L _ _ _ OK). split; [now apply N|]. split; [exact Hd|].
      unfold occurrences. now apply count_of_Permutation. }
    split.
    + rewrite column_unique_urls. apply count_of_NoDup.
      * now apply value_counts_NoDup.
      * apply in_map_iff. eexists. split; [|exact Hv]. reflexivity.
    + now apply In_count_row.
Qed.

Lemma counts_agree_with_cleaned_table_witness :
  total_count scenario_A_counts = Z.of_nat (List.length (rows scenario_A_cleaned))
  /\ forall r, In r (rows scenario_A_cleaned) ->
       count_of cell_eqb (get "Destination" r) (column "unique_urls" scenario_A_counts) = 1
       /\ In (count_row (get "Destination" r)
                        (occurrences "Destination" (get "Destination" r) scenario_A_cleaned))
             (rows scenario_A_counts).
Proof.
  apply (counts_agree_with_cleaned_table stable_lib scenario_A).
  - exact stable_lib_ok.
  - reflexivity.
Defined.

(** C2, as amended: in a successful run the table of counts has the columns
    [unique_urls] and [count] and one record for each distinct [Destination]
    of the frame that step 14 leaves (after the deduplication and the
    filters of steps 10 to 14), with the number of records of that frame
    that have it. *)
Theorem url_counts_are_of_step_14 (L : PyLib) (df d14 cleaned counts : DataFrame) :
  LibOk L ->
  links_before_sort L df = Ok d14 ->
  process_data L df = Ok (cleaned, counts) ->
  columns counts = ["unique_urls"; "count"]
  /\ NoDup (column "unique_urls" counts)
  /\ (forall r, In r (rows counts) -> exists d n, r = count_row d n)
  /\ counts_of d14 counts.
Proof.
  intros OK H14 H.
  destruct (process_data_tables L df cleaned counts OK H) as (d & H14' & -> & _ & _ & N & _).
  rewrite H14 in H14'. inversion H14'. subst d. clear H14'.
  split; [reflexivity|]. split; [|split].
  - rewrite column_unique_urls. now apply value_counts_NoDup.
  - intros r Hr. rewrite counts_frame_rows in Hr. apply in_map_iff in Hr.
    destruct Hr as ([k n] & <- & _). now exists k, n.
  - intros v n. rewrite In_count_row, (value_counts_In L _ _ _ OK). unfold occurrences.
    split; [tauto|]. intros [Hv ->]. repeat split; auto.
Qed.

Lemma url_counts_are_of_step_14_witness :
  columns scenario_A_counts = ["unique_urls"; "count"]
  /\ NoDup (column "unique_urls" scenario_A_counts)
  /\ (forall r, In r (rows scenario_A_counts) -> exists d n, r = count_row d n)
  /\ counts_of scenario_A_cleaned scenario_A_counts.
Proof.
  apply (url_counts_are_of_step_14 stable_lib scenario_A scenario_A_cleaned scenario_A_cleaned).
  - exact stable_lib_ok.
  - reflexivity.
  - reflexivity.
Defined.

(** C2, as stated, fails: the two records of [same_link_twice] both survive
    the status split, so the [Destination] occurs twice in the frame of
    step 8, and the table of counts gives it the count 1. *)
Lemma url_counts_not_of_rows_before_deduplication :
  exists d8 cleaned counts,
    links_after_status stable_lib same_link_twice = Ok d8
    /\ process_data stable_lib same_link_twice = Ok (cleaned, counts)
    /\ occurrences "Destination" (Str "http://a.com/x") d8 = 2
    /\ rows counts = [count_row (Str "http://a.com/x") 1]
    /\ ~ counts_of d8 counts.
Proof.
  exists same_link_twice, (links [link "http://a.com/p" "http://a.com/x" "x"]),
    (mkDF ["unique_urls"; "count"] [count_row (Str "http://a.com/x") 1]).
  repeat split.
  intro H. destruct (H (Str "http://a.com/x") 2) as [_ H2].
  destruct H2 as [H2|[]].
  - split; [now left | reflexivity].
  - discriminate.
Qed.

(** C6, as amended: in a successful run the cleaned table holds the records
    of the frame that step 14 leaves, each of them once, in ascending
    lexicographic order of [Source], which is text in all of them.  (The
    order among records of equal [Source] is left to the sort of the
    library.) *)
Theorem cleaned_table_is_sorted_by_Source (L : PyLib) (df d14 cleaned counts : DataFrame) :
  LibOk L ->
  links_before_sort L df = Ok d14 ->
  process_data L df = Ok (cleaned, counts) ->
  Permutation (rows cleaned) (map (drop_row ["unique_urls"]) (rows d14))
  /\ exists keys,
       column "Source" cleaned = map Str keys
       /\ StronglySorted (fun a b => String.leb a b = true) keys.
Proof.
  intros OK H14 H.
  destruct (process_data_tables L df cleaned counts OK H) as (d & H14' & _ & P & _ & _ & S).
  rewrite H14 in H14'. inversion H14'. subst d. now split.
Qed.

Lemma cleaned_table_is_sorted_by_Source_witness :
  Permutation (rows scenario_A_cleaned)
              (map (drop_row ["unique_urls"]) (rows scenario_A_cleaned))
  /\ exists keys,
       column "Source" scenario_A_cleaned = map Str keys
       /\ StronglySorted (fun a b => String.leb a b = true) keys.
Proof.
  apply (cleaned_table_is_sorted_by_Source
           stable_lib scenario_A scenario_A_cleaned scenario_A_cleaned scenario_A_counts).
  - exact stable_lib_ok.
  - reflexivity.
  - reflexivity.
Defined.

(** C6, as stated, fails: the eighteen records of [one_page] all reach
    step 14 and have the same [Source]; with the quicksort that
    [sort_values] uses by default the cleaned table has them in another
    order, the second record of step 14 coming sixteenth. *)
Lemma final_sort_is_not_stable :
  exists d14 cleaned counts,
    links_before_sort numpy_lib one_page = Ok d14
    /\ process_data numpy_lib one_page = Ok (cleaned, counts)
    /\ rows d14 = rows one_page
    /\ (forall r, In r (rows d14) -> get "Source" r = Str "http://a.com/p")
    /\ nth_error (rows d14) 1 = Some (link "http://a.com/p" "http://a.com/d02" "a02")
    /\ nth_error (rows cleaned) 1 = Some (link "http://a.com/p" "http://a.com/d16" "a16")
    /\ nth_error (rows cleaned) 15 = Some (link "http://a.com/p" "http://a.com/d02" "a02")
    /\ ~ keeps_order_of_ties (rows d14) (rows cleaned).
Proof.
  exists one_page,
    (links (take (rows one_page) [0; 15; 14; 13; 12; 11; 10; 9; 8; 7; 6; 5; 4; 3; 2; 1; 16; 17])),
    (counts_frame (value_counts numpy_lib (column "Destination" one_page))).
  split; [vm_compute; reflexivity|]. split; [vm_compute; reflexivity|].
  split; [reflexivity|]. split.
  - intros r Hr. simpl in Hr.
    repeat (destruct Hr as [<-|Hr]; [reflexivity|]). contradiction.
  - split; [reflexivity|]. split; [reflexivity|]. split; [reflexivity|].
    intro H. specialize (H (Str "http://a.com/p")). vm_compute in H. discriminate.
Qed.

(** ** The filter on the main domain *)

(** C1: the run on [other_host] succeeds with the main domain [a.com], and
    the cleaned table has the record whose [Destination] is
    [http://abcom.net/x], which does not contain [a.com] as a substring:
    the main domain is used as a pattern, in which the dot stands for any
    character, so step 7 does not keep exactly the records whose
    [Destination] contains the main domain. *)
Theorem main_domain_is_matched_as_a_pattern :
  detect_main_domain stable_lib other_host = Ok "a.com"
  /\ process_data stable_lib other_host
     = Ok (links [link "http://a.com/p" "http://abcom.net/x" "x"],
           mkDF ["unique_urls"; "count"] [count_row (Str "http://abcom.net/x") 1])
  /\ contains "a.com" "http://abcom.net/x" = false.
Proof. repeat split. Qed.

Lemma str_accessor_text (vals : list cell) :
  (forall v, In v vals -> is_int v = false) -> str_accessor vals = Ok tt.
Proof.
  intro H. unfold str_accessor.
  destruct (filter notna vals) as [|v present] eqn:E; [reflexivity|].
  assert (Hv : In v (filter notna vals)) by (rewrite E; now left).
  apply filter_In in Hv. destruct Hv as [Hv _].
  simpl. now rewrite (H v Hv).
Qed.

Lemma keep_main_domain_empty (L : PyLib) (df : DataFrame) :
  LibOk L ->
  has_column "Destination" df = true ->
  (forall r, In r (rows df) -> is_int (get "Destination" r) = false) ->
  exists kept,
    keep_main_domain L "" df = Ok kept
    /\ columns kept = columns df
    /\ rows kept = filter (fun r => notna (get "Destination" r)) (rows df).
Proof.
  intros OK H T. unfold keep_main_domain. rewrite H.
  rewrite str_accessor_text.
  - simpl. destruct (re_empty L OK) as (m & -> & Hm).
    eexists. split; [reflexivity|]. split; [reflexivity|]. simpl.
    apply filter_ext_in. intros r Hr. specialize (T r Hr).
    destruct (get "Destination" r); simpl in *; [reflexivity | apply Hm | discriminate].
  - intros v Hv. unfold column in Hv. apply in_map_iff in Hv.
    destruct Hv as (r & <- & Hr). now apply T.
Qed.

Lemma detect_empty_main_domain (L : PyLib) (df : DataFrame) (domains : list string) :
  has_column "Source" df = true ->
  mapM (extract_main_domain L) (column "Source" df) = Ok domains ->
  rows df <> [] ->
  (forall d, In d domains -> d <> "" ->
             count_of String.eqb d domains < count_of String.eqb "" domains) ->
  detect_main_domain L df = Ok "".
Proof.
  intros H1 H2 H3 Hmax.
  destruct (detect_main_domain_spec L df domains H1 H2 H3) as (d & Hd & Hin & Hge & _).
  destruct (string_dec d "") as [->|N]; [exact Hd|].
  specialize (Hmax d Hin N). specialize (Hge ""). lia.
Qed.

(** C10, as amended: when the empty network location is more frequent among
    the network locations of the [Source] cells than any other, the
    detected main domain is the empty string, and step 7 then keeps every
    record whose [Destination] is not missing and drops only those whose
    [Destination] is missing; this for a [Destination] column that, at
    step 7, holds text in at least one record and text wherever it is not
    missing (a column without any text is not a column of text for
    [.str]). *)
Theorem empty_main_domain_keeps_every_destination
        (L : PyLib) (df : DataFrame) (domains : list string) :
  LibOk L ->
  has_column "Source" df = true ->
  mapM (extract_main_domain L) (column "Source" df) = Ok domains ->
  rows df <> [] ->
  (forall d, In d domains -> d <> "" ->
             count_of String.eqb d domains < count_of String.eqb "" domains) ->
  has_column "Destination" (drop_final (keep_content (drop_range (drop_initial df)))) = true ->
  (exists r, In r (rows (drop_final (keep_content (drop_range (drop_initial df)))))
             /\ is_str (get "Destination" r) = true) ->
  (forall r, In r (rows (drop_final (keep_content (drop_range (drop_initial df))))) ->
             is_int (get "Destination" r) = false) ->
  detect_main_domain L df = Ok ""
  /\ exists kept,
       keep_main_domain L "" (drop_final (keep_content (drop_range (drop_initial df)))) = Ok kept
       /\ rows kept
          = filter (fun r => notna (get "Destination" r))
                   (rows (drop_final (keep_content (drop_range (drop_initial df))))).
Proof.
  intros OK H1 H2 H3 Hmax HD _ T. split.
  - exact (detect_empty_main_domain L df domains H1 H2 H3 Hmax).
  - destruct (keep_main_domain_empty L _ OK HD T) as (kept & K & _ & R). eauto.
Qed.

Lemma empty_main_domain_keeps_every_destination_witness :
  detect_main_domain stable_lib relative_only = Ok ""
  /\ exists kept,
       keep_main_domain stable_lib ""
         (drop_final (keep_content (drop_range (drop_initial relative_only)))) = Ok kept
       /\ rows kept
          = filter (fun r => notna (get "Destination" r))
                   (rows (drop_final (keep_content (drop_range (drop_initial relative_only))))).
Proof.
  apply (empty_main_domain_keeps_every_destination stable_lib relative_only [""; ""; ""]).
  - exact stable_lib_ok.
  - reflexivity.
  - reflexivity.
  - discriminate.
  - intros d Hd N. simpl in Hd. destruct Hd as [<-|[<-|[<-|[]]]]; now elim N.
  - reflexivity.
  - exists (link "/a" "http://a.com/x" "a"). split; [now left | reflexivity].
  - intros r Hr. simpl in Hr. destruct Hr as [<-|[<-|[<-|[]]]]; reflexivity.
Defined.

(** C10, as stated, fails: the most frequent [Source] value of
    [relative_sources] is [/x], whose network location is empty, and the
    detected main domain is [a.com], the location of three other pages. *)
Lemma most_frequent_source_without_location :
  most_common1 (Counter cell_eqb (column "Source" relative_sources)) = [(Str "/x", 2)]
  /\ extract_main_domain stable_lib (Str "/x") = Ok ""
  /\ detect_main_domain stable_lib relative_sources = Ok "a.com"
  /\ detect_main_domain stable_lib relative_sources <> Ok "".
Proof. repeat split. discriminate. Qed.

(** * Further properties of the pipeline *)

(** ** The steps of a successful run *)

Lemma take_In {A : Type} (l : list A) (indexer : list nat) (a : A) :
  In a (take l indexer) -> In a l.
Proof.
  unfold take. intro H. apply in_flat_map in H. destruct H as (i & _ & H).
  destruct (nth_error l i) eqn:E; [|contradiction].
  destruct H as [<-|[]]. exact (nth_error_In _ _ E).
Qed.

Lemma sort_values_rows (L : PyLib) (c : string) (df sorted : DataFrame) :
  sort_values L c df = Ok sorted ->
  columns sorted = columns df /\ forall r, In r (rows sorted) -> In r (rows df).
Proof.
  unfold sort_values. destruct (has_column c df); [|discriminate].
  destruct (nargsort L (column c df)); simpl; try discriminate.
  intro H. inversion H. simpl. split; [reflexivity|]. intro r. apply take_In.
Qed.

Lemma links_before_sort_Ok (L : PyLib) (df d14 : DataFrame) :
  links_before_sort L df = Ok d14 ->
  exists main_domain d7 d10 d11,
    detect_main_domain L df = Ok main_domain
    /\ keep_main_domain L main_domain
         (drop_final (keep_content (drop_range (drop_initial df)))) = Ok d7
    /\ drop_duplicates "Source" "Destination" (keep_status_200 d7) = Ok d10
    /\ drop_unwanted_extensions d10 = Ok d11
    /\ d14 = drop_self_links (drop_overused_anchor L (drop_empty_anchor d11)).
Proof.
  unfold links_before_sort, links_after_status. intro H.
  destruct (detect_main_domain L df) as [main_domain| |]; try discriminate. simpl in H.
  destruct (keep_main_domain L main_domain _) as [d7| |] eqn:K; try discriminate.
  simpl in H.
  destruct (drop_duplicates "Source" "Destination" (keep_status_200 d7))
    as [d10| |] eqn:U; try discriminate.
  simpl in H.
  destruct (drop_unwanted_extensions d10) as [d11| |] eqn:X; try discriminate.
  simpl in H. inversion H. exists main_domain, d7, d10, d11. auto.
Qed.

(** The cleaned table holds records of the frame of step 14, whatever the
    sort of the library does. *)
Lemma process_data_rows (L : PyLib) (df cleaned counts : DataFrame) :
  process_data L df = Ok (cleaned, counts) ->
  exists d14,
    links_before_sort L df = Ok d14
    /\ (forall c, has_column c cleaned
                  = has_column c d14 && negb (String.eqb c "unique_urls"))
    /\ forall r, In r (rows cleaned) ->
         exists r14, In r14 (rows d14) /\ r = drop_row ["unique_urls"] r14.
Proof.
  intro H. destruct (process_data_Ok L df cleaned counts H) as (d14 & H14 & _ & S).
  apply sort_values_rows in S. destruct S as [C R]. simpl in C, R.
  exists d14. split; [exact H14|]. split.
  - intro c. unfold has_column. rewrite C, mem_filter. simpl.
    rewrite orb_false_r.
    destruct (String.eqb c "unique_urls") eqn:E; simpl; [now rewrite !andb_false_r|].
    rewrite !andb_true_r.
    destruct (mem "unique_urls" (columns d14)); [reflexivity|].
    unfold mem. rewrite existsb_app. simpl. now rewrite E, !orb_false_r.
  - intros r Hr. apply R in Hr. apply in_map_iff in Hr.
    destruct Hr as (r14 & <- & Hr). eauto.
Qed.

Lemma drop_unwanted_extensions_rows (df kept : DataFrame) (r : row) :
  drop_unwanted_extensions df = Ok kept -> In r (rows kept) ->
  exists s, get "Destination" r = Str s
            /\ existsb (endswith (lower s)) unwanted_extensions = false.
Proof.
  unfold drop_unwanted_extensions. destruct (has_column "Destination" df); [|discriminate].
  destruct (str_accessor (column "Destination" df)); try discriminate. simpl.
  destruct (forallb is_str (column "Destination" df)); [|discriminate].
  intros H Hr. inversion H. subst kept. simpl in Hr. apply filter_In in Hr.
  destruct Hr as [_ Hr]. destruct (get "Destination" r) as [|s|z]; try discriminate.
  exists s. split; [reflexivity|]. now apply negb_true_iff.
Qed.

(** What steps 11, 12 and 14 leave in every record of the frame of
    step 14. *)
Lemma step_14_rows (L : PyLib) (df d14 : DataFrame) (r : row) :
  links_before_sort L df = Ok d14 -> In r (rows d14) ->
  py_eq (get "Source" r) (get "Destination" r) = false
  /\ (exists s, get "Destination" r = Str s
                /\ existsb (endswith (lower s)) unwanted_extensions = false)
  /\ (has_column "Anchor" d14 = true ->
      notna (get "Anchor" r) = true /\ py_eq (get "Anchor" r) (Str "") = false).
Proof.
  intros H Hr.
  destruct (links_before_sort_Ok L df d14 H) as (m & d7 & d10 & d11 & _ & _ & _ & X & ->).
  unfold drop_self_links in Hr. simpl in Hr. apply filter_In in Hr.
  destruct Hr as [Hr Hs]. apply negb_true_iff in Hs. split; [exact Hs|].
  apply rows_drop_overused_anchor in Hr. split.
  - apply (drop_unwanted_extensions_rows d10 d11 r X).
    now apply rows_drop_empty_anchor.
  - unfold has_column, drop_self_links. simpl.
    rewrite columns_drop_overused_anchor, columns_drop_empty_anchor. intro HA.
    unfold drop_empty_anchor in Hr. fold (has_column "Anchor" d11) in HA. rewrite HA in Hr.
    simpl in Hr. apply filter_In in Hr. destruct Hr as [_ Hr].
    apply andb_true_iff in Hr. destruct Hr as [Hn He]. apply negb_true_iff in He. auto.
Qed.

(** ** What no record of the cleaned table is *)

(** In a successful run no record of the cleaned table links a page to
    itself: its [Source] and its [Destination] differ. *)
Theorem no_self_link_in_cleaned_table (L : PyLib) (df cleaned counts : DataFrame) (r : row) :
  process_data L df = Ok (cleaned, counts) ->
  In r (rows cleaned) ->
  get "Source" r <> get "Destination" r.
Proof.
  intros H Hr. destruct (process_data_rows L df cleaned counts H) as (d14 & H14 & _ & R).
  destruct (R r Hr) as (r14 & Hr14 & ->).
  rewrite !get_drop_row by reflexivity.
  destruct (step_14_rows L df d14 r14 H14 Hr14) as (Hs & _ & _).
  destruct (proj2 (links_before_sort_text L df d14 H14) r14 Hr14) as [TS TD].
  destruct (get "Source" r14) as [|a|x]; try discriminate.
  destruct (get "Destination" r14) as [|b|y]; try discriminate.
  simpl in Hs. apply String.eqb_neq in Hs. congruence.
Qed.

Lemma no_self_link_in_cleaned_table_witness :
  get "Source" (link "http://a.com/p1" "http://a.com/x" "click")
  <> get "Destination" (link "http://a.com/p1" "http://a.com/x" "click").
Proof.
  apply (no_self_link_in_cleaned_table stable_lib scenario_A scenario_A_cleaned scenario_A_counts).
  - reflexivity.
  - now left.
Defined.

(** In a successful run the [Destination] of every record of the cleaned
    table is text that, in lower case, ends with none of the unwanted
    extensions. *)
Theorem no_unwanted_extension_in_cleaned_table
        (L : PyLib) (df cleaned counts : DataFrame) (r : row) :
  process_data L df = Ok (cleaned, counts) ->
  In r (rows cleaned) ->
  exists s, get "Destination" r = Str s
            /\ forall ext, In ext unwanted_extensions -> endswith (lower s) ext = false.
Proof.
  intros H Hr. destruct (process_data_rows L df cleaned counts H) as (d14 & H14 & _ & R).
  destruct (R r Hr) as (r14 & Hr14 & ->).
  rewrite get_drop_row by reflexivity.
  destruct (step_14_rows L df d14 r14 H14 Hr14) as (_ & (s & Hs & He) & _).
  exists s. split; [exact Hs|]. intros ext Hext.
  destruct (endswith (lower s) ext) eqn:E; [|reflexivity].
  assert (existsb (endswith (lower s)) unwanted_extensions = true)
    by (apply existsb_exists; eauto).
  congruence.
Qed.

Lemma no_unwanted_extension_in_cleaned_table_witness :
  exists s, get "Destination" (link "http://a.com/p1" "http://a.com/x" "click") = Str s
            /\ forall ext, In ext unwanted_extensions -> endswith (lower s) ext = false.
Proof.
  apply (no_unwanted_extension_in_cleaned_table
           stable_lib scenario_A scenario_A_cleaned scenario_A_counts).
  - reflexivity.
  - now left.
Defined.

(** In a successful run whose cleaned table has the [Anchor] column, no
    record of the cleaned table has a missing or an empty anchor. *)
Theorem anchors_of_cleaned_table_are_not_empty
        (L : PyLib) (df cleaned counts : DataFrame) (r : row) :
  process_data L df = Ok (cleaned, counts) ->
  has_column "Anchor" cleaned = true ->
  In r (rows cleaned) ->
  get "Anchor" r <> NaN /\ get "Anchor" r <> Str "".
Proof.
  intros H HA Hr.
  destruct (process_data_rows L df cleaned counts H) as (d14 & H14 & C & R).
  destruct (R r Hr) as (r14 & Hr14 & ->).
  rewrite get_drop_row by reflexivity.
  rewrite C in HA. apply andb_true_iff in HA. destruct HA as [HA _].
  destruct (step_14_rows L df d14 r14 H14 Hr14) as (_ & _ & A).
  destruct (A HA) as [Hn He].
  split; intro E; rewrite E in *; discriminate.
Qed.

Lemma anchors_of_cleaned_table_are_not_empty_witness :
  get "Anchor" (link "http://a.com/p2" "http://a.com/x" "click2") <> NaN
  /\ get "Anchor" (link "http://a.com/p2" "http://a.com/x" "click2") <> Str "".
Proof.
  apply (anchors_of_cleaned_table_are_not_empty
           stable_lib scenario_A scenario_A_cleaned scenario_A_counts).
  - reflexivity.
  - reflexivity.
  - right. now left.
Defined.

(** ** The deduplication *)

Lemma seen_pair (k : cell * cell) (seen : list (cell * cell)) :
  existsb (fun k' => cell_eqb (fst k') (fst k) && cell_eqb (snd k') (snd k)) seen = true
  <-> In k seen.
Proof.
  rewrite existsb_exists. split.
  - intros ([a b] & Hin & E). apply andb_true_iff in E. simpl in E.
    destruct E as [E1 E2]. apply cell_eqb_eq in E1, E2. destruct k. simpl in *. now subst.
  - intro H. exists k. split; [exact H|]. now rewrite !cell_eqb_refl.
Qed.

Lemma first_of_each_NoDup (key : row -> cell * cell) (seen : list (cell * cell))
      (l : list row) :
  NoDup (map key (first_of_each key seen l))
  /\ forall k, In k seen -> ~ In k (map key (first_of_each key seen l)).
Proof.
  revert seen. induction l as [|r l IH]; intro seen; simpl.
  - split; [constructor | auto].
  - destruct (existsb _ seen) eqn:E; [apply IH|].
    destruct (IH (key r :: seen)) as [ND NI]. simpl. split.
    + constructor; [|exact ND]. apply NI. now left.
    + intros k Hk [Hr|Hin].
      * subst k. apply seen_pair in Hk. congruence.
      * apply (NI k); [now right | exact Hin].
Qed.

Lemma distinct_keys_filter (key : row -> cell * cell) (keep : row -> bool)
      (records : list row) :
  NoDup (map key records) -> NoDup (map key (filter keep records)).
Proof.
  intro H. induction records as [|r records IH]; simpl; [constructor|].
  simpl in H. apply NoDup_cons_iff in H. destruct H as [Hn Hd].
  destruct (keep r); [|now apply IH].
  simpl. apply NoDup_cons_iff. split; [|now apply IH].
  intro Hin. apply Hn. apply in_map_iff in Hin. destruct Hin as (x & E & Hx).
  apply filter_In in Hx. apply in_map_iff. exists x. tauto.
Qed.

Lemma rows_drop_empty_anchor_filter (df : DataFrame) :
  exists p, rows (drop_empty_anchor df) = filter p (rows df).
Proof.
  unfold drop_empty_anchor. destruct (has_column "Anchor" df).
  - eexists. reflexivity.
  - exists (fun _ => true). simpl. symmetry. now apply filter_all.
Qed.

Lemma rows_drop_overused_anchor_filter (L : PyLib) (df : DataFrame) :
  exists p, rows (drop_overused_anchor L df) = filter p (rows df).
Proof.
  unfold drop_overused_anchor. destruct (has_column "Anchor" df).
  - eexists. reflexivity.
  - exists (fun _ => true). simpl. symmetry. now apply filter_all.
Qed.

Lemma drop_unwanted_extensions_filter (df kept : DataFrame) :
  drop_unwanted_extensions df = Ok kept -> exists p, rows kept = filter p (rows df).
Proof.
  unfold drop_unwanted_extensions. destruct (has_column "Destination" df); [|discriminate].
  destruct (str_accessor (column "Destination" df)); try discriminate. simpl.
  destruct (forallb is_str (column "Destination" df)); [|discriminate].
  intro H. inversion H. eexists. reflexivity.
Qed.

(** From step 10 on the pairs of [Source] and [Destination] are all
    different. *)
Lemma step_14_pairs (L : PyLib) (df d14 : DataFrame) :
  links_before_sort L df = Ok d14 -> NoDup (map source_destination (rows d14)).
Proof.
  intro H.
  destruct (links_before_sort_Ok L df d14 H) as (m & d7 & d10 & d11 & _ & _ & U & X & ->).
  unfold drop_self_links. simpl. apply distinct_keys_filter.
  destruct (rows_drop_overused_anchor_filter L (drop_empty_anchor d11)) as [p ->].
  apply distinct_keys_filter.
  destruct (rows_drop_empty_anchor_filter d11) as [q ->]. apply distinct_keys_filter.
  destruct (drop_unwanted_extensions_filter d10 d11 X) as [q' ->]. apply distinct_keys_filter.
  unfold drop_duplicates in U.
  destruct (has_column "Source" (keep_status_200 d7) && has_column "Destination" (keep_status_200 d7));
    [|discriminate].
  inversion U. simpl. apply (first_of_each_NoDup source_destination).
Qed.

(** In a successful run no two records of the cleaned table have the same
    [Source] and the same [Destination]. *)
Theorem no_duplicate_link_in_cleaned_table (L : PyLib) (df cleaned counts : DataFrame) :
  LibOk L ->
  process_data L df = Ok (cleaned, counts) ->
  NoDup (map source_destination (rows cleaned)).
Proof.
  intros OK H.
  destruct (process_data_tables L df cleaned counts OK H) as (d14 & H14 & _ & P & _).
  apply (Permutation_NoDup (l := map source_destination (rows d14))).
  - rewrite (Permutation_map source_destination P), map_map. symmetry.
    erewrite map_ext; [reflexivity|]. intro r. unfold source_destination.
    now rewrite !get_drop_row.
  - exact (step_14_pairs L df d14 H14).
Qed.

Lemma no_duplicate_link_in_cleaned_table_witness :
  NoDup (map source_destination (rows scenario_A_cleaned)).
Proof.
  apply (no_duplicate_link_in_cleaned_table stable_lib scenario_A scenario_A_cleaned scenario_A_counts).
  - exact stable_lib_ok.
  - reflexivity.
Defined.

(** ** The frequency of anchors *)

Lemma count_of_map_filter_le (g : row -> cell) (p : row -> bool) (a : cell) (l : list row) :
  count_of cell_eqb a (map g (filter p l)) <= count_of cell_eqb a (map g l).
Proof.
  unfold count_of. induction l as [|r l IH]; simpl; [lia|].
  destruct (p r); simpl; destruct (cell_eqb a (g r)); simpl; lia.
Qed.

(** In a successful run whose cleaned table has the [Anchor] column, the
    anchor of a record of the cleaned table occurs at most 5 times in the
    cleaned table. *)
Theorem anchors_of_cleaned_table_are_not_overused
        (L : PyLib) (df cleaned counts : DataFrame) (r : row) :
  LibOk L ->
  process_data L df = Ok (cleaned, counts) ->
  has_column "Anchor" cleaned = true ->
  In r (rows cleaned) ->
  occurrences "Anchor" (get "Anchor" r) cleaned <= 5.
Proof.
  intros OK H HA Hr.
  destruct (process_data_tables L df cleaned counts OK H) as (d14 & H14 & _ & P & _).
  destruct (process_data_rows L df cleaned counts H) as (d14' & H14' & C & _).
  rewrite H14 in H14'. inversion H14'. subst d14'. clear H14'.
  rewrite C in HA. apply andb_true_iff in HA. destruct HA as [HA _].
  apply (Permutation_in _ P) in Hr. apply in_map_iff in Hr. destruct Hr as (r14 & <- & Hr14).
  rewrite get_drop_row by reflexivity.
  assert (E : occurrences "Anchor" (get "Anchor" r14) cleaned
              = occurrences "Anchor" (get "Anchor" r14) d14).
  { unfold occurrences, column. apply count_of_Permutation.
    rewrite (Permutation_map (get "Anchor") P), map_map.
    erewrite map_ext; [reflexivity|]. intro x. now apply get_drop_row. }
  rewrite E. clear E.
  destruct (links_before_sort_Ok L df d14 H14) as (m & d7 & d10 & d11 & _ & _ & _ & _ & ->).
  unfold has_column, drop_self_links in HA. simpl in HA.
  rewrite columns_drop_overused_anchor in HA. fold (has_column "Anchor" (drop_empty_anchor d11)) in HA.
  assert (HA11 : has_column "Anchor" d11 = true).
  { unfold has_column in *. now rewrite columns_drop_empty_anchor in HA. }
  unfold drop_self_links in Hr14. simpl in Hr14. apply filter_In in Hr14.
  destruct Hr14 as [Hr13 _].
  pose proof Hr13 as Hr12. apply rows_drop_overused_anchor in Hr12.
  rewrite (drop_overused_anchor_rows L _ OK HA) in Hr13. apply filter_In in Hr13.
  destruct Hr13 as [_ Hle].
  rewrite (drop_empty_anchor_notna d11 r14 HA11 Hr12) in Hle. simpl in Hle.
  apply negb_true_iff, Nat.ltb_ge in Hle.
  unfold occurrences, column, drop_self_links in *. simpl.
  etransitivity; [apply count_of_map_filter_le|].
  rewrite (drop_overused_anchor_rows L _ OK HA).
  etransitivity; [apply count_of_map_filter_le|]. exact Hle.
Qed.

Lemma anchors_of_cleaned_table_are_not_overused_witness :
  occurrences "Anchor" (get "Anchor" (link "http://a.com/p1" "http://a.com/x" "click"))
              scenario_A_cleaned <= 5.
Proof.
  apply (anchors_of_cleaned_table_are_not_overused
           stable_lib scenario_A scenario_A_cleaned scenario_A_counts).
  - exact stable_lib_ok.
  - reflexivity.
  - reflexivity.
  - now left.
Defined.

(** ** The columns of the cleaned table *)

Lemma has_column_existing_drop (c : string) (names : list string) (df : DataFrame) :
  has_column c (drop (existing names df) df) = true ->
  has_column c df = true /\ mem c names = false.
Proof.
  rewrite has_column_drop. unfold existing. rewrite mem_filter. intro H.
  apply andb_true_iff in H. destruct H as [H N]. split; [exact H|].
  rewrite H, andb_true_r in N. now apply negb_true_iff.
Qed.

Lemma has_column_keep_status_200 (c : string) (df : DataFrame) :
  has_column c (keep_status_200 df) = true ->
  has_column c df = true /\ c <> "Status Code".
Proof.
  unfold keep_status_200. destruct (has_column "Status Code" df) eqn:S.
  - change (has_column "Status Code" (select _ df)) with (has_column "Status Code" df).
    rewrite S, has_column_drop. intro H. apply andb_true_iff in H. destruct H as [H N].
    split; [exact H|]. intros ->. discriminate.
  - rewrite S. intro H. split; [exact H|]. intros ->. congruence.
Qed.

Lemma columns_step_14 (L : PyLib) (df d14 : DataFrame) :
  links_before_sort L df = Ok d14 ->
  exists d7,
    columns d7 = columns (drop_final (keep_content (drop_range (drop_initial df))))
    /\ columns d14 = columns (keep_status_200 d7).
Proof.
  intro H.
  destruct (links_before_sort_Ok L df d14 H) as (m & d7 & d10 & d11 & _ & K & U & X & ->).
  exists d7. split; [exact (proj1 (keep_main_domain_Ok _ _ _ _ K))|].
  unfold drop_self_links. simpl.
  rewrite columns_drop_overused_anchor, columns_drop_empty_anchor.
  rewrite (proj1 (drop_unwanted_extensions_Ok _ _ X)).
  exact (proj1 (proj2 (drop_duplicates_Ok _ _ _ _ U))).
Qed.

(** In a successful run every column of the cleaned table is a column of
    the input, and none of [Size (Bytes)], [Alt Text], [Status], [Type],
    [Link Origin], [Link Position], [Status Code] and [unique_urls] is a
    column of the cleaned table. *)
Theorem columns_of_cleaned_table (L : PyLib) (df cleaned counts : DataFrame) (c : string) :
  process_data L df = Ok (cleaned, counts) ->
  has_column c cleaned = true ->
  has_column c df = true /\ ~ In c removed_labels.
Proof.
  intros H Hc.
  destruct (process_data_rows L df cleaned counts H) as (d14 & H14 & C & _).
  rewrite C in Hc. apply andb_true_iff in Hc. destruct Hc as [Hc Hu].
  apply negb_true_iff, String.eqb_neq in Hu.
  destruct (columns_step_14 L df d14 H14) as (d7 & C7 & C14).
  unfold has_column in Hc. rewrite C14 in Hc.
  apply has_column_keep_status_200 in Hc. destruct Hc as [Hc Hs].
  unfold has_column in Hc. rewrite C7 in Hc.
  fold (has_column c (drop_final (keep_content (drop_range (drop_initial df))))) in Hc.
  pose proof (has_column_prepared c df Hc) as Hdf.
  unfold drop_final in Hc. apply has_column_existing_drop in Hc. destruct Hc as [Hc Hf].
  rewrite has_column_keep_content in Hc. apply has_column_drop_range in Hc.
  unfold drop_initial in Hc. apply has_column_existing_drop in Hc. destruct Hc as [_ Hi].
  split; [exact Hdf|]. unfold removed_labels. rewrite !in_app_iff.
  apply mem_false in Hi, Hf. intros [H1|[H2|H3]]; [exact (Hi H1) | exact (Hf H2) |].
  destruct H3 as [E|[E|[]]]; symmetry in E; auto.
Qed.

Lemma columns_of_cleaned_table_witness :
  has_column "Anchor" scenario_A = true /\ ~ In "Anchor" removed_labels.
Proof.
  apply (columns_of_cleaned_table stable_lib scenario_A scenario_A_cleaned scenario_A_counts);
    reflexivity.
Defined.

(** ** Where the records of the cleaned table come from *)

Lemma mem_app (c : string) (l l' : list string) : mem c (l ++ l') = mem c l || mem c l'.
Proof. unfold mem. apply existsb_app. Qed.

Lemma drop_row_nil (r : row) : drop_row [] r = r.
Proof. unfold drop_row. now apply filter_all. Qed.

Lemma drop_row_app (n1 n2 : list string) (r : row) :
  drop_row n2 (drop_row n1 r) = drop_row (n1 ++ n2) r.
Proof.
  unfold drop_row. induction r as [|[k v] r IH]; simpl; [reflexivity|].
  rewrite mem_app. destruct (mem k n1); simpl; [exact IH|].
  destruct (mem k n2); simpl; [exact IH | now f_equal].
Qed.

Lemma filter_filter_labels (n1 n2 : list string) (l : list string) :
  filter (fun c => negb (mem c n2)) (filter (fun c => negb (mem c n1)) l)
  = filter (fun c => negb (mem c (n1 ++ n2))) l.
Proof.
  induction l as [|c l IH]; simpl; [reflexivity|].
  rewrite mem_app. destruct (mem c n1); simpl; [exact IH|].
  destruct (mem c n2); simpl; [exact IH | now f_equal].
Qed.

Lemma restriction_drop (names : list string) (df : DataFrame) :
  restriction names (fun _ => True) df (drop names df).
Proof.
  split; [reflexivity|]. simpl. intros r' H. apply in_map_iff in H.
  destruct H as (r & <- & Hr). eauto.
Qed.

Lemma restriction_part (P : row -> Prop) (df df' : DataFrame) :
  columns df' = columns df ->
  (forall r, In r (rows df') -> In r (rows df) /\ P r) ->
  restriction [] P df df'.
Proof.
  intros C R. split.
  - rewrite C. symmetry. now apply filter_all.
  - intros r Hr. destruct (R r Hr) as [Hin HP]. exists r. now rewrite drop_row_nil.
Qed.

Lemma restriction_trans (n1 n2 : list string) (P Q : row -> Prop) (a b c : DataFrame) :
  restriction n1 P a b -> restriction n2 Q b c ->
  restriction (n1 ++ n2) (fun r => P r /\ Q (drop_row n1 r)) a c.
Proof.
  intros [C1 R1] [C2 R2]. split.
  - now rewrite C2, C1, filter_filter_labels.
  - intros r'' H. destruct (R2 r'' H) as (r' & H' & HQ & ->).
    destruct (R1 r' H') as (r & Hr & HP & ->).
    exists r. rewrite drop_row_app. auto.
Qed.

Lemma restriction_weaken (names : list string) (P Q : row -> Prop) (a b : DataFrame) :
  (forall r, In r (rows a) -> P r -> Q r) -> restriction names P a b -> restriction names Q a b.
Proof.
  intros W [C R]. split; [exact C|]. intros r' H.
  destruct (R r' H) as (r & Hr & HP & E). eauto.
Qed.

(** A column that is still there is not among the removed ones, and its
    cells are those of the original records. *)
Lemma restriction_column (names : list string) (P : row -> Prop) (a b : DataFrame) (c : string) :
  restriction names P a b -> has_column c b = true ->
  has_column c a = true /\ forall r, get c (drop_row names r) = get c r.
Proof.
  intros [C _] H. unfold has_column in H. rewrite C, mem_filter in H.
  apply andb_true_iff in H. destruct H as [H N]. apply negb_true_iff in N.
  split; [exact H|]. intro r. now apply get_drop_row.
Qed.

Lemma py_eq_Str (v : cell) (s : string) : py_eq v (Str s) = true -> v = Str s.
Proof.
  destruct v as [|t|z]; simpl; try discriminate. intro H. apply String.eqb_eq in H. now subst.
Qed.

Lemma py_eq_Int (v : cell) (z : Z) : py_eq v (Int z) = true -> v = Int z.
Proof.
  destruct v as [|t|x]; simpl; try discriminate. intro H. apply Z.eqb_eq in H. now subst.
Qed.

(** Steps 3 to 5. *)
Lemma restriction_content (df : DataFrame) :
  exists names,
    restriction names
      (fun r => has_column "Link Position" (drop_range (drop_initial df)) = true ->
                get "Link Position" r = Str "Content")
      df (keep_content (drop_range (drop_initial df))).
Proof.
  assert (R4 : exists names, restriction names (fun _ => True) df (drop_range (drop_initial df))).
  { unfold drop_range.
    destruct (has_column "Follow" (drop_initial df) && has_column "Link Path" (drop_initial df)).
    - eexists. eapply restriction_weaken; [|eapply restriction_trans; apply restriction_drop].
      auto.
    - eexists. apply restriction_drop. }
  destruct R4 as [names R4]. exists names.
  set (d4 := drop_range (drop_initial df)) in *.
  destruct R4 as [C R]. split.
  - now rewrite columns_keep_content.
  - intros r' H. pose proof (rows_keep_content d4 r' H) as H4.
    destruct (R r' H4) as (r & Hr & _ & ->). exists r. split; [exact Hr|]. split; [|reflexivity].
    intro HL. unfold keep_content in H. rewrite HL in H. simpl in H.
    apply filter_In in H. destruct H as [_ H]. apply py_eq_Str in H.
    destruct (restriction_column names (fun _ => True) df d4 "Link Position"
                (conj C R) HL) as [_ G].
    now rewrite G in H.
Qed.

(** Steps 8 and 9. *)
Lemma restriction_status (df : DataFrame) :
  exists names,
    restriction names
      (fun r => has_column "Status Code" df = true -> get "Status Code" r = Int 200)
      df (keep_status_200 df).
Proof.
  unfold keep_status_200. destruct (has_column "Status Code" df) eqn:S.
  - change (has_column "Status Code" (select _ df)) with (has_column "Status Code" df).
    rewrite S. exists ([] ++ ["Status Code"]).
    eapply restriction_weaken;
      [|eapply restriction_trans;
        [apply (restriction_part (fun r => get "Status Code" r = Int 200) df
                  (select (fun r => py_eq (get "Status Code" r) (Int 200)) df))
        |apply restriction_drop]].
    + intros r _ [H _] _. exact H.
    + reflexivity.
    + simpl. intros r Hr. apply filter_In in Hr. destruct Hr as [Hr E].
      split; [exact Hr | now apply py_eq_Int].
  - rewrite S. exists []. apply restriction_part; [reflexivity|].
    intros r Hr. split; [exact Hr | discriminate].
Qed.

Lemma has_column_status_prepared (df : DataFrame) :
  has_column "Status Code" (drop_final (keep_content df)) = has_column "Status Code" df.
Proof.
  unfold drop_final. rewrite has_column_drop. unfold existing. rewrite mem_filter.
  rewrite has_column_keep_content. simpl. apply andb_true_r.
Qed.

Lemma restriction_cleaned (L : PyLib) (df d14 cleaned counts : DataFrame) :
  process_data L df = Ok (cleaned, counts) ->
  links_before_sort L df = Ok d14 ->
  restriction ["unique_urls"] (fun _ => True) d14 cleaned.
Proof.
  intros H H14. destruct (process_data_Ok L df cleaned counts H) as (d & H14' & _ & S).
  rewrite H14 in H14'. inversion H14'. subst d. clear H14'.
  apply sort_values_rows in S. destruct S as [C R]. simpl in C, R. split.
  - rewrite C. destruct (mem "unique_urls" (columns d14)); [reflexivity|].
    rewrite filter_app. simpl. apply app_nil_r.
  - intros r Hr. apply R in Hr. apply in_map_iff in Hr.
    destruct Hr as (r14 & <- & Hr). eauto.
Qed.

(** The cleaned table is a part of the input: some columns are removed,
    and the records are records of the input that pass the filter on
    [Link Position] and the filter on [Status Code], where these columns
    reach their steps. *)
Lemma cleaned_rows_from_input (L : PyLib) (df cleaned counts : DataFrame) :
  process_data L df = Ok (cleaned, counts) ->
  exists names,
    restriction names
      (fun r =>
         (has_column "Link Position" (drop_range (drop_initial df)) = true ->
          get "Link Position" r = Str "Content")
         /\ (has_column "Status Code" (drop_range (drop_initial df)) = true ->
             get "Status Code" r = Int 200))
      df cleaned.
Proof.
  intro H. destruct (process_data_rows L df cleaned counts H) as (d14 & H14 & _ & _).
  pose proof (restriction_cleaned L df d14 cleaned counts H H14) as R15.
  destruct (links_before_sort_Ok L df d14 H14) as (m & d7 & d10 & d11 & _ & K & U & X & E).
  destruct (restriction_content df) as [n5 R5].
  set (d4 := drop_range (drop_initial df)) in *.
  set (d5 := keep_content d4) in *.
  pose proof (restriction_drop (existing columns_to_drop_final d5) d5) as R6.
  fold (drop_final d5) in R6.
  destruct (keep_main_domain_Ok _ _ _ _ K) as [C7 I7].
  assert (R7 : restriction [] (fun _ => True) (drop_final d5) d7).
  { apply restriction_part; [exact C7 | auto]. }
  pose proof (restriction_trans _ _ _ _ _ _ _ (restriction_trans _ _ _ _ _ _ _ R5 R6) R7) as RA.
  destruct (restriction_status d7) as [n9 R9].
  destruct (drop_duplicates_Ok _ _ _ _ U) as (_ & C10 & I10).
  destruct (drop_unwanted_extensions_Ok _ _ X) as [C11 I11].
  assert (R14 : restriction [] (fun _ => True) (keep_status_200 d7) d14).
  { apply restriction_part.
    - rewrite E. unfold drop_self_links. simpl.
      now rewrite columns_drop_overused_anchor, columns_drop_empty_anchor, C11, C10.
    - intros r Hr. split; [|exact I]. apply I10. rewrite E in Hr.
      unfold drop_self_links in Hr. simpl in Hr. apply filter_In in Hr. destruct Hr as [Hr _].
      apply rows_drop_overused_anchor, rows_drop_empty_anchor, I11 in Hr. tauto. }
  pose proof (restriction_trans _ _ _ _ _ _ _
                (restriction_trans _ _ _ _ _ _ _
                   (restriction_trans _ _ _ _ _ _ _ RA R9) R14) R15) as RT.
  eexists. eapply restriction_weaken; [|exact RT].
  intros r Hr [[[[[HC _] _] HS] _] _]. split; [exact HC|].
  intro H4. 
  assert (H7 : has_column "Status Code" d7 = true).
  { unfold has_column. rewrite C7. fold (has_column "Status Code" (drop_final d5)).
    unfold d5. now rewrite has_column_status_prepared. }
  specialize (HS H7).
  destruct (restriction_column _ _ _ _ "Status Code" RA H7) as [_ G].
  now rewrite G in HS.
Qed.

(** In a successful run the cleaned table is a part of the input: its
    columns are columns of the input in their order, some being removed,
    and each of its records is a record of the input without the cells of
    the removed columns. *)
Theorem cleaned_table_is_part_of_the_input (L : PyLib) (df cleaned counts : DataFrame) :
  process_data L df = Ok (cleaned, counts) ->
  exists names,
    columns cleaned = filter (fun c => negb (mem c names)) (columns df)
    /\ forall r, In r (rows cleaned) ->
         exists r0, In r0 (rows df) /\ r = drop_row names r0.
Proof.
  intro H. destruct (cleaned_rows_from_input L df cleaned counts H) as (names & C & R).
  exists names. split; [exact C|]. intros r Hr.
  destruct (R r Hr) as (r0 & H0 & _ & E). eauto.
Qed.

Lemma cleaned_table_is_part_of_the_input_witness :
  exists names,
    columns scenario_A_cleaned = filter (fun c => negb (mem c names)) (columns scenario_A)
    /\ forall r, In r (rows scenario_A_cleaned) ->
         exists r0, In r0 (rows scenario_A) /\ r = drop_row names r0.
Proof.
  apply (cleaned_table_is_part_of_the_input stable_lib scenario_A scenario_A_cleaned scenario_A_counts).
  reflexivity.
Defined.

(** In a successful run in which the [Link Position] column reaches step 5,
    every record of the cleaned table is, in the columns of the cleaned
    table, a record of the input whose [Link Position] is [Content]. *)
Theorem cleaned_table_has_content_links_only
        (L : PyLib) (df cleaned counts : DataFrame) (r : row) :
  process_data L df = Ok (cleaned, counts) ->
  has_column "Link Position" (drop_range (drop_initial df)) = true ->
  In r (rows cleaned) ->
  exists r0,
    In r0 (rows df)
    /\ get "Link Position" r0 = Str "Content"
    /\ forall c, has_column c cleaned = true -> get c r = get c r0.
Proof.
  intros H HL Hr. destruct (cleaned_rows_from_input L df cleaned counts H) as (names & R).
  destruct (proj2 R r Hr) as (r0 & H0 & [HC _] & ->).
  exists r0. split; [exact H0|]. split; [exact (HC HL)|].
  intros c Hc. exact (proj2 (restriction_column _ _ _ _ c R Hc) r0).
Qed.

Lemma cleaned_table_has_content_links_only_witness :
  exists r0,
    In r0 (rows scenario_A)
    /\ get "Link Position" r0 = Str "Content"
    /\ forall c, has_column c scenario_A_cleaned = true ->
                 get c (link "http://a.com/p1" "http://a.com/x" "click") = get c r0.
Proof.
  apply (cleaned_table_has_content_links_only
           stable_lib scenario_A scenario_A_cleaned scenario_A_counts).
  - reflexivity.
  - reflexivity.
  - now left.
Defined.

(** In a successful run in which the [Status Code] column reaches step 8,
    every record of the cleaned table is, in the columns of the cleaned
    table, a record of the input whose [Status Code] is the number 200. *)
Theorem cleaned_table_has_status_200_only
        (L : PyLib) (df cleaned counts : DataFrame) (r : row) :
  process_data L df = Ok (cleaned, counts) ->
  has_column "Status Code" (drop_range (drop_initial df)) = true ->
  In r (rows cleaned) ->
  exists r0,
    In r0 (rows df)
    /\ get "Status Code" r0 = Int 200
    /\ forall c, has_column c cleaned = true -> get c r = get c r0.
Proof.
  intros H HS Hr. destruct (cleaned_rows_from_input L df cleaned counts H) as (names & R).
  destruct (proj2 R r Hr) as (r0 & H0 & [_ HC] & ->).
  exists r0. split; [exact H0|]. split; [exact (HC HS)|].
  intros c Hc. exact (proj2 (restriction_column _ _ _ _ c R Hc) r0).
Qed.

Lemma cleaned_table_has_status_200_only_witness :
  exists r0,
    In r0 (rows scenario_A)
    /\ get "Status Code" r0 = Int 200
    /\ forall c, has_column c scenario_A_cleaned = true ->
                 get c (link "http://a.com/p2" "http://a.com/x" "click2") = get c r0.
Proof.
  apply (cleaned_table_has_status_200_only
           stable_lib scenario_A scenario_A_cleaned scenario_A_counts).
  - reflexivity.
  - reflexivity.
  - right. now left.
Defined.

(** ** How a run ends without a result *)

Lemma extract_main_domain_not_Failed (L : PyLib) (url : cell) (e : error) :
  extract_main_domain L url <> Failed e.
Proof.
  destruct url as [|s|z]; simpl; try discriminate. unfold urlsplit_netloc.
  repeat match goal with |- context [if ?b then _ else _] => destruct b end; discriminate.
Qed.

Lemma mapM_extract_not_Failed (L : PyLib) (urls : list cell) (e : error) :
  mapM (extract_main_domain L) urls <> Failed e.
Proof.
  induction urls as [|u urls IH]; simpl; [discriminate|].
  destruct (extract_main_domain L u) eqn:E; simpl.
  - destruct (mapM (extract_main_domain L) urls); simpl; try discriminate.
    intro H. inversion H. subst. now apply IH.
  - now apply extract_main_domain_not_Failed in E.
  - discriminate.
Qed.

Lemma Counter_nil (l : list string) : Counter String.eqb l = [] -> l = [].
Proof.
  rewrite (Counter_spec String.eqb String.eqb_eq). destruct l; [reflexivity | discriminate].
Qed.

Lemma detect_main_domain_Failed (L : PyLib) (df : DataFrame) (e : error) :
  detect_main_domain L df = Failed e ->
  (e = MissingColumn "Source" /\ has_column "Source" df = false)
  \/ (e = EmptyDomainSet /\ has_column "Source" df = true /\ rows df = []).
Proof.
  unfold detect_main_domain. destruct (has_column "Source" df) eqn:S.
  - destruct (mapM (extract_main_domain L) (column "Source" df)) as [domains| |] eqn:M; simpl.
    + destruct (Counter String.eqb domains) as [|kc counts] eqn:C.
      * intro H. inversion H. right. repeat split.
        apply Counter_nil in C. subst domains. apply mapM_length in M.
        unfold column in M. rewrite length_map in M. now destruct (rows df).
      * simpl. destruct (max_by_count kc counts). discriminate.
    + intro H. now apply mapM_extract_not_Failed in M.
    + discriminate.
  - intro H. inversion H. now left.
Qed.

Lemma detect_main_domain_Ok (L : PyLib) (df : DataFrame) (d : string) :
  detect_main_domain L df = Ok d -> has_column "Source" df = true /\ rows df <> [].
Proof.
  unfold detect_main_domain. destruct (has_column "Source" df); [|discriminate].
  intro H. split; [reflexivity|]. intro E. unfold column in H. rewrite E in H. discriminate.
Qed.

Lemma has_column_destination_prepared (df : DataFrame) :
  has_column "Destination" (drop_final (keep_content df)) = has_column "Destination" df.
Proof.
  unfold drop_final. rewrite has_column_drop. unfold existing. rewrite mem_filter.
  rewrite has_column_keep_content. simpl. apply andb_true_r.
Qed.

Lemma str_accessor_not_Failed (vals : list cell) (e : error) :
  str_accessor vals <> Failed e.
Proof.
  unfold str_accessor. destruct (filter notna vals) as [|c l]; [discriminate|].
  destruct (forallb is_int (c :: l)); discriminate.
Qed.

Lemma keep_main_domain_Failed (L : PyLib) (m : string) (df : DataFrame) (e : error) :
  keep_main_domain L m df = Failed e ->
  e = MissingColumn "Destination" /\ has_column "Destination" df = false.
Proof.
  unfold keep_main_domain. destruct (has_column "Destination" df).
  - destruct (str_accessor (column "Destination" df)) eqn:SA; simpl.
    + destruct (re_compile L m); discriminate.
    + now apply str_accessor_not_Failed in SA.
    + discriminate.
  - intro H. inversion H. auto.
Qed.

(** The check of step 11 finds the column whenever step 10 has passed. *)
Lemma drop_unwanted_extensions_not_Failed (df kept : DataFrame) (e : error) :
  drop_duplicates "Source" "Destination" df = Ok kept ->
  drop_unwanted_extensions kept <> Failed e.
Proof.
  unfold drop_duplicates. destruct (has_column "Source" df); [|discriminate].
  destruct (has_column "Destination" df) eqn:D; [|discriminate].
  intro H. inversion H. unfold drop_unwanted_extensions, has_column. simpl.
  fold (has_column "Destination" df). rewrite D.
  destruct (str_accessor _) eqn:SA; simpl; try discriminate.
  - destruct (forallb is_str _); discriminate.
  - now apply str_accessor_not_Failed in SA.
Qed.

Lemma sort_values_not_Failed (L : PyLib) (c : string) (df : DataFrame) (e : error) :
  sort_values L c df <> Failed e.
Proof.
  unfold sort_values, nargsort. destruct (has_column c df); [|discriminate].
  destruct (forallb is_str _); simpl; [discriminate|].
  destruct (forallb is_int _); discriminate.
Qed.

Lemma links_before_sort_Failed (L : PyLib) (df : DataFrame) (e : error) :
  links_before_sort L df = Failed e ->
  detect_main_domain L df = Failed e
  \/ exists m, detect_main_domain L df = Ok m
               /\ e = MissingColumn "Destination"
               /\ has_column "Destination" (drop_range (drop_initial df)) = false.
Proof.
  unfold links_before_sort, links_after_status.
  destruct (detect_main_domain L df) as [m|e'|x]; simpl;
    [|intro H; left; inversion H; reflexivity | discriminate].
  destruct (keep_main_domain L m _) as [d7|e'|x] eqn:K; simpl; [| |discriminate].
  - destruct (drop_duplicates "Source" "Destination" (keep_status_200 d7))
      as [d10|e'|x] eqn:U; simpl.
    + destruct (drop_unwanted_extensions d10) as [d11|e'|x] eqn:X; simpl; try discriminate.
      now apply (drop_unwanted_extensions_not_Failed _ _ _ U) in X.
    + unfold drop_duplicates in U. destruct (_ && _) in U; discriminate.
    + discriminate.
  - intro H. inversion H. subst e'. right. exists m.
    apply keep_main_domain_Failed in K. destruct K as [-> K].
    rewrite has_column_destination_prepared in K. auto.
Qed.

(** A run that ends with a reported error names its cause: [Source] is
    reported missing only when the input has no [Source] column, the empty
    set of domains only when the input has that column and no record, and
    [Destination] only when the input has the [Source] column and a record
    and the [Destination] column is not there after step 4; there is no
    other reported error. *)
Theorem reported_error_names_its_cause (L : PyLib) (df : DataFrame) (e : error) :
  process_data L df = Failed e ->
  (e = MissingColumn "Source" /\ has_column "Source" df = false)
  \/ (e = EmptyDomainSet /\ has_column "Source" df = true /\ rows df = [])
  \/ (e = MissingColumn "Destination"
      /\ has_column "Source" df = true /\ rows df <> []
      /\ has_column "Destination" (drop_range (drop_initial df)) = false).
Proof.
  unfold process_data.
  destruct (links_before_sort L df) as [d14|e'|x] eqn:B; simpl; [| |discriminate].
  - destruct (sort_values L "Source" _) as [sorted|e'|x] eqn:S; simpl; try discriminate.
    now apply sort_values_not_Failed in S.
  - intro H. inversion H. subst e'. apply links_before_sort_Failed in B.
    destruct B as [D|(m & D & E & HD)].
    + apply detect_main_domain_Failed in D. tauto.
    + apply detect_main_domain_Ok in D. tauto.
Qed.

Lemma reported_error_names_its_cause_witness :
  (MissingColumn "Destination" = MissingColumn "Source"
   /\ has_column "Source" destination_in_range = false)
  \/ (MissingColumn "Destination" = EmptyDomainSet
      /\ has_column "Source" destination_in_range = true /\ rows destination_in_range = [])
  \/ (MissingColumn "Destination" = MissingColumn "Destination"
      /\ has_column "Source" destination_in_range = true /\ rows destination_in_range <> []
      /\ has_column "Destination" (drop_range (drop_initial destination_in_range)) = false).
Proof.
  apply (reported_error_names_its_cause stable_lib destination_in_range). reflexivity.
Defined.



(** ** Cells of [Source] that [urlparse] cannot decode *)

Lemma mapM_extract_Raised (L : PyLib) (urls : list cell) (c : cell) :
  In c urls -> is_str c = false ->
  exists x, mapM (extract_main_domain L) urls = Raised x.
Proof.
  intros Hin Hc. destruct (mapM (extract_main_domain L) urls) as [domains|e|x] eqn:M.
  - pose proof (mapM_extract_text L urls domains M c Hin). congruence.
  - now apply mapM_extract_not_Failed in M.
  - eauto.
Qed.

(** When the input has the [Source] column and one of its cells is the
    missing value [NaN] or a number other than 0, the run raises an
    exception: there is neither a result nor a reported error. *)
Theorem source_missing_or_nonzero_number_raises (L : PyLib) (df : DataFrame) (r : row) :
  has_column "Source" df = true ->
  In r (rows df) ->
  get "Source" r = NaN \/ (exists z, get "Source" r = Int z /\ z <> 0%Z) ->
  exists x, process_data L df = Raised x.
Proof.
  intros HS Hr Hc.
  assert (T : is_str (get "Source" r) = false).
  { destruct Hc as [->|(z & -> & _)]; reflexivity. }
  destruct (mapM_extract_Raised L (column "Source" df) (get "Source" r)) as [x M];
    [unfold column; now apply in_map | exact T |].
  exists x. unfold process_data, links_before_sort, links_after_status, detect_main_domain.
  now rewrite HS, M.
Qed.

Lemma source_missing_or_nonzero_number_raises_witness :
  exists x, process_data stable_lib source_cell_missing = Raised x.
Proof.
  apply (source_missing_or_nonzero_number_raises stable_lib source_cell_missing
           [("Source", NaN); ("Destination", Str "http://a.com/y"); ("Anchor", Str "y")]).
  - reflexivity.
  - right. now left.
  - now left.
Defined.

(** ** The main domain as a pattern *)

Lemma prefix_match_here (pat s : string) :
  prefix pat s = true -> match_here pat s = true.
Proof.
  revert s. induction pat as [|p pat IH]; intro s; [reflexivity|].
  destruct s as [|c s]; simpl; [discriminate|].
  destruct (ascii_dec p c) as [<-|N]; [|discriminate].
  intro H. rewrite (IH s H), andb_true_r.
  destruct (Ascii.eqb p ".") eqn:E; [|apply Ascii.eqb_refl].
  apply Ascii.eqb_eq in E. now subst p.
Qed.

Lemma contains_search (pat s : string) :
  contains pat s = true -> search pat s = true.
Proof.
  induction s as [|c s IH]; simpl; intro H; apply orb_true_iff in H; apply orb_true_iff.
  - destruct H as [H|H]; [left; now apply prefix_match_here | discriminate].
  - destruct H as [H|H]; [left; now apply prefix_match_here | right; now apply IH].
Qed.

Lemma match_here_prefix (pat s : string) :
  has_char "." pat = false -> match_here pat s = prefix pat s.
Proof.
  revert s. induction pat as [|p pat IH]; intros s H; [now destruct s|].
  unfold has_char in H. cbn [string_existsb] in H.
  apply orb_false_iff in H. destruct H as [Hp H].
  destruct s as [|c s]; simpl; [reflexivity|].
  rewrite Ascii.eqb_sym in Hp. rewrite Hp, (IH s H).
  destruct (ascii_dec p c) as [<-|N].
  - now rewrite Ascii.eqb_refl.
  - apply Ascii.eqb_neq in N. now rewrite N.
Qed.

Lemma search_contains (pat s : string) :
  has_char "." pat = false -> search pat s = contains pat s.
Proof.
  intro H. induction s as [|c s IH]; simpl; rewrite (match_here_prefix _ _ H);
    [reflexivity | now rewrite IH].
Qed.

Lemma keep_main_domain_found (L : PyLib) (m : string) (found : string -> bool)
      (df kept : DataFrame) :
  re_compile L m = Some found ->
  keep_main_domain L m df = Ok kept ->
  rows kept = filter (fun r => match get "Destination" r with
                               | Str s => found s
                               | _ => false
                               end) (rows df).
Proof.
  intros HL. unfold keep_main_domain. rewrite HL.
  destruct (has_column "Destination" df); [|discriminate].
  destruct (str_accessor (column "Destination" df)); try discriminate. simpl.
  intro H. inversion H. reflexivity.
Qed.

(** For a main domain that is a plain pattern (letters, digits, [-], [_],
    [:], [@] and [.]) which the library compiles, and finds in a string
    where such a pattern is found (the dot standing for any character but
    the line feed, every other character for itself), step 7 drops no
    record whose [Destination] contains the main domain as a substring. *)
Theorem destination_with_main_domain_is_kept
        (L : PyLib) (m : string) (found : string -> bool)
        (df kept : DataFrame) (r : row) (s : string) :
  string_forallb plain_pattern_char m = true ->
  re_compile L m = Some found ->
  (forall t, found t = search m t) ->
  keep_main_domain L m df = Ok kept ->
  In r (rows df) ->
  get "Destination" r = Str s ->
  contains m s = true ->
  In r (rows kept).
Proof.
  intros _ HL HF K Hr Hs Hc. rewrite (keep_main_domain_found L m found df kept HL K).
  apply filter_In. split; [exact Hr|]. rewrite Hs, HF. now apply contains_search.
Qed.

Lemma destination_with_main_domain_is_kept_witness :
  In (link "http://localhost:8000/a" "http://localhost:8000/b" "b")
     (rows (links [link "http://localhost:8000/a" "http://localhost:8000/b" "b"])).
Proof.
  apply (destination_with_main_domain_is_kept stable_lib "localhost:8000"
           (search "localhost:8000") local_pages _ _ "http://localhost:8000/b").
  - reflexivity.
  - reflexivity.
  - reflexivity.
  - reflexivity.
  - now left.
  - reflexivity.
  - reflexivity.
Defined.

(** For such a main domain that has no dot, step 7 keeps exactly the
    records whose [Destination] is text that contains the main domain as a
    substring. *)
Theorem main_domain_without_dot_is_a_substring_filter
        (L : PyLib) (m : string) (found : string -> bool) (df kept : DataFrame) :
  string_forallb plain_pattern_char m = true ->
  re_compile L m = Some found ->
  (forall t, found t = search m t) ->
  has_char "." m = false ->
  keep_main_domain L m df = Ok kept ->
  rows kept = filter (fun r => match get "Destination" r with
                               | Str s => contains m s
                               | _ => false
                               end) (rows df).
Proof.
  intros _ HL HF Hm K. rewrite (keep_main_domain_found L m found df kept HL K).
  apply filter_ext. intro r. destruct (get "Destination" r); try reflexivity.
  rewrite HF. now apply search_contains.
Qed.

Lemma main_domain_without_dot_is_a_substring_filter_witness :
  rows (links [link "http://localhost:8000/a" "http://localhost:8000/b" "b"])
  = filter (fun r => match get "Destination" r with
                     | Str s => contains "localhost:8000" s
                     | _ => false
                     end) (rows local_pages).
Proof.
  apply (main_domain_without_dot_is_a_substring_filter stable_lib "localhost:8000"
           (search "localhost:8000") local_pages).
  - reflexivity.
  - reflexivity.
  - reflexivity.
  - reflexivity.
  - reflexivity.
Defined.

(** ** The records of the table of counts *)

(** In a successful run every record of the table of counts holds a
    [Destination] of the cleaned table, with the number of records of the
    cleaned table that have it, which is at least 1. *)
Theorem counted_urls_are_in_cleaned_table
        (L : PyLib) (df cleaned counts : DataFrame) (r : row) :
  LibOk L ->
  process_data L df = Ok (cleaned, counts) ->
  In r (rows counts) ->
  exists d n,
    r = count_row d n
    /\ In d (column "Destination" cleaned)
    /\ n = occurrences "Destination" d cleaned
    /\ 1 <= n.
Proof.
  intros OK H Hr.
  destruct (process_data_tables L df cleaned counts OK H) as (d14 & _ & -> & _ & PD & _).
  rewrite counts_frame_rows in Hr. apply in_map_iff in Hr. destruct Hr as ([d n] & <- & Hv).
  apply (value_counts_In L _ _ _ OK) in Hv. destruct Hv as (_ & Hd & ->).
  exists d, (count_of cell_eqb d (column "Destination" d14)). split; [reflexivity|].
  assert (Hc : In d (column "Destination" cleaned))
    by exact (Permutation_in _ (Permutation_sym PD) Hd).
  split; [exact Hc|]. split.
  - unfold occurrences. symmetry. now apply count_of_Permutation.
  - assert (0 < count_of cell_eqb d (column "Destination" d14))
      by now apply (count_of_pos cell_eqb cell_eqb_eq).
    lia.
Qed.

Lemma counted_urls_are_in_cleaned_table_witness :
  exists d n,
    count_row (Str "http://a.com/x") 2 = count_row d n
    /\ In d (column "Destination" scenario_A_cleaned)
    /\ n = occurrences "Destination" d scenario_A_cleaned
    /\ 1 <= n.
Proof.
  apply (counted_urls_are_in_cleaned_table stable_lib scenario_A scenario_A_cleaned scenario_A_counts).
  - exact stable_lib_ok.
  - reflexivity.
  - now left.
Defined.

(** ** The network location of a URL *)

Lemma substring_all (s : string) : substring 0 (String.length s) s = s.
Proof. induction s as [|c s IH]; simpl; [reflexivity | now rewrite IH]. Qed.

Lemma substring_append (s t : string) : substring 0 (String.length s) (s ++ t)%string = s.
Proof.
  induction s as [|c s IH]; simpl; [now destruct t | now rewrite IH].
Qed.

Lemma remove_append (p : ascii -> bool) (s t : string) :
  remove p (s ++ t)%string = (remove p s ++ remove p t)%string.
Proof.
  induction s as [|c s IH]; simpl; [reflexivity|]. destruct (p c); simpl; now rewrite IH.
Qed.

Lemma remove_nothing (p : ascii -> bool) (s : string) :
  string_forallb (fun c => negb (p c)) s = true -> remove p s = s.
Proof.
  induction s as [|c s IH]; simpl; [reflexivity|]. intro H. apply andb_true_iff in H.
  destruct H as [Hc H]. apply negb_true_iff in Hc. rewrite Hc. now rewrite IH.
Qed.

Lemma length_append (s t : string) :
  String.length (s ++ t)%string = String.length s + String.length t.
Proof. induction s as [|c s IH]; simpl; [reflexivity | now rewrite IH]. Qed.

Lemma split_scheme_http (t : string) : split_scheme ("http://" ++ t)%string = ("//" ++ t)%string.
Proof.
  unfold split_scheme, slice_from. cbn. now rewrite substring_all.
Qed.

Lemma split_scheme_https (t : string) : split_scheme ("https://" ++ t)%string = ("//" ++ t)%string.
Proof.
  unfold split_scheme, slice_from. cbn. now rewrite substring_all.
Qed.

Lemma index_skip (c : ascii) (host t : string) :
  string_forallb (fun x => negb (Ascii.eqb x c)) host = true ->
  index 0 (String c "") (host ++ t)%string
  = match index 0 (String c "") t with
    | Some w => Some (String.length host + w)
    | None => None
    end.
Proof.
  induction host as [|b host IH]; intro H.
  - simpl. now destruct (index 0 (String c "") t).
  - cbn [string_forallb] in H. apply andb_true_iff in H. destruct H as [Hb H].
    apply negb_true_iff, Ascii.eqb_neq in Hb.
    simpl. destruct (ascii_dec c b) as [E|_]; [congruence|].
    rewrite (IH H). now destruct (index 0 (String c "") t).
Qed.

Lemma prefix_nil (s : string) : prefix "" s = true.
Proof. now destruct s. Qed.

Lemma netloc_char_other (c d : ascii) :
  netloc_char c = true -> In d ["/"; "?"; "#"; "["; "]"]%char -> Ascii.eqb c d = false.
Proof.
  unfold netloc_char. intros H Hd. apply andb_true_iff in H. destruct H as [_ H].
  apply negb_true_iff in H. repeat (apply orb_false_iff in H; destruct H as [H ?]).
  simpl in Hd. intuition; subst; assumption.
Qed.

Lemma host_without (d : ascii) (host : string) :
  string_forallb netloc_char host = true -> In d ["/"; "?"; "#"; "["; "]"]%char ->
  string_forallb (fun x => negb (Ascii.eqb x d)) host = true.
Proof.
  intros H Hd. induction host as [|c host IH]; [reflexivity|].
  cbn [string_forallb] in *. apply andb_true_iff in H. destruct H as [Hc H].
  rewrite (netloc_char_other c d Hc Hd). simpl. now apply IH.
Qed.

Lemma splitnetloc_authority (host rest : string) :
  string_forallb netloc_char host = true -> after_netloc rest = true ->
  splitnetloc ("//" ++ host ++ rest)%string 2 = host.
Proof.
  intros Hh Hr. unfold splitnetloc.
  change ("//" ++ host ++ rest)%string with (String "/" (String "/" (host ++ rest)%string)).
  cbn [fold_left index String.length].
  rewrite !index_skip by (apply host_without; [exact Hh | simpl; tauto]).
  rewrite length_append.
  assert (F : forall m, substring 2 m (String "/" (String "/" (host ++ rest)%string))
                        = substring 0 m (host ++ rest)%string) by reflexivity.
  destruct rest as [|d rest].
  - cbn [index String.length].
    replace (S (S (String.length host + 0)) - 2) with (String.length host) by lia.
    rewrite F. apply substring_append.
  - cbn [after_netloc] in Hr.
    assert (D : d = "/"%char \/ d = "?"%char \/ d = "#"%char).
    { apply orb_true_iff in Hr. destruct Hr as [Hr|Hr]; [apply orb_true_iff in Hr; destruct Hr as [Hr|Hr]|];
        apply Ascii.eqb_eq in Hr; auto. }
    destruct D as [ -> | [ -> | -> ] ]; cbn [index prefix String.length]; simpl ascii_dec;
      cbv iota; rewrite prefix_nil;
      repeat match goal with
             | |- context [index 0 ?c rest] => destruct (index 0 c rest)
             end;
      cbv beta iota;
      match goal with
      | |- substring 2 ?m _ = _ => replace m with (String.length host) by lia
      end;
      rewrite F; apply substring_append.
Qed.

Lemma netloc_char_bounds (c : ascii) :
  netloc_char c = true -> isascii c = true /\ unsafe_url_byte c = false.
Proof.
  unfold netloc_char, isascii, unsafe_url_byte, between. intro H.
  apply andb_true_iff in H. destruct H as [H _]. apply andb_true_iff in H.
  destruct H as [H1 H2]. apply Nat.leb_le in H1, H2. split.
  - apply andb_true_iff. split; apply Nat.leb_le; lia.
  - repeat (apply orb_false_iff; split); apply Nat.eqb_neq; lia.
Qed.

Lemma host_is_clean (host : string) :
  string_forallb netloc_char host = true ->
  string_forallb isascii host = true
  /\ string_forallb (fun c => negb (unsafe_url_byte c)) host = true
  /\ has_char "[" host = false
  /\ has_char "]" host = false.
Proof.
  unfold has_char. induction host as [|c host IH]; [now repeat split|].
  cbn [string_forallb string_existsb]. intro H. apply andb_true_iff in H.
  destruct H as [Hc H]. destruct (IH H) as (I1 & I2 & I3 & I4).
  destruct (netloc_char_bounds c Hc) as [B1 B2].
  rewrite I1, I2, I3, I4, B1, B2.
  rewrite (Ascii.eqb_sym "[" c), (Ascii.eqb_sym "]" c).
  rewrite !(netloc_char_other c) by (exact Hc || (simpl; tauto)).
  now repeat split.
Qed.

Lemma after_netloc_remove (rest : string) :
  after_netloc rest = true -> after_netloc (remove unsafe_url_byte rest) = true.
Proof.
  destruct rest as [|d rest]; [reflexivity|]. cbn [after_netloc]. intro H.
  assert (D : d = "/"%char \/ d = "?"%char \/ d = "#"%char).
  { apply orb_true_iff in H. destruct H as [H|H];
      [apply orb_true_iff in H; destruct H as [H|H]|]; apply Ascii.eqb_eq in H; auto. }
  destruct D as [ -> | [ -> | -> ] ]; reflexivity.
Qed.

Lemma urlsplit_netloc_authority (L : PyLib) (host rest : string) :
  string_forallb netloc_char host = true -> after_netloc rest = true ->
  urlsplit_netloc L ("http://" ++ host ++ rest)%string = Ok host
  /\ urlsplit_netloc L ("https://" ++ host ++ rest)%string = Ok host.
Proof.
  intros Hh Hr. destruct (host_is_clean host Hh) as (A & U & B1 & B2).
  pose proof (after_netloc_remove rest Hr) as Hr'.
  assert (E : forall scheme,
             lstrip c0_control_or_space (scheme ++ host ++ rest)%string
             = (scheme ++ host ++ rest)%string ->
             remove unsafe_url_byte scheme = scheme ->
             split_scheme (scheme ++ host ++ remove unsafe_url_byte rest)%string
             = ("//" ++ host ++ remove unsafe_url_byte rest)%string ->
             urlsplit_netloc L (scheme ++ host ++ rest)%string = Ok host).
  { intros scheme E1 E2 E3. unfold urlsplit_netloc.
    rewrite E1, !remove_append, E2, (remove_nothing _ host U), E3.
    change (substring 0 2 ("//" ++ host ++ remove unsafe_url_byte rest)%string)
      with (String "/" (String "/" (substring 0 0 (host ++ remove unsafe_url_byte rest)%string))).
    replace (substring 0 0 (host ++ remove unsafe_url_byte rest)%string) with EmptyString
      by now destruct (host ++ remove unsafe_url_byte rest)%string.
    cbn [String.eqb Ascii.eqb Bool.eqb andb].
    rewrite (splitnetloc_authority host _ Hh Hr'), B1, B2, A. reflexivity. }
  split; apply E; try reflexivity.
  - apply split_scheme_http.
  - apply split_scheme_https.
Qed.

Lemma has_char_get (c : ascii) (s : string) :
  has_char c s = true -> exists p, String.get p s = Some c.
Proof.
  unfold has_char. induction s as [|b s IH]; cbn [string_existsb]; [discriminate|].
  intro H. apply orb_true_iff in H. destruct H as [H|H].
  - apply Ascii.eqb_eq in H. subst b. now exists 0.
  - destruct (IH H) as [p Hp]. now exists (S p).
Qed.

Lemma substring_one (q : nat) (u : string) (c : ascii) :
  String.get q u = Some c -> substring q 1 u = String c "".
Proof.
  revert q. induction u as [|b u IH]; intros q H; [discriminate|].
  destruct q as [|q]; simpl in *.
  - inversion H. now destruct u.
  - now apply IH.
Qed.

Lemma index_found (n q : nat) (u : string) (c : ascii) :
  String.get q u = Some c -> n <= q ->
  exists w, index n (String c "") u = Some w /\ w <= q.
Proof.
  intros H Hn. apply substring_one in H.
  destruct (index n (String c "") u) as [w|] eqn:E.
  - exists w. split; [reflexivity|]. destruct (Nat.le_gt_cases w q) as [Hw|Hw]; [exact Hw|].
    exfalso. exact (index_correct2 n w _ u E q Hn Hw H).
  - exfalso. apply (index_correct3 n q _ u E); [discriminate | exact Hn | exact H].
Qed.

Lemma splitnetloc_delimiters (u : string) (n : nat) (c : ascii) :
  In c ["/"; "?"; "#"]%char -> has_char c (splitnetloc u n) = false.
Proof.
  intro Hc. destruct (has_char c (splitnetloc u n)) eqn:E; [|reflexivity]. exfalso.
  apply has_char_get in E. destruct E as [p Hp]. unfold splitnetloc in Hp.
  set (delim := fold_left _ _ _) in Hp.
  destruct (Nat.le_gt_cases (delim - n) p) as [Hle|Hlt].
  { rewrite substring_correct2 in Hp by exact Hle. discriminate. }
  rewrite substring_correct1 in Hp by exact Hlt.
  destruct (index_found n (p + n) u c Hp) as (w & Hw & Hwp); [lia|].
  assert (delim <= w).
  { unfold delim. cbn [fold_left]. simpl in Hc.
    destruct Hc as [<-|[<-|[<-|[]]]]; rewrite Hw;
      repeat match goal with
             | |- context [index n ?d u] => destruct (index n d u)
             end; lia. }
  lia.
Qed.

Lemma urlsplit_netloc_delimiters (L : PyLib) (url d : string) (c : ascii) :
  urlsplit_netloc L url = Ok d -> In c ["/"; "?"; "#"]%char -> has_char c d = false.
Proof.
  unfold urlsplit_netloc. intros H Hc.
  destruct (String.eqb _ "//"); [|inversion H; reflexivity].
  destruct (xorb _ _); [discriminate|].
  destruct (_ && negb _); [discriminate|].
  inversion H. now apply splitnetloc_delimiters.
Qed.

Lemma urlsplit_netloc_rooted (L : PyLib) (path : string) :
  first_is (fun c => Ascii.eqb c "/" || unsafe_url_byte c) path = false ->
  urlsplit_netloc L (String "/" path) = Ok "".
Proof.
  intro H. unfold urlsplit_netloc.
  change (lstrip c0_control_or_space (String "/" path)) with (String "/" path).
  change (remove unsafe_url_byte (String "/" path))
    with (String "/" (remove unsafe_url_byte path)).
  assert (S : forall q, split_scheme (String "/" q) = String "/" q).
  { intro q. unfold split_scheme. destruct (index 0 ":" (String "/" q)); [|reflexivity].
    change (first_is isalpha (String "/" q)) with false.
    now rewrite andb_false_r. }
  rewrite S. destruct path as [|c path]; [reflexivity|].
  cbn [first_is] in H. apply orb_false_iff in H. destruct H as [Hc Hu].
  cbn [remove]. rewrite Hu.
  change (substring 0 2 (String "/" (String c (remove unsafe_url_byte path))))
    with (String "/" (String c (substring 0 0 (remove unsafe_url_byte path)))).
  cbn [String.eqb]. rewrite Ascii.eqb_refl, Hc. reflexivity.
Qed.

(** For a URL made of [http://] or [https://], a network location of
    printable ASCII characters other than [/], [?], [#] and the brackets,
    and then nothing or a path, a query or a fragment,
    [extract_main_domain] returns that network location, with the user
    information and the port if it has them. *)
Theorem domain_of_http_url (L : PyLib) (host rest : string) :
  string_forallb netloc_char host = true ->
  after_netloc rest = true ->
  extract_main_domain L (Str ("http://" ++ host ++ rest)%string) = Ok host
  /\ extract_main_domain L (Str ("https://" ++ host ++ rest)%string) = Ok host.
Proof. exact (urlsplit_netloc_authority L host rest). Qed.

Lemma domain_of_http_url_witness :
  extract_main_domain stable_lib (Str "http://user@a.com:8080/p?q=1#top") = Ok "user@a.com:8080"
  /\ extract_main_domain stable_lib (Str "https://user@a.com:8080/p?q=1#top") = Ok "user@a.com:8080".
Proof.
  apply (domain_of_http_url stable_lib "user@a.com:8080" "/p?q=1#top"); reflexivity.
Defined.

(** For a path that starts with one [/] (not followed by a second [/], a
    tab, a line feed or a carriage return), [extract_main_domain] returns
    the empty string. *)
Theorem domain_of_rooted_path (L : PyLib) (path : string) :
  first_is (fun c => Ascii.eqb c "/" || unsafe_url_byte c) path = false ->
  extract_main_domain L (Str (String "/" path)) = Ok "".
Proof. exact (urlsplit_netloc_rooted L path). Qed.

Lemma domain_of_rooted_path_witness :
  extract_main_domain stable_lib (Str "/blog/post") = Ok "".
Proof.
  apply (domain_of_rooted_path stable_lib "blog/post"). reflexivity.
Defined.

Lemma mapM_In {A B : Type} (f : A -> outcome B) (l : list A) (bs : list B) (b : B) :
  mapM f l = Ok bs -> In b bs -> exists a, In a l /\ f a = Ok b.
Proof.
  revert bs. induction l as [|a l IH]; intros bs H Hb; simpl in H.
  - inversion H. subst bs. contradiction.
  - destruct (f a) as [b0| |] eqn:E; try discriminate. simpl in H.
    destruct (mapM f l) as [bs0| |]; try discriminate. simpl in H.
    inversion H. subst bs. destruct Hb as [<-|Hb].
    + exists a. split; [now left | exact E].
    + destruct (IH bs0 eq_refl Hb) as (a' & Ha & Ea). exists a'. split; [now right | exact Ea].
Qed.

(** The detected main domain is the network location of the [Source] of
    a record of the input, and has no [/], no [?] and no [#] in it. *)
Theorem main_domain_is_a_network_location (L : PyLib) (df : DataFrame) (d : string) :
  detect_main_domain L df = Ok d ->
  (exists r, In r (rows df) /\ extract_main_domain L (get "Source" r) = Ok d)
  /\ has_char "/" d = false /\ has_char "?" d = false /\ has_char "#" d = false.
Proof.
  intro H. destruct (detect_main_domain_Ok L df d H) as [HS HR].
  destruct (mapM (extract_main_domain L) (column "Source" df)) as [domains| |] eqn:M;
    try (unfold detect_main_domain in H; rewrite HS, M in H; discriminate).
  destruct (detect_main_domain_spec L df domains HS M HR) as (d' & Hd' & Hin & _).
  rewrite H in Hd'. inversion Hd'. subst d'. clear Hd'.
  destruct (mapM_In _ _ _ _ M Hin) as (c & Hc & Ec).
  unfold column in Hc. apply in_map_iff in Hc. destruct Hc as (r & <- & Hr).
  split; [eauto|].
  destruct (get "Source" r) as [|url|z]; try discriminate. simpl in Ec.
  repeat split; apply (urlsplit_netloc_delimiters L url d _ Ec); simpl; tauto.
Qed.

Lemma main_domain_is_a_network_location_witness :
  (exists r, In r (rows two_hosts) /\ extract_main_domain stable_lib (get "Source" r) = Ok "a.com")
  /\ has_char "/" "a.com" = false /\ has_char "?" "a.com" = false
  /\ has_char "#" "a.com" = false.
Proof.
  apply (main_domain_is_a_network_location stable_lib two_hosts "a.com"). reflexivity.
Defined.

(** ** [Source] in the range of step 4 *)

Lemma range_drops_source (df : DataFrame) (i k j : nat) :
  get_loc "Follow" (columns df) = Some i ->
  get_loc "Source" (columns df) = Some k ->
  get_loc "Link Path" (columns df) = Some j ->
  i <= k <= j ->
  has_column "Source" (drop_range (drop_initial df)) = false.
Proof.
  intros Hi Hk Hj Le.
  set (p := fun c => negb (mem c (existing columns_to_drop_initial df))).
  assert (P : forall c, mem c columns_to_drop_initial = false -> p c = true).
  { intros c Hc. unfold p, existing. rewrite mem_filter, Hc. reflexivity. }
  pose proof (get_loc_filter p _ _ _ (P "Follow" eq_refl) Hi) as Hi'.
  pose proof (get_loc_filter p _ _ _ (P "Source" eq_refl) Hk) as Hk'.
  pose proof (get_loc_filter p _ _ _ (P "Link Path" eq_refl) Hj) as Hj'.
  change (filter p (columns df)) with (columns (drop_initial df)) in Hi', Hk', Hj'.
  unfold drop_range.
  assert (HF : has_column "Follow" (drop_initial df) = true) by (apply mem_In, get_loc_In; eauto).
  assert (HL : has_column "Link Path" (drop_initial df) = true) by (apply mem_In, get_loc_In; eauto).
  rewrite HF, HL. cbn [andb]. rewrite has_column_drop.
  rewrite (mem_loc_slice_between _ _ _ _ _ _ _ Hi' Hk' Hj').
  - apply andb_false_r.
  - split; apply filter_firstn_le; lia.
Qed.

Lemma source_missing_at_step_10 (L : PyLib) (m : string) (df d7 : DataFrame) :
  has_column "Source" (drop_range (drop_initial df)) = false ->
  keep_main_domain L m (drop_final (keep_content (drop_range (drop_initial df)))) = Ok d7 ->
  drop_duplicates "Source" "Destination" (keep_status_200 d7) = Raised KeyError.
Proof.
  intros HN K. destruct (keep_main_domain_Ok _ _ _ _ K) as [C7 _].
  unfold drop_duplicates.
  destruct (has_column "Source" (keep_status_200 d7)) eqn:E; [|reflexivity].
  apply has_column_keep_status_200 in E. destruct E as [E _].
  unfold has_column in E. rewrite C7 in E.
  fold (has_column "Source" (drop_final (keep_content (drop_range (drop_initial df))))) in E.
  apply has_column_drop_final in E. rewrite has_column_keep_content in E. congruence.
Qed.

(** When the main domain is detected, step 7 succeeds, and [Source] stands
    from the position of [Follow] to that of [Link Path], step 4 removes
    the [Source] column and the deduplication of step 10 raises
    [KeyError]: the run gives neither a result nor a reported error. *)
Theorem source_in_dropped_range_raises_KeyError
        (L : PyLib) (df d7 : DataFrame) (m : string) (i k j : nat) :
  detect_main_domain L df = Ok m ->
  keep_main_domain L m (drop_final (keep_content (drop_range (drop_initial df)))) = Ok d7 ->
  get_loc "Follow" (columns df) = Some i ->
  get_loc "Source" (columns df) = Some k ->
  get_loc "Link Path" (columns df) = Some j ->
  i <= k <= j ->
  process_data L df = Raised KeyError.
Proof.
  intros D K Hi Hk Hj Le.
  pose proof (range_drops_source df i k j Hi Hk Hj Le) as HN.
  pose proof (source_missing_at_step_10 L m df d7 HN K) as U.
  unfold process_data, links_before_sort, links_after_status.
  rewrite D. simpl. rewrite K. simpl. rewrite U. reflexivity.
Qed.

Lemma source_in_dropped_range_raises_KeyError_witness :
  process_data stable_lib source_in_range = Raised KeyError.
Proof.
  apply (source_in_dropped_range_raises_KeyError stable_lib source_in_range
           (mkDF ["Destination"; "Anchor"]
                 [[("Destination", Str "http://a.com/x"); ("Anchor", Str "x")]])
           "a.com" 0 1 2); try reflexivity.
  lia.
Defined.
